(** * seller-sync: a shallow embedding of [seller_sync.py]

    The program splits a consolidated workbook of per-merchant sales data
    into one workbook per merchant (class [SpreadsheetSplitter]) and then,
    after an interactive confirmation, mails every generated file through a
    desktop mail client (class [Mailman], [send_multiple_emails], [main]).

    Conventions of the embedding.
    - A Python [str] is represented by its UTF-8 encoding, a Rocq [string].
      The program only concatenates strings, compares them for equality,
      replaces the space character and deletes the characters outside
      [A-Za-z0-9]; all four commute with UTF-8 encoding, every byte of a
      multi-byte sequence being above 127.
    - Cell values are integers, strings, [None] (an empty openpyxl cell) or
      NaN (an empty cell as pandas reads it).  Floating point cells other
      than NaN are outside the model.
    - A method of the source is a computation in the monad [M St]: a state
      transformer that ends in a value or in a raised exception, and keeps
      the state reached when the exception was raised.
    - Calls to [logging] and the [tqdm] progress bar are left out: they write
      to [app.log] and to stderr only and never influence the control flow.
      The file [app.log] is therefore not part of the disk of the model.
    - The file system is a set of directory names and a map from paths to
      the content of the workbooks stored there, a content being what
      [load_workbook] reads from the file.  Paths are in POSIX syntax, with
      "/" as the separator, as the program itself builds them; two spellings
      of one path are two names.  Permissions, and a regular file standing
      where a directory is needed, are outside the model.
    - The row labels of a DataFrame (its pandas index) are not tracked.  The
      program reads them at two places only: [reset_index] moves them into a
      column that is never read afterwards, and [contacts[...][0]] and
      [emails[idx]] index a table whose index [get_contacts] has just
      rebuilt as 0..n-1, where label and position coincide. *)

From stdpp Require Import base option list gmap sets strings.
From Stdlib Require Import ZArith Ascii.

Local Open Scope Z_scope.

(** ** Values, exceptions, results *)

Inductive value : Type :=
| VNone
| VNaN
| VInt (z : Z)
| VStr (s : string).

#[global] Instance value_eq_dec : EqDecision value.
Proof. solve_decision. Defined.

Inductive exn : Type :=
| KeyError
| IndexError
| ValueError
| TypeError
| AttributeError
| AssertionError
| FileNotFoundError.

#[global] Instance exn_eq_dec : EqDecision exn.
Proof. solve_decision. Defined.

Inductive result (A : Type) : Type :=
| Ok (a : A)
| Raise (e : exn).
Arguments Ok {A} a.
Arguments Raise {A} e.

#[global] Instance result_eq_dec {A} `{EqDecision A} : EqDecision (result A).
Proof. solve_decision. Defined.

Definition is_ok {A} (r : result A) : bool :=
  match r with Ok _ => true | Raise _ => false end.

(** ** The state-and-exception monad *)

Module Monad.

Definition M (St A : Type) : Type := St → St * result A.

Definition ret {St A} (a : A) : M St A := λ s, (s, Ok a).

Definition raise {St A} (e : exn) : M St A := λ s, (s, Raise e).

Definition bind {St A B} (m : M St A) (k : A → M St B) : M St B :=
  λ s, match m s with
       | (s', Ok a) => k a s'
       | (s', Raise e) => (s', Raise e)
       end.

Definition get {St} : M St St := λ s, (s, Ok s).

Definition modify {St} (f : St → St) : M St unit := λ s, (f s, Ok tt).

Definition lift {St A} (r : result A) : M St A := λ s, (s, r).

(** Run a computation on a component of the state. *)
Definition zoom {St T A} (proj : St → T) (upd : T → St → St)
    (m : M T A) : M St A :=
  λ s, match m (proj s) with (t', r) => (upd t' s, r) end.

(** [for x in xs: body(x)] *)
Fixpoint for_each {St X} (xs : list X) (body : X → M St unit) : M St unit :=
  match xs with
  | [] => ret tt
  | x :: xs' => bind (body x) (λ _, for_each xs' body)
  end.

(** [list(map(f, xs))] for a fallible [f] that has no effect *)
Fixpoint map_result {X A} (f : X → result A) (xs : list X) : result (list A) :=
  match xs with
  | [] => Ok []
  | x :: xs' =>
      match f x with
      | Raise e => Raise e
      | Ok a => match map_result f xs' with
                | Raise e => Raise e
                | Ok l => Ok (a :: l)
                end
      end
  end.

End Monad.
Import Monad.

Notation "x <~ m ; k" := (bind m (λ x, k))
  (at level 20, m at level 100, k at level 200, only parsing).
Notation "m ~; k" := (bind m (λ _, k))
  (at level 100, k at level 200, right associativity, only parsing).

(** ** Strings: [str.replace] and [re.sub] *)

Fixpoint str_replace_char (a b : ascii) (s : string) : string :=
  match s with
  | EmptyString => EmptyString
  | String c r =>
      String (if Ascii.eqb c a then b else c) (str_replace_char a b r)
  end.

(** Membership in the character class [A-Za-z0-9]. *)
Definition is_alnum (c : ascii) : bool :=
  let n := N_of_ascii c in
  ((48 <=? n) && (n <=? 57) || (65 <=? n) && (n <=? 90)
   || (97 <=? n) && (n <=? 122))%N.

(** [re.sub('[^A-Za-z0-9]+', '', s)]: every maximal run of characters outside
    the class is one match and is replaced by the empty string, so the result
    keeps the characters of the class, in order. *)
Fixpoint re_sub_non_alnum (s : string) : string :=
  match s with
  | EmptyString => EmptyString
  | String c r =>
      if is_alnum c then String c (re_sub_non_alnum r) else re_sub_non_alnum r
  end.

(** ** Tables (pandas DataFrame) *)

Record DataFrame : Type := mkDataFrame {
  columns : list value;          (* column labels, left to right *)
  rows : list (list value)       (* data rows, top to bottom *)
}.

#[global] Instance DataFrame_eq_dec : EqDecision DataFrame.
Proof. solve_decision. Defined.

(** What [df[key]] evaluates to for a string [key]: a Series when exactly one
    column carries the label; when several do, a DataFrame of those columns,
    all of them labelled [key]. *)
Inductive selection : Type :=
| Series (vs : list value)
| Frame (key : string) (width : nat) (cells : list (list value)).

#[global] Instance selection_eq_dec : EqDecision selection.
Proof. solve_decision. Defined.

Fixpoint positions_from (n : nat) (key : value) (labels : list value) : list nat :=
  match labels with
  | [] => []
  | l :: ls =>
      if decide (l = key) then n :: positions_from (S n) key ls
      else positions_from (S n) key ls
  end.

Definition positions (key : value) (labels : list value) : list nat :=
  positions_from 0 key labels.

Definition cell_at (i : nat) (row : list value) : value := nth i row VNaN.

(** [df[key]] *)
Definition getitem (df : DataFrame) (key : string) : result selection :=
  match positions (VStr key) (columns df) with
  | [] => Raise KeyError
  | [i] => Ok (Series (map (cell_at i) (rows df)))
  | ps => Ok (Frame key (length ps)
                (map (λ r, map (λ i, cell_at i r) ps) (rows df)))
  end.

(** [len(x)] and iteration over a selection: a Series yields its values, a
    DataFrame its column labels. *)
Definition sel_len (x : selection) : nat :=
  match x with
  | Series vs => length vs
  | Frame _ _ cells => length cells
  end.

Definition sel_iter (x : selection) : list value :=
  match x with
  | Series vs => vs
  | Frame key width _ => replicate width (VStr key)
  end.

(** [x[i]] for an integer [i]: a Series indexed 0..n-1 returns its [i]-th
    value; on a DataFrame this is a lookup of the column labelled [i], and
    there is none, all the labels being the string [key]. *)
Definition sel_item (x : selection) (i : nat) : result value :=
  match x with
  | Series vs => match vs !! i with Some v => Ok v | None => Raise KeyError end
  | Frame _ _ _ => Raise KeyError
  end.

(** [v == merchant_id] for a Python int [merchant_id] *)
Definition value_eq_int (m : Z) (v : value) : bool :=
  match v with
  | VInt z => Z.eqb z m
  | _ => false
  end.

Fixpoint mask_rows (mask : list bool) (rs : list (list value)) : list (list value) :=
  match mask, rs with
  | b :: mask', r :: rs' => if b then r :: mask_rows mask' rs' else mask_rows mask' rs'
  | _, _ => []
  end.

(** [df[df[key] == m]].  When several columns carry the label the comparison
    yields a boolean DataFrame and the masking realigns it against duplicated
    labels, which pandas refuses; tables read by [read_excel] never get
    there, since it renames repeated headers. *)
Definition filter_eq (df : DataFrame) (key : string) (m : Z) : result DataFrame :=
  match getitem df key with
  | Raise e => Raise e
  | Ok (Series vs) =>
      Ok {| columns := columns df;
            rows := mask_rows (map (value_eq_int m) vs) (rows df) |}
  | Ok (Frame _ _ _) => Raise ValueError
  end.

(** ** Workbooks (openpyxl) *)

Abbreviation coord := (positive * positive)%type.
Abbreviation worksheet := (gmap coord value).
Abbreviation workbook := (gmap string worksheet).

(** The value read from a cell; a cell that was never created reads [None]. *)
Definition cell_value (ws : worksheet) (r c : positive) : value :=
  default VNone (ws !! (r, c)).

(** [ws.cell(row=r, column=c, value=v)]: the cell is created when missing and
    assigned only when [v] is not [None]. *)
Definition ws_cell (r c : positive) (v : value) (ws : worksheet) : worksheet :=
  match v with
  | VNone => match ws !! (r, c) with
             | Some _ => ws
             | None => <[(r, c) := VNone]> ws
             end
  | _ => <[(r, c) := v]> ws
  end.

(** ** The platform

    What the program takes from its interpreter and its host: the parser
    behind [int(s)] on a string, the reader behind [pd.read_excel], path
    normalisation, and the desktop mail client. *)

(** The fields of a [Mailman], that is, of one message. *)
Record Mailman : Type := mkMailman {
  email_list : value;
  subject : value;
  body : value;
  attachment : string
}.

(** What the run leaves on the console and in the mail client. *)
Inductive event : Type :=
| Printed (line : string)
| PrintedFrame (df : DataFrame)
| Prompted (prompt : string)
| MailSent (mail : Mailman).

Class Platform : Type := {
  (** [int(s)] for a string: [None] stands for ValueError *)
  int_of_str : string → option Z;
  (** [pd.read_excel(file, sheet_name=None, header=0)] on a file's content *)
  read_excel : workbook → gmap string DataFrame;
  (** [os.path.abspath] *)
  abspath : string → string;
  (** Dispatching, composing and sending one message, given what happened
      so far: [None] when every COM call returns, [Some text] when one of
      them raises an exception whose [str] is [text]. *)
  outlook : list event → Mailman → option string
}.

(** ** The world outside the process *)

Record World : Type := mkWorld {
  disk : gmap string workbook;   (* the .xlsx files, by path *)
  dirs : gset string;            (* the directories *)
  trace : list event             (* console output and mail sent, oldest first *)
}.

Definition set_disk (d : gmap string workbook) (w : World) : World :=
  {| disk := d; dirs := dirs w; trace := trace w |}.

Definition add_event (e : event) (w : World) : World :=
  {| disk := disk w; dirs := dirs w; trace := trace w ++ [e] |}.

(** [os.path.exists(p)]; the empty path names nothing. *)
Definition path_exists (p : string) (w : World) : bool :=
  bool_decide (p ≠ "")
  && (bool_decide (p ∈ dirs w) || bool_decide (is_Some (disk w !! p))).

(** The intermediate directories of a path: its prefixes that end before a
    "/", the empty prefix apart.  For "a/b/c" these are "a" and "a/b". *)
Fixpoint parents_from (pre rest : string) : list string :=
  match rest with
  | EmptyString => []
  | String c rest' =>
      (if Ascii.eqb c "/" && negb (String.eqb pre "") then [pre] else [])
      ++ parents_from (pre +:+ String c EmptyString) rest'
  end.

Definition parents (path : string) : list string := parents_from "" path.

(** [if not os.path.exists(d): os.makedirs(d)].  [os.makedirs] creates the
    directory and every intermediate directory that is missing; on the empty
    path it raises FileNotFoundError and creates nothing. *)
Definition ensure_dir (d : string) : M World unit :=
  λ w, if path_exists d w then (w, Ok tt)
       else if bool_decide (d = "") then (w, Raise FileNotFoundError)
       else ({| disk := disk w;
                dirs := {[d]} ∪ list_to_set (parents d) ∪ dirs w;
                trace := trace w |}, Ok tt).

(** [xl.load_workbook(path)] *)
Definition load_workbook (path : string) : M World workbook :=
  λ w, match disk w !! path with
       | Some wb => (w, Ok wb)
       | None => (w, Raise FileNotFoundError)
       end.

(** What a cell reads once the workbook has been saved and the file loaded
    again: openpyxl writes a cell that holds NaN, or the empty string, as an
    empty cell, which reads [None]; integers and other strings come back as
    they were. *)
Definition saved_value (v : value) : value :=
  match v with
  | VNaN => VNone
  | VStr EmptyString => VNone
  | _ => v
  end.

Definition saved_ws (ws : worksheet) : worksheet := saved_value <$> ws.

(** The content of the file that [wb.save] writes. *)
Definition saved (wb : workbook) : workbook := saved_ws <$> wb.

(** [wb.save(path)] *)
Definition wb_save (wb : workbook) (path : string) : M World unit :=
  modify (λ w, set_disk (<[path := saved wb]> (disk w)) w).

(** ** class SpreadsheetSplitter *)

Definition CONTACTS_SHEET : string := "CONTATOS".

Record Splitter : Type := mkSplitter {
  template_file : workbook;
  input_data_file : string;
  input_sheet_names : list string;
  output_folder : string;
  dfs : gmap string DataFrame;
  files : list string;
  id_column : string;
  filename_location : gmap string string;
  contacts : DataFrame
}.

Definition set_template_file (wb : workbook) (sp : Splitter) : Splitter :=
  {| template_file := wb; input_data_file := input_data_file sp;
     input_sheet_names := input_sheet_names sp;
     output_folder := output_folder sp; dfs := dfs sp; files := files sp;
     id_column := id_column sp; filename_location := filename_location sp;
     contacts := contacts sp |}.

Definition set_files (fs : list string) (sp : Splitter) : Splitter :=
  {| template_file := template_file sp; input_data_file := input_data_file sp;
     input_sheet_names := input_sheet_names sp;
     output_folder := output_folder sp; dfs := dfs sp; files := fs;
     id_column := id_column sp; filename_location := filename_location sp;
     contacts := contacts sp |}.

(** [d[k]] on a dict *)
Definition dict_getitem {V} (d : gmap string V) (k : string) : result V :=
  match d !! k with
  | Some v => Ok v
  | None => Raise KeyError
  end.

(** Run [m] on the worksheet object [self.template_file[name]].  The worksheet
    is shared with the workbook, so what [m] wrote before raising stays. *)
Definition on_sheet {A} (name : string) (m : M worksheet A) : M Splitter A :=
  λ sp, match template_file sp !! name with
        | None => (sp, Raise KeyError)
        | Some ws =>
            match m ws with
            | (ws', r) => (set_template_file (<[name := ws']> (template_file sp)) sp, r)
            end
        end.

(** The state of a method call: the object and the world. *)
Abbreviation State := (Splitter * World)%type.

Definition on_self {A} (m : M Splitter A) : M State A :=
  zoom fst (λ sp s, (sp, s.2)) m.

Definition on_world {A} (m : M World A) : M State A :=
  zoom snd (λ w s, (s.1, w)) m.

(** *** get_contacts *)

Definition get_contacts (sheets : gmap string DataFrame) : result DataFrame :=
  match dict_getitem sheets CONTACTS_SHEET with
  | Raise e => Raise e
  | Ok contacts_df =>
      let values_from_1 := tail (rows contacts_df) in        (* .values[1:] *)
      match rows contacts_df with                             (* .iloc[0] *)
      | [] => Raise IndexError
      | first :: _ => Ok {| columns := first; rows := values_from_1 |}
      end
  end.

(** *** clean_spreadsheet *)

(** The integers 1..n *)
Definition pos_range (n : nat) : list positive := map Pos.of_nat (seq 1 n).

(** [for row in ws.iter_rows(min_row=1, min_col=1, max_row=nr, max_col=nc):
       for cell in row: cell.value = None] *)
Definition clean_window (nr nc : nat) (ws : worksheet) : worksheet :=
  foldl (λ acc r, foldl (λ acc' c, <[(r, c) := VNone]> acc') acc (pos_range nc))
        ws (pos_range nr).

Definition clean_spreadsheet : M Splitter unit :=
  names <~ (λ sp, (sp, Ok (input_sheet_names sp)));
  for_each names (λ ws, on_sheet ws (modify (clean_window 50 50))).

(** *** fill_cols *)

(** [for ncol, col in enumerate(cols): worksheet.cell(row=1, column=ncol + 1, value=col)],
    started at column [c] *)
Fixpoint write_header (c : positive) (cols : list value) (ws : worksheet) : worksheet :=
  match cols with
  | [] => ws
  | col :: cols' => write_header (Pos.succ c) cols' (ws_cell 1 c col ws)
  end.

(** [df.reset_index()] inserts the old row labels as a first column named
    "index", or "level_0" when "index" is taken, and raises when both are. *)
Definition reset_index_name (df : DataFrame) : result string :=
  if bool_decide (VStr "index" ∉ columns df) then Ok "index"
  else if bool_decide (VStr "level_0" ∉ columns df) then Ok "level_0"
  else Raise ValueError.

(** [row[col]] for a row of [df.reset_index()] and a label [col] of [df]: the
    inserted column is named apart from every label of [df], so the lookup
    runs over the labels of [df].  A label carried by several columns selects
    a Series, which [worksheet.cell] refuses as a value. *)
Definition row_getitem (labels : list value) (row : list value) (col : value)
    : result value :=
  match positions col labels with
  | [p] => Ok (cell_at p row)
  | _ => Raise ValueError
  end.

(** [for ncol, col in enumerate(current_df.columns):
       worksheet.cell(row=row_index, column=ncol + 1, value=row[col])],
    started at column [c] *)
Fixpoint write_row (labels : list value) (row_index c : positive)
    (cols : list value) (row : list value) : M worksheet unit :=
  match cols with
  | [] => ret tt
  | col :: cols' =>
      v <~ lift (row_getitem labels row col);
      modify (ws_cell row_index c v)~;
      write_row labels row_index (Pos.succ c) cols' row
  end.

(** [for index, row in current_df.reset_index().iterrows(): ...], started at
    worksheet row [row_index] *)
Fixpoint write_rows (labels : list value) (row_index : positive)
    (rs : list (list value)) : M worksheet unit :=
  match rs with
  | [] => ret tt
  | row :: rs' =>
      write_row labels row_index 1 labels row~;
      write_rows labels (Pos.succ row_index) rs'
  end.

Definition fill_sheet (current_df : DataFrame) : M worksheet unit :=
  modify (write_header 1 (columns current_df))~;
  lift (reset_index_name current_df)~;
  write_rows (columns current_df) 2 (rows current_df).

Definition fill_cols (merchant_dfs : gmap string DataFrame) : M Splitter unit :=
  names <~ (λ sp, (sp, Ok (input_sheet_names sp)));
  for_each names (λ ws,
    on_sheet ws (current_df <~ lift (dict_getitem merchant_dfs ws);
                 fill_sheet current_df)).

(** *** get_save_path *)

(** [x.iloc[0].replace(' ', '_')] followed by [re.sub('[^A-Za-z0-9]+', '', _)].
    The first element of a Series is a cell value, and only a string has a
    [replace] taking two strings.  The first row of a DataFrame is a Series:
    its [replace] returns a Series, which [re.sub] refuses. *)
Definition clean_first_name (x : selection) : result string :=
  match x with
  | Series [] => Raise IndexError
  | Series (VStr seller_name :: _) =>
      Ok (re_sub_non_alnum (str_replace_char " " "_" seller_name))
  | Series (_ :: _) => Raise AttributeError
  | Frame _ _ [] => Raise IndexError
  | Frame _ _ (_ :: _) => Raise TypeError
  end.

Definition save_path_of (folder clean_seller_name : string) : string :=
  folder +:+ "/relatorio-" +:+ clean_seller_name +:+ ".xlsx".

Definition get_save_path (merchant_dfs : gmap string DataFrame) : M State string :=
  self <~ on_self get;
  sheet_key <~ lift (dict_getitem (filename_location self) "sheet");
  filename_sheet <~ lift (dict_getitem merchant_dfs sheet_key);
  col_key <~ lift (dict_getitem (filename_location self) "col");
  names <~ lift (getitem filename_sheet col_key);
  clean_seller_name <~ lift (clean_first_name names);
  on_world (ensure_dir (output_folder self)) ~;
  ret (save_path_of (output_folder self) clean_seller_name).

(** *** save_spreadsheet *)

Definition save_spreadsheet (merchant_dfs : gmap string DataFrame) : M State unit :=
  path <~ get_save_path merchant_dfs;
  self <~ on_self get;
  on_world (wb_save (template_file self) path) ~;
  reopened <~ on_world (load_workbook path);
  on_self (modify (set_template_file reopened)) ~;
  on_self (modify (λ sp, set_files (files sp ++ [path]) sp)).

Section Program.

Context `{Platform}.

(** [int(v)] *)
Definition py_int (v : value) : result Z :=
  match v with
  | VInt z => Ok z
  | VStr s => match int_of_str s with
              | Some z => Ok z
              | None => Raise ValueError
              end
  | VNaN => Raise ValueError
  | VNone => Raise TypeError
  end.

(** *** split_sellers *)

(** [for sheet_name in self.input_sheet_names: ...], building [merchant_dfs] *)
Fixpoint filter_sheets (sheets : gmap string DataFrame) (key : string)
    (merchant_id : Z) (names : list string) (merchant_dfs : gmap string DataFrame)
    : result (gmap string DataFrame) :=
  match names with
  | [] => Ok merchant_dfs
  | sheet_name :: names' =>
      match dict_getitem sheets sheet_name with
      | Raise e => Raise e
      | Ok df =>
          match filter_eq df key merchant_id with
          | Raise e => Raise e
          | Ok df' =>
              filter_sheets sheets key merchant_id names'
                (<[sheet_name := df']> merchant_dfs)
          end
      end
  end.

(** The body of the loop over [merchant_list]. *)
Definition split_one (merchant_id : Z) : M State unit :=
  self <~ on_self get;
  merchant_dfs <~ lift (filter_sheets (dfs self) (id_column self) merchant_id
                          (input_sheet_names self) ∅);
  on_self clean_spreadsheet ~;
  on_self (fill_cols merchant_dfs) ~;
  save_spreadsheet merchant_dfs.

Definition split_sellers : M State unit :=
  self <~ on_self get;
  ids <~ lift (getitem (contacts self) (id_column self));
  merchant_list <~ lift (map_result py_int (sel_iter ids));
  for_each merchant_list split_one.

(** *** __init__, with load_spreadsheet and import_data *)

Definition import_data (path : string) : M World (gmap string DataFrame) :=
  file <~ load_workbook path;
  ret (read_excel file).

Definition SpreadsheetSplitter (template input_data : string)
    (sheet_names : list string) (folder id_col : string)
    (name_location : gmap string string) : M World Splitter :=
  wb <~ load_workbook template;
  sheets <~ import_data input_data;
  contacts_df <~ lift (get_contacts sheets);
  ret {| template_file := wb; input_data_file := input_data;
         input_sheet_names := sheet_names; output_folder := folder;
         dfs := sheets; files := []; id_column := id_col;
         filename_location := name_location; contacts := contacts_df |}.

(** ** class Mailman and the mail loop *)

(** The [try] block dispatches the mail client, composes the message and
    sends it; [except Exception] prints the exception and returns. *)
Definition send_email (self : Mailman) : M World unit :=
  λ w, match outlook (trace w) self with
       | None => (add_event (MailSent self) w, Ok tt)
       | Some e =>
           (add_event (Printed ("Error ocurred while sending email: " +:+ e)) w,
            Ok tt)
       end.

(** What one call of [send_email] leaves behind, for the statements below. *)
Definition outcome_of (history : list event) (mail : Mailman) : event :=
  match outlook history mail with
  | None => MailSent mail
  | Some e => Printed ("Error ocurred while sending email: " +:+ e)
  end.

(** [enumerate(xs)], counting from [n] *)
Fixpoint enumerate_from {X} (n : nat) (xs : list X) : list (nat * X) :=
  match xs with
  | [] => []
  | x :: xs' => (n, x) :: enumerate_from (S n) xs'
  end.

(** [emails] is what [main] passes, a column of the contacts table.  The
    [assert] is taken as executed (the interpreter is not run with [-O]). *)
Definition send_multiple_emails (file_list : list string) (emails : selection)
    (subj : value) (text : value) : M World unit :=
  if bool_decide (length file_list = sel_len emails) then
    for_each (enumerate_from 0 file_list) (λ '(idx, file),
      to <~ lift (sel_item emails idx);
      send_email {| email_list := to; subject := subj; body := text;
                    attachment := abspath file |})
  else raise AssertionError.

(** ** Module level *)

Definition CONFIRMATION_KEYWORD : string := "send".
Definition COLUMN_EMAIL : string := "email".
Definition COLUMN_SUBJECT : string := "email_subject".
Definition COLUMN_BODY : string := "email_body".
Definition COLUMN_ID : string := "merchant_customer_id".
Definition FILE_TEMPLATE : string := "template.xlsx".
Definition FILE_DATA : string := "SellerSync_Data.xlsx".
Definition SHEETS_INPUT : list string := ["GMS_AGG"; "GMS_SKU"].
Definition SHEETS_FILENAME : gmap string string :=
  <["col" := "seller_name"]> (<["sheet" := "GMS_AGG"]> ∅).
Definition OUTPUT_FOLDER : string := "output".

(** [typed] is the line read by [input]. *)
Definition confirm_send_email (typed : string) : M World bool :=
  modify (add_event (Prompted
    ("Please check files and type '" +:+ CONFIRMATION_KEYWORD
       +:+ "' to send emails: "))) ~;
  ret (String.eqb typed CONFIRMATION_KEYWORD).

(** Run a method on an object held in a local variable. *)
Definition call {A} (obj : Splitter) (m : M State A) : M World (Splitter * A) :=
  λ w, match m (obj, w) with
       | ((obj', w'), Ok a) => (w', Ok (obj', a))
       | ((_, w'), Raise e) => (w', Raise e)
       end.

(** The first two statements of [main]: build the splitter and export. *)
Definition main_export : M World Splitter :=
  deal_splitter <~ SpreadsheetSplitter FILE_TEMPLATE FILE_DATA SHEETS_INPUT
                     OUTPUT_FOLDER COLUMN_ID SHEETS_FILENAME;
  done <~ call deal_splitter split_sellers;
  ret done.1.

Definition main (typed : string) : M World unit :=
  deal_splitter <~ main_export;
  modify (add_event (PrintedFrame (contacts deal_splitter))) ~;
  confirmed <~ confirm_send_email typed;
  if confirmed then
    emails <~ lift (getitem (contacts deal_splitter) COLUMN_EMAIL);
    subjects <~ lift (getitem (contacts deal_splitter) COLUMN_SUBJECT);
    subj <~ lift (sel_item subjects 0);
    bodies <~ lift (getitem (contacts deal_splitter) COLUMN_BODY);
    text <~ lift (sel_item bodies 0);
    send_multiple_emails (files deal_splitter) emails subj text
  else ret tt.

End Program.

(** ** The export, seen from the object

    [split_one] touches the world in one way only: it makes sure the output
    folder exists and writes the workbook.  [split_self] is the rest of the
    loop body, the part that reads and changes the object: whether the folder
    can be made depends on its name alone, and the workbook that is loaded
    again is the content of the file just written. *)

(** The world after the folder was ensured and the content [wb] written at
    [path]. *)
Definition save_op (folder path : string) (wb : workbook) (w : World) : World :=
  set_disk (<[path := wb]> (disk (ensure_dir folder w).1)) (ensure_dir folder w).1.

Definition apply_saves (folder : string) (saves : list (string * workbook))
    (w : World) : World :=
  foldl (λ acc s, save_op folder s.1 s.2 acc) w saves.

Definition plan_path (merchant_dfs : gmap string DataFrame) : M Splitter string :=
  self <~ get;
  sheet_key <~ lift (dict_getitem (filename_location self) "sheet");
  filename_sheet <~ lift (dict_getitem merchant_dfs sheet_key);
  col_key <~ lift (dict_getitem (filename_location self) "col");
  names <~ lift (getitem filename_sheet col_key);
  clean_seller_name <~ lift (clean_first_name names);
  (if bool_decide (output_folder self = "") then raise FileNotFoundError
   else ret tt) ~;
  ret (save_path_of (output_folder self) clean_seller_name).

Definition split_self (merchant_id : Z) : M Splitter string :=
  self <~ get;
  merchant_dfs <~ lift (filter_sheets (dfs self) (id_column self) merchant_id
                          (input_sheet_names self) ∅);
  clean_spreadsheet ~;
  fill_cols merchant_dfs ~;
  path <~ plan_path merchant_dfs;
  modify (λ sp, set_template_file (saved (template_file sp)) sp) ~;
  modify (λ sp, set_files (files sp ++ [path]) sp) ~;
  ret path.

(** [sp'] differs from [sp] in its template workbook at most. *)
Definition only_template (sp sp' : Splitter) : Prop :=
  sp' = set_template_file (template_file sp') sp.

(** The files on disk after a list of saves. *)
Definition writes (saves : list (string * workbook)) (d : gmap string workbook)
    : gmap string workbook :=
  foldl (λ acc s, <[s.1 := s.2]> acc) d saves.

(** [sp'] differs from [sp] in its template workbook and its list of files
    at most. *)
Definition same_config (sp sp' : Splitter) : Prop :=
  sp' = set_files (files sp') (set_template_file (template_file sp') sp).

(** ** What the export needs from its input

    A tracked sheet is ready when the data file has it, with labels that are
    pairwise distinct (as [read_excel] makes them), the identifier column
    among them, "index" and "level_0" not both among them, and when the
    template has a sheet of that name. *)
Definition sheet_ready (sp : Splitter) (name : string) : Prop :=
  ∃ df, dfs sp !! name = Some df
        ∧ NoDup (columns df)
        ∧ VStr (id_column sp) ∈ columns df
        ∧ ¬ (VStr "index" ∈ columns df ∧ VStr "level_0" ∈ columns df)
        ∧ is_Some (template_file sp !! name).

(** The seller name of merchant [m]: in the filename sheet, the cell of the
    filename column in the first row whose identifier equals [m], when that
    cell holds a string. *)
Definition seller_name_of (sp : Splitter) (m : Z) : option string :=
  sheet ← filename_location sp !! "sheet";
  col ← filename_location sp !! "col";
  df ← dfs sp !! sheet;
  match getitem df (id_column sp), getitem df col with
  | Ok (Series ids), Ok (Series names) =>
      found ← list_find (λ v, value_eq_int m v = true) ids;
      match names !! found.1 with
      | Some (VStr s) => Some s
      | _ => None
      end
  | _, _ => None
  end.

(** The rows of [df] whose cell in column [i] equals [m]. *)
Definition filtered (df : DataFrame) (i : nat) (m : Z) : DataFrame :=
  {| columns := columns df;
     rows := mask_rows (map (value_eq_int m) (map (cell_at i) (rows df))) (rows df) |}.

(** The rows of [df] whose cell in column [i] is the integer [m]. *)
Definition rows_of (df : DataFrame) (i : nat) (m : Z) : list (list value) :=
  List.filter (λ r, bool_decide (cell_at i r = VInt m)) (rows df).

(** The workbook [wb] is the export of merchant [m]: in every tracked sheet,
    row 1 reads the labels of the sheet's table and the rows from 2 on read
    the rows of the table whose identifier is [m], in their order and as a
    saved file holds them, and every other cell of the 50 x 50 window reads
    [None]. *)
Definition exported (sp : Splitter) (m : Z) (wb : workbook) : Prop :=
  ∀ name df i,
    name ∈ input_sheet_names sp →
    dfs sp !! name = Some df →
    positions (VStr (id_column sp)) (columns df) = [i] →
    ∃ ws, wb !! name = Some ws
      ∧ (∀ j label, columns df !! j = Some label → label ≠ VNone →
           cell_value ws 1 (Pos.of_succ_nat j) = saved_value label)
      ∧ (∀ k j row label,
           rows_of df i m !! k = Some row →
           columns df !! j = Some label → cell_at j row ≠ VNone →
           cell_value ws (Pos.of_succ_nat (S k)) (Pos.of_succ_nat j)
           = saved_value (cell_at j row))
      ∧ ∀ r c, (r ≤ 50)%positive → (c ≤ 50)%positive →
               (1 + length (rows_of df i m) < Pos.to_nat r
                ∨ length (columns df) < Pos.to_nat c)%nat →
               cell_value ws r c = VNone.

(** ** The file name as the specification words it

    "Whitespace replaced with underscore, then any non-alphanumeric character
    removed."  Whitespace is what [str.isspace] accepts below 128. *)

Definition is_whitespace (c : ascii) : bool :=
  let n := N_of_ascii c in
  ((9 <=? n) && (n <=? 13) || (28 <=? n) && (n <=? 32))%N.

Definition spec_sanitize (seller_name : string) : string :=
  String.string_of_list_ascii
    (List.filter is_alnum
       (map (λ c, if is_whitespace c then "_"%char else c)
            (String.list_ascii_of_string seller_name))).

(** The messages that were sent, in order. *)
Definition mails_sent (t : list event) : list Mailman :=
  omap (λ e, match e with MailSent m => Some m | _ => None end) t.

(** ** Decidable equality of the states, and what a write leaves in a cell *)

#[global] Instance Mailman_eq_dec : EqDecision Mailman.
Proof. solve_decision. Defined.

#[global] Instance event_eq_dec : EqDecision event.
Proof. solve_decision. Defined.

#[global] Instance World_eq_dec : EqDecision World.
Proof. solve_decision. Defined.

#[global] Instance Splitter_eq_dec : EqDecision Splitter.
Proof. solve_decision. Defined.

(** The value a cell reads after [ws.cell(row, column, value=v)], when it read
    [old] before: [None] is not assigned. *)
Definition put_value (v old : value) : value :=
  match v with
  | VNone => old
  | _ => v
  end.

(** The characters of a string. *)
Definition chars (s : string) : list ascii := String.list_ascii_of_string s.

(** ** A small run, used to exercise the statements below *)

Module Demo.

(** The table pandas reads from the CONTATOS sheet: the sheet's own first
    row has become the labels, the row of field names is the first row. *)
Definition contatos : DataFrame :=
  {| columns := [VStr "Unnamed: 0"; VStr "Unnamed: 1"; VStr "Unnamed: 2";
                 VStr "Unnamed: 3"];
     rows := [ [VStr "email"; VStr "merchant_customer_id";
                VStr "email_subject"; VStr "email_body"];
               [VStr "acme@example.com"; VInt 5; VStr "Report"; VStr "Hello"];
               [VStr "bolt@example.com"; VInt 8; VNaN; VNaN] ] |}.

Definition gms_agg : DataFrame :=
  {| columns := [VStr "merchant_customer_id"; VStr "seller_name"; VStr "gms"];
     rows := [ [VInt 5; VStr "Acme Co.!"; VInt 100];
               [VInt 8; VStr "Bolt"; VInt 7];
               [VInt 5; VStr "Acme Co.!"; VNaN] ] |}.

Definition gms_sku : DataFrame :=
  {| columns := [VStr "merchant_customer_id"; VStr "sku"];
     rows := [ [VInt 8; VStr "B-1"]; [VInt 5; VStr "A-1"] ] |}.

Definition sheets : gmap string DataFrame :=
  <["CONTATOS" := contatos]> (<["GMS_AGG" := gms_agg]> (<["GMS_SKU" := gms_sku]> ∅)).

(** A template with a cell beyond the cleaned window and a third sheet. *)
Definition template : workbook :=
  <["GMS_AGG" := <[(60, 1)%positive := VStr "stale"]> (<[(1, 1)%positive := VStr "old"]> ∅)]>
    (<["GMS_SKU" := ∅]> (<["Pivot" := <[(1, 1)%positive := VStr "pivot"]> ∅]> ∅)).

Definition data_file : workbook := ∅.

(** Decimal digits only: enough for the identifiers of this run. *)
Fixpoint digits (acc : Z) (s : string) : option Z :=
  match s with
  | EmptyString => Some acc
  | String c r =>
      let n := Z.of_N (N_of_ascii c) in
      if (48 <=? n) && (n <=? 57) then digits (10 * acc + (n - 48)) r else None
  end.

Definition platform : Platform :=
  {| int_of_str := λ s, match s with EmptyString => None | _ => digits 0 s end;
     read_excel := λ _, sheets;
     abspath := λ p, "C:/sync/" +:+ p;
     (* the mail client refuses every message without a subject *)
     outlook := λ _ mail,
       match subject mail with
       | VStr _ => None
       | _ => Some "subject missing"
       end |}.

Definition world : World :=
  {| disk := <["template.xlsx" := template]> (<["SellerSync_Data.xlsx" := data_file]> ∅);
     dirs := ∅;
     trace := [] |}.

Definition with_contacts (c : DataFrame) : Splitter :=
  {| template_file := template; input_data_file := "SellerSync_Data.xlsx";
     input_sheet_names := ["GMS_AGG"; "GMS_SKU"]; output_folder := "output";
     dfs := sheets; files := []; id_column := "merchant_customer_id";
     filename_location := <["col" := "seller_name"]> (<["sheet" := "GMS_AGG"]> ∅);
     contacts := c |}.

(** The splitter that [__init__] builds in [world]. *)
Definition splitter : Splitter :=
  with_contacts
    {| columns := [VStr "email"; VStr "merchant_customer_id";
                   VStr "email_subject"; VStr "email_body"];
       rows := [ [VStr "acme@example.com"; VInt 5; VStr "Report"; VStr "Hello"];
                 [VStr "bolt@example.com"; VInt 8; VNaN; VNaN] ] |}.

(** A contact, merchant 7, that no row of the input sheets mentions. *)
Definition splitter_unmatched : Splitter :=
  with_contacts
    {| columns := [VStr "email"; VStr "merchant_customer_id"];
       rows := [ [VStr "ghost@example.com"; VInt 7] ] |}.

(** A contacts table whose second identifier is an empty cell. *)
Definition splitter_bad_id : Splitter :=
  with_contacts
    {| columns := [VStr "email"; VStr "merchant_customer_id"];
       rows := [ [VStr "acme@example.com"; VInt 5];
                 [VStr "nobody@example.com"; VNaN] ] |}.

(** The world and the splitter after the export of [main]. *)
Definition world_after : World := (@main_export platform world).1.

Definition splitter_after : Splitter :=
  match (@main_export platform world).2 with
  | Ok sp => sp
  | Raise _ => splitter
  end.

(** The tables of merchant 5 and of merchant 7, as the loop builds them. *)
Definition merchant5 : gmap string DataFrame :=
  <["GMS_AGG" := {| columns := columns gms_agg;
                    rows := [ [VInt 5; VStr "Acme Co.!"; VInt 100];
                              [VInt 5; VStr "Acme Co.!"; VNaN] ] |}]>
    (<["GMS_SKU" := {| columns := columns gms_sku;
                       rows := [ [VInt 5; VStr "A-1"] ] |}]> ∅).

Definition merchant7 : gmap string DataFrame :=
  <["GMS_AGG" := {| columns := columns gms_agg; rows := [] |}]>
    (<["GMS_SKU" := {| columns := columns gms_sku; rows := [] |}]> ∅).

(** The state after [split_sellers] on the small run. *)
Definition split_state : Splitter * World :=
  (@split_sellers platform (splitter, world)).1.

(** A disk without the template. *)
Definition empty_world : World := {| disk := ∅; dirs := ∅; trace := [] |}.

(** A data file whose CONTATOS sheet ends with the row of field names. *)
Definition sheets_no_contacts : gmap string DataFrame :=
  <["CONTATOS" := {| columns := columns contatos;
                     rows := [ [VStr "email"; VStr "merchant_customer_id";
                                VStr "email_subject"; VStr "email_body"] ] |}]> sheets.

Definition platform_no_contacts : Platform :=
  {| int_of_str := @int_of_str platform;
     read_excel := λ _, sheets_no_contacts;
     abspath := @abspath platform;
     outlook := @outlook platform |}.

Definition splitter_no_contacts : Splitter :=
  {| template_file := template; input_data_file := "SellerSync_Data.xlsx";
     input_sheet_names := ["GMS_AGG"; "GMS_SKU"]; output_folder := "output";
     dfs := sheets_no_contacts; files := []; id_column := "merchant_customer_id";
     filename_location := <["col" := "seller_name"]> (<["sheet" := "GMS_AGG"]> ∅);
     contacts := {| columns := [VStr "email"; VStr "merchant_customer_id";
                                VStr "email_subject"; VStr "email_body"];
                    rows := [] |} |}.

(** Two contacts whose seller names, "Acme Co.!" and "AcmeCo", give the same
    file name. *)
Definition splitter_same_name : Splitter :=
  {| template_file := template; input_data_file := "SellerSync_Data.xlsx";
     input_sheet_names := ["GMS_AGG"; "GMS_SKU"]; output_folder := "output";
     dfs := <["GMS_AGG" := {| columns := columns gms_agg;
                              rows := [ [VInt 5; VStr "Acme Co.!"; VInt 100];
                                        [VInt 9; VStr "AcmeCo"; VInt 1] ] |}]> sheets;
     files := []; id_column := "merchant_customer_id";
     filename_location := <["col" := "seller_name"]> (<["sheet" := "GMS_AGG"]> ∅);
     contacts := {| columns := [VStr "email"; VStr "merchant_customer_id"];
                    rows := [ [VStr "acme@example.com"; VInt 5];
                              [VStr "other@example.com"; VInt 9] ] |} |}.

(** The splitter of the small run, with an output folder below a directory
    that does not exist yet. *)
Definition splitter_nested : Splitter :=
  {| template_file := template; input_data_file := "SellerSync_Data.xlsx";
     input_sheet_names := ["GMS_AGG"; "GMS_SKU"]; output_folder := "out/2024";
     dfs := sheets; files := []; id_column := "merchant_customer_id";
     filename_location := <["col" := "seller_name"]> (<["sheet" := "GMS_AGG"]> ∅);
     contacts := contacts splitter |}.

End Demo.


(** * Properties *)

(** Goals about membership in an explicit list, after the case analysis on the
    decisions involved. *)
Ltac list_cases :=
  repeat match goal with
         | H : context [_ ∈ _ :: _] |- _ => rewrite elem_of_cons in H
         end;
  intuition congruence.

(** ** The monad *)

Lemma map_result_ok {X A} (f : X → result A) (xs : list X) (l : list A) :
  map_result f xs = Ok l ↔ Forall2 (λ x a, f x = Ok a) xs l.
Proof.
  revert l. induction xs as [|x xs IH]; intros l; simpl.
  - split; [intros [= <-]; constructor | by inversion 1].
  - destruct (f x) as [a|e] eqn:Hx.
    + destruct (map_result f xs) as [l'|e] eqn:Hxs.
      * split.
        -- intros [= <-]. constructor; [done | by apply IH].
        -- inversion 1 as [|? ? ? l'' Ha Hl]; subst.
           apply IH in Hl. congruence.
      * split; [done|]. inversion 1 as [|? ? ? l'' Ha Hl]; subst.
        apply IH in Hl. done.
    + split; [done|]. inversion 1; congruence.
Qed.

(** ** File names *)

Lemma whitespace_not_alnum (c : ascii) : is_whitespace c = true → is_alnum c = false.
Proof. destruct c as [[] [] [] [] [] [] [] []]; vm_compute; congruence. Qed.

Lemma re_sub_after_replace (s : string) :
  re_sub_non_alnum (str_replace_char " " "_" s) = spec_sanitize s.
Proof.
  unfold spec_sanitize. induction s as [|c s IH]; [done|].
  cbn [str_replace_char re_sub_non_alnum String.list_ascii_of_string map List.filter].
  destruct (Ascii.eqb_spec c " ") as [->|Hc].
  - simpl. exact IH.
  - destruct (is_whitespace c) eqn:Hw.
    + rewrite (whitespace_not_alnum c Hw). simpl. exact IH.
    + destruct (is_alnum c); simpl; by rewrite IH.
Qed.

(** ** The output folder *)

Lemma ensure_dir_empty (w : World) : ensure_dir "" w = (w, Raise FileNotFoundError).
Proof. reflexivity. Qed.

Lemma ensure_dir_ok (d : string) (w : World) :
  d ≠ "" → ensure_dir d w = ((ensure_dir d w).1, Ok tt).
Proof.
  intros Hd. unfold ensure_dir. destruct (path_exists d w); [done|].
  by rewrite bool_decide_eq_false_2.
Qed.

Lemma ensure_dir_raise (d : string) (w w' : World) (e : exn) :
  ensure_dir d w = (w', Raise e) → d = "" ∧ w' = w ∧ e = FileNotFoundError.
Proof.
  destruct (decide (d = "")) as [->|Hd].
  - rewrite ensure_dir_empty. by intros [= <- <-].
  - by rewrite (ensure_dir_ok d w Hd).
Qed.

Lemma ensure_dir_disk (d : string) (w : World) : disk (ensure_dir d w).1 = disk w.
Proof. unfold ensure_dir. by repeat case_match. Qed.

Lemma ensure_dir_trace (d : string) (w : World) : trace (ensure_dir d w).1 = trace w.
Proof. unfold ensure_dir. by repeat case_match. Qed.

Lemma ensure_dir_dirs (d : string) (w : World) :
  dirs w ⊆ dirs (ensure_dir d w).1
  ∧ dirs (ensure_dir d w).1 ⊆ {[d]} ∪ list_to_set (parents d) ∪ dirs w.
Proof.
  unfold ensure_dir. repeat case_match; cbn [fst dirs];
    (split; [|try done]); try done; apply union_subseteq_r.
Qed.

Lemma ensure_dir_exists (d : string) (w : World) :
  path_exists d w = true → ensure_dir d w = (w, Ok tt).
Proof. unfold ensure_dir. by intros ->. Qed.

Lemma path_exists_ensure_dir (d : string) (w : World) :
  d ≠ "" → path_exists d (ensure_dir d w).1 = true.
Proof.
  intros Hd. unfold ensure_dir. destruct (path_exists d w) eqn:Hex; [exact Hex|].
  rewrite bool_decide_eq_false_2 by done. cbn [fst]. unfold path_exists. cbn [dirs].
  rewrite bool_decide_eq_true_2 by done. cbn [andb].
  apply orb_true_iff. left. apply bool_decide_eq_true.
  apply elem_of_union_l, elem_of_union_l. by apply elem_of_singleton.
Qed.

(** ** What a save keeps *)

Lemma saved_value_idemp (v : value) : saved_value (saved_value v) = saved_value v.
Proof. by destruct v as [| | |[|c s]]. Qed.

Lemma saved_lookup (wb : workbook) (name : string) :
  saved wb !! name = saved_ws <$> wb !! name.
Proof. unfold saved. apply lookup_fmap. Qed.

Lemma cell_value_saved (ws : worksheet) (r c : positive) :
  cell_value (saved_ws ws) r c = saved_value (cell_value ws r c).
Proof.
  unfold cell_value, saved_ws. rewrite lookup_fmap. by destruct (ws !! (r, c)).
Qed.

(** C2.  [get_save_path] returns [<output_folder>/relatorio-<name>.xlsx],
    where <name> is the seller name found in the first row of the filename
    column with whitespace replaced by underscore and then every character
    outside [A-Za-z0-9] removed; with the folder "output" and the seller name
    "Acme Co.!" the path is "output/relatorio-AcmeCo.xlsx".  The one folder
    name without a path is the empty one, which cannot be created. *)
Theorem get_save_path_sanitized (self : Splitter) (w : World)
    (merchant_dfs : gmap string DataFrame) (sheet col : string) (df : DataFrame)
    (seller_name : string) (others : list value) :
  filename_location self !! "sheet" = Some sheet →
  merchant_dfs !! sheet = Some df →
  filename_location self !! "col" = Some col →
  getitem df col = Ok (Series (VStr seller_name :: others)) →
  get_save_path merchant_dfs (self, w)
  = (if decide (output_folder self = "")
     then ((self, w), Raise FileNotFoundError)
     else ((self, (ensure_dir (output_folder self) w).1),
           Ok (output_folder self +:+ "/relatorio-" +:+ spec_sanitize seller_name
               +:+ ".xlsx")))
  ∧ (output_folder self = "output" → seller_name = "Acme Co.!" →
     (get_save_path merchant_dfs (self, w)).2 = Ok "output/relatorio-AcmeCo.xlsx").
Proof.
  intros Hsheet Hdf Hcol Hsel.
  assert (get_save_path merchant_dfs (self, w)
          = (if decide (output_folder self = "")
             then ((self, w), Raise FileNotFoundError)
             else ((self, (ensure_dir (output_folder self) w).1),
                   Ok (save_path_of (output_folder self) (spec_sanitize seller_name)))))
    as Heq.
  { unfold get_save_path, bind, on_self, on_world, zoom, lift, get, ret,
      dict_getitem. cbn [fst snd].
    rewrite Hsheet, Hdf, Hcol, Hsel. cbn [clean_first_name].
    rewrite re_sub_after_replace.
    destruct (decide (output_folder self = "")) as [->|Hfolder].
    - by rewrite ensure_dir_empty.
    - by rewrite (ensure_dir_ok _ w Hfolder). }
  split; [exact Heq|].
  intros Hfolder ->. rewrite Heq, Hfolder. reflexivity.
Qed.

(** ** Contacts *)

(** C8.  [get_contacts] returns the table whose labels are the first row of
    the CONTATOS table and whose rows are the remaining rows in their order;
    on a CONTATOS table without rows it raises IndexError. *)
Theorem get_contacts_promotes_first_row (sheets : gmap string DataFrame)
    (labels first : list value) (rest : list (list value)) :
  get_contacts (<[CONTACTS_SHEET := {| columns := labels; rows := first :: rest |}]> sheets)
  = Ok {| columns := first; rows := rest |}
  ∧ get_contacts (<[CONTACTS_SHEET := {| columns := labels; rows := [] |}]> sheets)
    = Raise IndexError.
Proof.
  unfold get_contacts, dict_getitem. by rewrite !lookup_insert_eq.
Qed.

(** ** What the template operations leave alone *)

Lemma only_template_refl sp : only_template sp sp.
Proof. by destruct sp. Qed.

Lemma only_template_trans sp1 sp2 sp3 :
  only_template sp1 sp2 → only_template sp2 sp3 → only_template sp1 sp3.
Proof. unfold only_template. intros -> ->. by destruct sp1. Qed.

Lemma for_each_preserves {St X} (R : St → St → Prop) (xs : list X)
    (f : X → M St unit) :
  (∀ s, R s s) → (∀ s1 s2 s3, R s1 s2 → R s2 s3 → R s1 s3) →
  (∀ x s, x ∈ xs → R s (f x s).1) →
  ∀ s, R s (for_each xs f s).1.
Proof.
  intros Hrefl Htrans. induction xs as [|x xs IH]; intros Hf s; simpl; [apply Hrefl|].
  unfold bind. pose proof (Hf x s (list_elem_of_here _ _)) as Hx.
  destruct (f x s) as [s1 [[]|e]]; simpl in *; [|exact Hx].
  eapply Htrans; [exact Hx|]. apply IH. intros y s' Hy. apply Hf. by right.
Qed.

Lemma on_sheet_only_template {A} (name : string) (m : M worksheet A) (sp : Splitter) :
  only_template sp (on_sheet name m sp).1.
Proof.
  unfold on_sheet. destruct (template_file sp !! name) as [ws|]; simpl.
  - destruct (m ws) as [ws' r]. by destruct sp.
  - apply only_template_refl.
Qed.

Lemma clean_spreadsheet_only_template (sp : Splitter) :
  only_template sp (clean_spreadsheet sp).1.
Proof.
  unfold clean_spreadsheet, bind.
  apply (for_each_preserves only_template);
    eauto using only_template_refl, only_template_trans, on_sheet_only_template.
Qed.

Lemma fill_cols_only_template (merchant_dfs : gmap string DataFrame) (sp : Splitter) :
  only_template sp (fill_cols merchant_dfs sp).1.
Proof.
  unfold fill_cols, bind.
  apply (for_each_preserves only_template);
    eauto using only_template_refl, only_template_trans, on_sheet_only_template.
Qed.

(** ** The loop body and the world *)

Lemma split_one_world (merchant_id : Z) (sp : Splitter) (w : World) :
  split_one merchant_id (sp, w)
  = match split_self merchant_id sp with
    | (sp', Ok path) =>
        ((sp', save_op (output_folder sp) path
                 (template_file sp') w), Ok tt)
    | (sp', Raise e) => ((sp', w), Raise e)
    end.
Proof.
  unfold split_one, split_self, save_spreadsheet, get_save_path, plan_path.
  unfold bind, on_self, on_world, zoom, get, lift, modify, ret. simpl.
  destruct (filter_sheets _ _ _ _ _) as [mdfs|e]; [|done]. simpl.
  pose proof (clean_spreadsheet_only_template sp) as H1.
  destruct (clean_spreadsheet sp) as [sp1 [[]|e]]; [|done]. simpl in *.
  pose proof (fill_cols_only_template mdfs sp1) as H2.
  destruct (fill_cols mdfs sp1) as [sp2 [[]|e]]; [|done]. simpl in *.
  assert (output_folder sp2 = output_folder sp) as Hfolder.
  { rewrite H2, H1. reflexivity. }
  destruct (dict_getitem (filename_location sp2) "sheet") as [a|e]; [|done].
  destruct (dict_getitem mdfs a) as [a0|e]; [|done].
  destruct (dict_getitem (filename_location sp2) "col") as [a1|e]; [|done].
  destruct (getitem a0 a1) as [a2|e]; [|done].
  destruct (clean_first_name a2) as [a3|e]; [|done].
  rewrite Hfolder. destruct (decide (output_folder sp = "")) as [Hempty|Hname].
  - rewrite Hempty, ensure_dir_empty. cbn [fst snd].
    by rewrite bool_decide_eq_true_2.
  - rewrite (ensure_dir_ok _ w Hname), bool_decide_eq_false_2 by done.
    unfold wb_save, load_workbook, modify, raise, set_disk. cbn [fst snd disk].
    rewrite lookup_insert_eq. cbn [fst snd].
    unfold save_op, set_disk. by destruct sp2.
Qed.

Lemma save_op_trace (folder path : string) (wb : workbook) (w : World) :
  trace (save_op folder path wb w) = trace w.
Proof. unfold save_op. cbn [set_disk trace]. apply ensure_dir_trace. Qed.

Lemma split_one_trace (merchant_id : Z) (s : State) :
  trace (split_one merchant_id s).1.2 = trace s.2.
Proof.
  destruct s as [sp w]. rewrite split_one_world.
  destruct (split_self merchant_id sp) as [sp' [path|e]]; cbn [fst snd]; [|done].
  apply save_op_trace.
Qed.

(** ** Cleaning the template *)

Lemma elem_of_pos_range (n : nat) (p : positive) :
  p ∈ pos_range n ↔ (Pos.to_nat p ≤ n)%nat.
Proof.
  unfold pos_range. rewrite list_elem_of_fmap. split.
  - intros (k & -> & Hk). apply elem_of_seq in Hk. rewrite Nat2Pos.id; lia.
  - intros Hp. exists (Pos.to_nat p). split; [by rewrite Pos2Nat.id|].
    apply elem_of_seq. lia.
Qed.

Lemma clean_cols_lookup (r : positive) (cols : list positive) (ws : worksheet)
    (r' c' : positive) :
  foldl (λ acc c, <[(r, c) := VNone]> acc) ws cols !! (r', c')
  = if bool_decide (r' = r ∧ c' ∈ cols) then Some VNone else ws !! (r', c').
Proof.
  revert ws. induction cols as [|c cols IH]; intros ws; cbn [foldl].
  - rewrite bool_decide_eq_false_2; [done|]. intros [_ Hin]. by apply elem_of_nil in Hin.
  - rewrite IH. rewrite lookup_insert.
    repeat case_bool_decide; repeat case_decide; simplify_eq; try done;
      exfalso; list_cases.
Qed.

Lemma clean_rows_lookup (rws cols : list positive) (ws : worksheet)
    (r' c' : positive) :
  foldl (λ acc r, foldl (λ acc' c, <[(r, c) := VNone]> acc') acc cols) ws rws
    !! (r', c')
  = if bool_decide (r' ∈ rws ∧ c' ∈ cols) then Some VNone else ws !! (r', c').
Proof.
  revert ws. induction rws as [|r rws IH]; intros ws; cbn [foldl].
  - rewrite bool_decide_eq_false_2; [done|]. intros [Hin _]. by apply elem_of_nil in Hin.
  - rewrite IH, clean_cols_lookup.
    repeat case_bool_decide; try done; exfalso; list_cases.
Qed.

Lemma clean_window_value (ws : worksheet) (r c : positive) :
  cell_value (clean_window 50 50 ws) r c
  = if bool_decide ((r ≤ 50)%positive ∧ (c ≤ 50)%positive) then VNone
    else cell_value ws r c.
Proof.
  unfold cell_value, clean_window. rewrite clean_rows_lookup.
  repeat case_bool_decide; rewrite ?elem_of_pos_range in *; try done; exfalso; lia.
Qed.

Lemma clean_loop (names : list string) :
  ∀ sp : Splitter,
    (∀ name, name ∈ names → is_Some (template_file sp !! name)) →
    ∃ sp', for_each names (λ ws, on_sheet ws (modify (clean_window 50 50))) sp
           = (sp', Ok tt)
      ∧ ∀ name ws, template_file sp !! name = Some ws →
          ∃ ws', template_file sp' !! name = Some ws'
            ∧ ∀ r c, cell_value ws' r c
                     = if bool_decide (name ∈ names ∧ (r ≤ 50)%positive ∧ (c ≤ 50)%positive)
                       then VNone else cell_value ws r c.
Proof.
  induction names as [|n names IH]; intros sp Hall.
  - exists sp. split; [done|]. intros name ws Hws. exists ws. split; [done|].
    intros r c. rewrite bool_decide_eq_false_2; [done|].
    intros [Hin _]. by apply elem_of_nil in Hin.
  - destruct (Hall n) as [ws0 Hn]; [by left|].
    cbn [for_each]. unfold bind, on_sheet at 1, modify. rewrite Hn.
    set (sp1 := set_template_file _ sp).
    destruct (IH sp1) as (sp' & Hrun & Hsheets).
    { intros name Hin. subst sp1. simpl. rewrite lookup_insert.
      case_decide; [done|]. apply Hall. by right. }
    exists sp'. split; [exact Hrun|].
    intros name ws Hws.
    destruct (decide (n = name)) as [->|Hne].
    + destruct (Hsheets name (clean_window 50 50 ws0)) as (ws' & Hws' & Hval).
      { subst sp1. simpl. by rewrite lookup_insert_eq. }
      exists ws'. split; [done|]. intros r c. rewrite Hval, clean_window_value.
      assert (ws0 = ws) as -> by congruence.
      clear. repeat case_bool_decide; try done; exfalso; list_cases.
    + destruct (Hsheets name ws) as (ws' & Hws' & Hval).
      { subst sp1. simpl. by rewrite lookup_insert_ne. }
      exists ws'. split; [done|]. intros r c. rewrite Hval.
      clear -Hne. repeat case_bool_decide; try done; exfalso; list_cases.
Qed.

(** C3.  With every tracked sheet present in the template,
    [clean_spreadsheet] returns normally, and in each tracked sheet the cells
    of rows 1 to 50 and columns 1 to 50 then read [None] while every other
    cell reads what it read before. *)
Theorem clean_spreadsheet_window (sp : Splitter) :
  (∀ name, name ∈ input_sheet_names sp → is_Some (template_file sp !! name)) →
  ∃ sp', clean_spreadsheet sp = (sp', Ok tt)
    ∧ ∀ name, name ∈ input_sheet_names sp →
        ∃ ws ws', template_file sp !! name = Some ws
          ∧ template_file sp' !! name = Some ws'
          ∧ ∀ r c, cell_value ws' r c
                   = if bool_decide ((r ≤ 50)%positive ∧ (c ≤ 50)%positive)
                     then VNone else cell_value ws r c.
Proof.
  intros Hall. destruct (clean_loop _ sp Hall) as (sp' & Hrun & Hsheets).
  exists sp'. split; [exact Hrun|].
  intros name Hin. destruct (Hall name Hin) as [ws Hws].
  destruct (Hsheets name ws Hws) as (ws' & Hws' & Hval).
  exists ws, ws'. split; [done|]. split; [done|].
  intros r c. rewrite Hval.
  repeat case_bool_decide; try done; exfalso; tauto.
Qed.

(** ** The sheets that are not tracked *)

Lemma on_sheet_other {A} (name other : string) (m : M worksheet A) (sp : Splitter) :
  name ≠ other →
  template_file (on_sheet name m sp).1 !! other = template_file sp !! other.
Proof.
  intros Hne. unfold on_sheet. destruct (template_file sp !! name) as [ws|]; [|done].
  destruct (m ws) as [ws' r]. simpl. by rewrite lookup_insert_ne.
Qed.

Lemma for_each_on_sheet_other (names : list string) (other : string)
    (m : string → M worksheet unit) (sp : Splitter) :
  other ∉ names →
  template_file (for_each names (λ ws, on_sheet ws (m ws)) sp).1 !! other
  = template_file sp !! other.
Proof.
  intros Hout. symmetry.
  apply (for_each_preserves
           (λ s1 s2 : Splitter, template_file s1 !! other = template_file s2 !! other));
    [done | congruence | ].
  intros name s Hin. symmetry. apply on_sheet_other. by intros ->.
Qed.

(** C10.  [clean_spreadsheet] and [fill_cols] write to the worksheets named
    in [input_sheet_names] only: any other sheet of the template workbook is
    the same afterwards, whether the operation returned or raised. *)
Theorem template_ops_frame (sp : Splitter) (merchant_dfs : gmap string DataFrame)
    (other : string) :
  other ∉ input_sheet_names sp →
  template_file (clean_spreadsheet sp).1 !! other = template_file sp !! other
  ∧ template_file (fill_cols merchant_dfs sp).1 !! other = template_file sp !! other.
Proof.
  intros Hout. split.
  - unfold clean_spreadsheet, bind.
    exact (for_each_on_sheet_other _ other (λ _, modify (clean_window 50 50)) sp Hout).
  - unfold fill_cols, bind.
    exact (for_each_on_sheet_other _ other
             (λ ws, current_df <~ lift (dict_getitem merchant_dfs ws);
                    fill_sheet current_df) sp Hout).
Qed.

(** ** The export and the disk *)

Lemma same_config_refl (sp : Splitter) : same_config sp sp.
Proof. by destruct sp. Qed.

Lemma same_config_trans (sp1 sp2 sp3 : Splitter) :
  same_config sp1 sp2 → same_config sp2 sp3 → same_config sp1 sp3.
Proof. unfold same_config. intros -> ->. by destruct sp1. Qed.

Lemma only_template_same_config (sp sp' : Splitter) :
  only_template sp sp' → same_config sp sp'.
Proof. unfold only_template, same_config. intros ->. by destruct sp. Qed.

Lemma plan_path_state (merchant_dfs : gmap string DataFrame) (sp : Splitter) :
  (plan_path merchant_dfs sp).1 = sp.
Proof.
  unfold plan_path, bind, get, lift, ret, raise.
  repeat (match goal with |- context [match ?x with Ok _ => _ | Raise _ => _ end] =>
            destruct x end; simpl; try done).
  by case_bool_decide.
Qed.

Lemma split_self_spec (merchant_id : Z) (sp : Splitter) :
  (∀ sp' e, split_self merchant_id sp = (sp', Raise e) → only_template sp sp')
  ∧ ∀ sp' path, split_self merchant_id sp = (sp', Ok path) →
      same_config sp sp'
      ∧ files sp' = files sp ++ [path]
      ∧ ∃ name, path = save_path_of (output_folder sp) name.
Proof.
  unfold split_self, bind, get, lift, modify, ret.
  destruct (filter_sheets _ _ _ _ _) as [mdfs|e];
    [|split; [intros ? ? [= <- <-]; apply only_template_refl | done]].
  pose proof (clean_spreadsheet_only_template sp) as H1.
  destruct (clean_spreadsheet sp) as [sp1 [[]|e]]; cbn [fst] in H1;
    [|split; [by intros ? ? [= <- <-] | done]].
  pose proof (fill_cols_only_template mdfs sp1) as H2.
  pose proof (only_template_trans _ _ _ H1 H2) as H12.
  destruct (fill_cols mdfs sp1) as [sp2 [[]|e]]; cbn [fst] in H2, H12;
    [|split; [by intros ? ? [= <- <-] | done]].
  pose proof (plan_path_state mdfs sp2) as H3.
  assert (∀ path, (plan_path mdfs sp2).2 = Ok path →
                  ∃ name, path = save_path_of (output_folder sp2) name) as Hform.
  { unfold plan_path, bind, get, lift, ret, raise.
    repeat (match goal with |- context [match ?x with Ok _ => _ | Raise _ => _ end] =>
              destruct x end; simpl; try done).
    case_bool_decide; [done|]. intros path [= <-]. eauto. }
  destruct (plan_path mdfs sp2) as [sp3 [path|e]]; cbn [fst snd] in *; subst sp3;
    [|split; [by intros ? ? [= <- <-] | done]].
  assert (files sp2 = files sp ∧ output_folder sp2 = output_folder sp) as [Hf Ho].
  { rewrite H12. done. }
  split; [done|].
  intros sp' path' [= <- <-]. split; [|split].
  - unfold same_config, only_template in *. rewrite H12. by destruct sp.
  - simpl. by rewrite Hf.
  - destruct (Hform path eq_refl) as [name ->]. exists name. by rewrite Ho.
Qed.

Lemma split_loop_world (ms : list Z) :
  ∀ sp : Splitter,
    ∃ sp' r saves,
      (∀ w, for_each ms split_one (sp, w)
            = ((sp', apply_saves (output_folder sp) saves w), r))
      ∧ same_config sp sp'
      ∧ files sp' = files sp ++ saves.*1
      ∧ Forall (λ s, ∃ name, s.1 = save_path_of (output_folder sp) name) saves
      ∧ (is_ok r = true → length saves = length ms).
Proof.
  induction ms as [|m ms IH]; intros sp.
  - exists sp, (Ok tt), []. simpl. rewrite app_nil_r.
    split; [done|]. split; [apply same_config_refl|]. by repeat split.
  - destruct (split_self_spec m sp) as [Hraise Hok].
    destruct (split_self m sp) as [sp1 [path|e]] eqn:Hself.
    + destruct (Hok sp1 path eq_refl) as (Hcfg & Hfiles & Hform).
      assert (output_folder sp1 = output_folder sp) as Hfolder by (by rewrite Hcfg).
      destruct (IH sp1) as (sp' & r & saves & Hrun & Hcfg' & Hfiles' & Hforms & Hlen).
      exists sp', r, ((path, template_file sp1) :: saves).
      split; [|split; [|split; [|split]]].
      * intros w. cbn [for_each]. unfold bind. rewrite split_one_world, Hself.
        rewrite Hrun, Hfolder. reflexivity.
      * eapply same_config_trans; eassumption.
      * rewrite Hfiles', Hfiles. cbn [fmap list_fmap fst]. by rewrite <- app_assoc.
      * constructor; [exact Hform|]. by rewrite <- Hfolder.
      * intros Hr. simpl. by rewrite Hlen.
    + pose proof (Hraise sp1 e eq_refl) as Hcfg.
      exists sp1, (Raise e), []. split; [|split; [|split; [|split]]].
      * intros w. cbn [for_each]. unfold bind. by rewrite split_one_world, Hself.
      * by apply only_template_same_config.
      * rewrite app_nil_r. rewrite Hcfg. reflexivity.
      * constructor.
      * done.
Qed.

(** ** Saving twice *)

Lemma writes_lookup_agree (saves : list (string * workbook))
    (d1 d2 : gmap string workbook) (p : string) :
  d1 !! p = d2 !! p → writes saves d1 !! p = writes saves d2 !! p.
Proof.
  unfold writes. revert d1 d2. induction saves as [|[q wb] saves IH]; intros d1 d2 Hp; [done|].
  cbn [foldl fst snd]. apply IH. rewrite !lookup_insert. by case_decide.
Qed.

Lemma writes_snoc (saves : list (string * workbook)) (q : string) (wb : workbook)
    (d : gmap string workbook) :
  writes (saves ++ [(q, wb)]) d = <[q := wb]> (writes saves d).
Proof. unfold writes. by rewrite foldl_app. Qed.

Lemma writes_idempotent (saves : list (string * workbook)) (d : gmap string workbook) :
  writes saves (writes saves d) = writes saves d.
Proof.
  induction saves as [|[q wb] saves IH] using rev_ind; [done|].
  rewrite !writes_snoc. apply map_eq. intros p.
  rewrite !lookup_insert. case_decide; [done|].
  rewrite <- IH at 2. apply writes_lookup_agree. by rewrite lookup_insert_ne.
Qed.

Lemma writes_lookup_other (saves : list (string * workbook))
    (d : gmap string workbook) (p : string) :
  p ∉ saves.*1 → writes saves d !! p = d !! p.
Proof.
  unfold writes. revert d. induction saves as [|[q wb] saves IH]; intros d Hp; [done|].
  cbn [fmap list_fmap fst] in Hp. apply not_elem_of_cons in Hp as [Hq Hp].
  cbn [foldl fst snd]. rewrite IH by done. by apply lookup_insert_ne.
Qed.

Lemma writes_lookup_written (saves : list (string * workbook))
    (d : gmap string workbook) (p : string) :
  p ∈ saves.*1 → is_Some (writes saves d !! p).
Proof.
  induction saves as [|[q wb] saves IH] using rev_ind;
    [intros Hin; by apply elem_of_nil in Hin|].
  rewrite writes_snoc, fmap_app, elem_of_app. intros Hin.
  rewrite lookup_insert. case_decide as Hq; [done|].
  apply IH. destruct Hin as [Hin|Hin]; [done|].
  apply list_elem_of_singleton in Hin. by destruct Hq.
Qed.

Lemma path_exists_nonempty (d : string) (w : World) :
  path_exists d w = true → d ≠ "".
Proof.
  unfold path_exists. intros He. apply andb_true_iff in He as [He _].
  by apply bool_decide_eq_true in He.
Qed.

Lemma path_exists_save_op (folder path : string) (wb : workbook) (w : World) :
  folder ≠ "" → path_exists folder (save_op folder path wb w) = true.
Proof.
  intros Hd. pose proof (path_exists_ensure_dir folder w Hd) as He.
  unfold save_op, path_exists in *. cbn [set_disk dirs disk].
  apply andb_true_iff in He as [H1 He]. rewrite H1. cbn [andb].
  apply orb_true_iff in He as [He|He]; apply orb_true_iff; [by left|right].
  apply bool_decide_eq_true in He. apply bool_decide_eq_true.
  rewrite lookup_insert. by destruct (decide (path = folder)).
Qed.

Lemma save_op_disk (folder path : string) (wb : workbook) (w : World) :
  disk (save_op folder path wb w) = <[path := wb]> (disk w).
Proof. unfold save_op. cbn [set_disk disk]. by rewrite ensure_dir_disk. Qed.

Lemma apply_saves_exists (folder : string) (saves : list (string * workbook)) :
  ∀ w, path_exists folder w = true →
       apply_saves folder saves w
       = {| disk := writes saves (disk w); dirs := dirs w; trace := trace w |}
       ∧ path_exists folder (apply_saves folder saves w) = true.
Proof.
  unfold apply_saves, writes.
  induction saves as [|[q wb] saves IH]; intros w Hw.
  - split; [by destruct w | done].
  - cbn [foldl fst snd].
    pose proof (path_exists_nonempty _ _ Hw) as Hd.
    destruct (IH (save_op folder q wb w)) as [-> ->]; [by apply path_exists_save_op|].
    split; [|done]. unfold save_op. rewrite (ensure_dir_exists _ _ Hw). done.
Qed.

Lemma apply_saves_idempotent (folder : string) (saves : list (string * workbook))
    (w : World) :
  folder ≠ "" →
  apply_saves folder saves (apply_saves folder saves w) = apply_saves folder saves w.
Proof.
  intros Hd. destruct saves as [|[q wb] saves]; [done|].
  assert (∃ w1, apply_saves folder ((q, wb) :: saves) w
                = {| disk := writes ((q, wb) :: saves) (disk w);
                     dirs := dirs w1; trace := trace w1 |}
                ∧ path_exists folder (apply_saves folder ((q, wb) :: saves) w) = true)
    as (w1 & Heq & Hex).
  { exists (save_op folder q wb w).
    destruct (apply_saves_exists folder saves (save_op folder q wb w)) as [Heq Hex];
      [by apply path_exists_save_op|].
    split; [|exact Hex]. unfold apply_saves in *. cbn [foldl fst snd].
    rewrite Heq, save_op_disk. reflexivity. }
  destruct (apply_saves_exists folder ((q, wb) :: saves) _ Hex) as [-> _].
  rewrite Heq. cbn [disk dirs trace]. by rewrite writes_idempotent.
Qed.

Lemma apply_saves_disk (folder : string) (saves : list (string * workbook)) (w : World) :
  disk (apply_saves folder saves w) = writes saves (disk w).
Proof.
  unfold apply_saves, writes. revert w.
  induction saves as [|[q wb] saves IH]; intros w; [done|].
  cbn [foldl fst snd]. by rewrite IH, save_op_disk.
Qed.

(** ** Column lookup under distinct labels *)

Lemma positions_from_absent (n : nat) (key : value) (labels : list value) :
  key ∉ labels → positions_from n key labels = [].
Proof.
  revert n. induction labels as [|l labels IH]; intros n Hout; [done|].
  apply not_elem_of_cons in Hout as [Hne Hout].
  simpl. case_decide; [congruence|]. by apply IH.
Qed.

Lemma positions_NoDup (key : value) (labels : list value) :
  NoDup labels → key ∈ labels → ∃ i, positions key labels = [i].
Proof.
  unfold positions. generalize 0%nat.
  induction labels as [|l labels IH]; intros n Hnd Hin; [by apply elem_of_nil in Hin|].
  apply NoDup_cons in Hnd as [Hl Hnd]. simpl. case_decide as Heq.
  - subst l. rewrite positions_from_absent by done. eauto.
  - apply IH; [done|]. apply elem_of_cons in Hin as [->|Hin]; [done|exact Hin].
Qed.

Lemma getitem_NoDup (df : DataFrame) (key : string) :
  NoDup (columns df) → VStr key ∈ columns df →
  ∃ i, positions (VStr key) (columns df) = [i]
       ∧ getitem df key = Ok (Series (map (cell_at i) (rows df))).
Proof.
  intros Hnd Hin. destruct (positions_NoDup _ _ Hnd Hin) as [i Hi].
  exists i. split; [done|]. unfold getitem. by rewrite Hi.
Qed.

Lemma getitem_Series_inv (df : DataFrame) (key : string) (vs : list value) :
  getitem df key = Ok (Series vs) →
  ∃ i, positions (VStr key) (columns df) = [i] ∧ vs = map (cell_at i) (rows df).
Proof.
  unfold getitem. destruct (positions _ _) as [|i [|i' ps]]; [done| |done].
  intros [= <-]. eauto.
Qed.

(** The first row kept by the mask is the first row that matches. *)
Lemma first_kept_row (m : Z) (i j : nat) (rws : list (list value))
    (k : nat) (v x : value) :
  list_find (λ v, value_eq_int m v = true) (map (cell_at i) rws) = Some (k, v) →
  map (cell_at j) rws !! k = Some x →
  head (map (cell_at j)
          (mask_rows (map (value_eq_int m) (map (cell_at i) rws)) rws)) = Some x.
Proof.
  revert k. induction rws as [|r rws IH]; intros k Hfind Hk; [done|].
  cbn [map mask_rows]. cbn [map] in Hfind, Hk.
  cbn [list_find] in Hfind.
  destruct (value_eq_int m (cell_at i r)) eqn:Hr.
  - rewrite decide_True in Hfind by done. injection Hfind as <- <-.
    simpl in Hk. by simplify_eq.
  - rewrite decide_False in Hfind by done.
    destruct (list_find _ _) as [[k' v']|] eqn:Hf; [|done].
    simpl in Hfind. injection Hfind as <- <-. simpl in Hk. by eapply IH.
Qed.

(** ** When the loop body succeeds *)

Lemma filter_sheets_ok (sheets : gmap string DataFrame) (key : string) (m : Z)
    (names : list string) :
  ∀ acc : gmap string DataFrame,
    (∀ name, name ∈ names →
       ∃ df, sheets !! name = Some df ∧ NoDup (columns df) ∧ VStr key ∈ columns df) →
    ∃ mdfs, filter_sheets sheets key m names acc = Ok mdfs
      ∧ (∀ name, name ∉ names → mdfs !! name = acc !! name)
      ∧ (∀ name, name ∈ names →
           ∃ df i, sheets !! name = Some df
                   ∧ positions (VStr key) (columns df) = [i]
                   ∧ mdfs !! name = Some (filtered df i m)).
Proof.
  induction names as [|n names IH]; intros acc Hall.
  - exists acc. split; [done|]. split; [done|]. intros name Hin. by apply elem_of_nil in Hin.
  - destruct (Hall n) as (df & Hdf & Hnd & Hkey); [by left|].
    destruct (getitem_NoDup df key Hnd Hkey) as (i & Hi & Hget).
    destruct (IH (<[n := filtered df i m]> acc)) as (mdfs & Hrun & Hother & Hin).
    { intros name Hname. apply Hall. by right. }
    exists mdfs. split; [|split].
    + cbn [filter_sheets]. unfold dict_getitem, filter_eq. rewrite Hdf, Hget. exact Hrun.
    + intros name Hname. apply not_elem_of_cons in Hname as [Hne Hname].
      rewrite Hother by done. by apply lookup_insert_ne.
    + intros name Hname. destruct (decide (name ∈ names)) as [Hn|Hn]; [by apply Hin|].
      apply elem_of_cons in Hname as [->|Hname]; [|done].
      exists df, i. split; [done|]. split; [done|].
      rewrite Hother by done. apply lookup_insert_eq.
Qed.

Lemma on_sheets_ok (names : list string) (m : string → M worksheet unit) :
  (∀ name ws, name ∈ names → ∃ ws', m name ws = (ws', Ok tt)) →
  ∀ sp : Splitter,
    (∀ name, name ∈ names → is_Some (template_file sp !! name)) →
    ∃ sp', for_each names (λ ws, on_sheet ws (m ws)) sp = (sp', Ok tt)
      ∧ ∀ name, is_Some (template_file sp !! name) → is_Some (template_file sp' !! name).
Proof.
  intros Hm. induction names as [|n names IH]; intros sp Hall.
  - exists sp. by split.
  - destruct (Hall n) as [ws Hws]; [by left|].
    destruct (Hm n ws) as [ws' Hrun]; [by left|].
    cbn [for_each]. unfold bind, on_sheet at 1. rewrite Hws, Hrun.
    set (sp1 := set_template_file _ sp).
    assert (∀ name, is_Some (template_file sp !! name) →
                    is_Some (template_file sp1 !! name)) as Hkeep.
    { intros name Hname. subst sp1. simpl. rewrite lookup_insert. by case_decide. }
    destruct IH with (sp := sp1) as (sp' & Hrest & Hkeep').
    { intros name ws0 Hname. apply Hm. by right. }
    { intros name Hname. apply Hkeep, Hall. by right. }
    exists sp'. split; [exact Hrest|]. intros name Hname. by apply Hkeep', Hkeep.
Qed.

Lemma write_row_ok (labels row : list value) (row_index : positive) :
  NoDup labels →
  ∀ (cols : list value) (c : positive) (ws : worksheet),
    cols ⊆ labels →
    ∃ ws', write_row labels row_index c cols row ws = (ws', Ok tt).
Proof.
  intros Hnd. induction cols as [|col cols IH]; intros c ws Hsub; [by eexists|].
  destruct (positions_NoDup col labels Hnd) as [p Hp]; [apply Hsub; by left|].
  cbn [write_row]. unfold bind, lift, row_getitem, modify. rewrite Hp.
  apply IH. intros x Hx. apply Hsub. by right.
Qed.

Lemma write_rows_ok (labels : list value) :
  NoDup labels →
  ∀ (rs : list (list value)) (row_index : positive) (ws : worksheet),
    ∃ ws', write_rows labels row_index rs ws = (ws', Ok tt).
Proof.
  intros Hnd. induction rs as [|row rs IH]; intros row_index ws; [by eexists|].
  cbn [write_rows]. unfold bind.
  destruct (write_row_ok labels row row_index Hnd labels 1%positive ws) as [ws1 ->]; [done|].
  apply IH.
Qed.

Lemma fill_sheet_ok (df : DataFrame) (ws : worksheet) :
  NoDup (columns df) →
  ¬ (VStr "index" ∈ columns df ∧ VStr "level_0" ∈ columns df) →
  ∃ ws', fill_sheet df ws = (ws', Ok tt).
Proof.
  intros Hnd Hnames. unfold fill_sheet, bind, modify, lift.
  assert (∃ name, reset_index_name df = Ok name) as [name ->].
  { unfold reset_index_name. repeat case_bool_decide; eauto. tauto. }
  apply write_rows_ok, Hnd.
Qed.

Lemma plan_path_ok (sp sp2 : Splitter) (mdfs : gmap string DataFrame)
    (sheet : string) (m : Z) (s : string) :
  only_template sp sp2 →
  filename_location sp !! "sheet" = Some sheet →
  (∃ df i, dfs sp !! sheet = Some df
           ∧ positions (VStr (id_column sp)) (columns df) = [i]
           ∧ mdfs !! sheet = Some (filtered df i m)) →
  output_folder sp ≠ "" →
  seller_name_of sp m = Some s →
  plan_path mdfs sp2
  = (sp2, Ok (save_path_of (output_folder sp) (spec_sanitize s))).
Proof.
  intros H12 Hsheet (df & i & Hdf & Hi & Hm) Hfolder Hname.
  unfold seller_name_of in Hname. rewrite Hsheet in Hname. simpl in Hname.
  destruct (filename_location sp !! "col") as [col|] eqn:Hcol; [|done]. simpl in Hname.
  rewrite Hdf in Hname. simpl in Hname.
  destruct (getitem df (id_column sp)) as [[ids|]|] eqn:Hids; [|done..].
  destruct (getitem df col) as [[names|]|] eqn:Hnames; [|done..].
  destruct (list_find _ ids) as [[k v]|] eqn:Hfind; [|done]. simpl in Hname.
  destruct (names !! k) as [[| | |s']|] eqn:Hk; try done. injection Hname as ->.
  apply getitem_Series_inv in Hids as (i' & Hi' & ->).
  apply getitem_Series_inv in Hnames as (j & Hj & ->).
  assert (i' = i) as -> by congruence.
  pose proof (first_kept_row m i j (rows df) k v (VStr s) Hfind Hk) as Hhead.
  unfold plan_path, bind, get, lift, ret, raise, dict_getitem.
  assert (filename_location sp2 = filename_location sp
          ∧ output_folder sp2 = output_folder sp) as [-> ->].
  { rewrite H12. done. }
  rewrite Hsheet, Hm, Hcol. unfold getitem. cbn [columns rows filtered]. rewrite Hj.
  destruct (map (cell_at j) (mask_rows _ _)) as [|x names]; [done|].
  injection Hhead as ->.
  cbn [clean_first_name]. rewrite bool_decide_eq_false_2 by done.
  by rewrite re_sub_after_replace.
Qed.

Lemma split_self_ok (sp : Splitter) (sheet : string) (m : Z) (s : string) :
  (∀ name, name ∈ input_sheet_names sp → sheet_ready sp name) →
  filename_location sp !! "sheet" = Some sheet →
  sheet ∈ input_sheet_names sp →
  output_folder sp ≠ "" →
  seller_name_of sp m = Some s →
  ∃ sp', split_self m sp
         = (sp', Ok (save_path_of (output_folder sp) (spec_sanitize s)))
    ∧ ∀ name, name ∈ input_sheet_names sp → sheet_ready sp' name.
Proof.
  intros Hready Hsheet Hin Hfolder Hname.
  unfold split_self, bind, get, lift, modify, ret.
  destruct (filter_sheets_ok (dfs sp) (id_column sp) m (input_sheet_names sp) ∅)
    as (mdfs & -> & _ & Hm).
  { intros name Hn. destruct (Hready name Hn) as (df & ? & ? & ? & _). eauto. }
  (* clean_spreadsheet *)
  pose proof (clean_spreadsheet_only_template sp) as H1.
  destruct (on_sheets_ok (input_sheet_names sp) (λ _, modify (clean_window 50 50)))
    with (sp := sp) as (sp1 & Hclean & Hkeep1).
  { intros name ws _. by eexists. }
  { intros name Hn. by destruct (Hready name Hn) as (df & _ & _ & _ & _ & ?). }
  unfold clean_spreadsheet, bind in H1 |- *. rewrite Hclean in H1 |- *. cbn [fst] in H1.
  (* fill_cols *)
  pose proof (fill_cols_only_template mdfs sp1) as H2.
  assert (input_sheet_names sp1 = input_sheet_names sp) as Hn1 by (by rewrite H1).
  destruct (on_sheets_ok (input_sheet_names sp)
              (λ ws, current_df <~ lift (dict_getitem mdfs ws); fill_sheet current_df))
    with (sp := sp1) as (sp2 & Hfill & Hkeep2).
  { intros name ws Hn. destruct (Hm name Hn) as (df & i & Hdf & _ & Hmdf).
    destruct (Hready name Hn) as (df' & Hdf' & Hnd & _ & Hres & _).
    assert (df' = df) as -> by congruence.
    unfold bind, lift, dict_getitem. rewrite Hmdf.
    by apply fill_sheet_ok. }
  { intros name Hn. apply Hkeep1.
    by destruct (Hready name Hn) as (df & _ & _ & _ & _ & ?). }
  unfold fill_cols, bind in H2, Hfill |- *. rewrite Hn1 in H2 |- *.
  rewrite Hfill in H2 |- *.
  cbn [fst] in H2.
  pose proof (only_template_trans _ _ _ H1 H2) as H12.
  rewrite (plan_path_ok sp sp2 mdfs sheet m s H12 Hsheet (Hm sheet Hin) Hfolder Hname).
  eexists. split; [reflexivity|].
  intros name Hn. destruct (Hready name Hn) as (df & Hdf & Hnd & Hid & Hres & Htpl).
  exists df. cbn [dfs id_column template_file set_files set_template_file].
  assert (dfs sp2 = dfs sp ∧ id_column sp2 = id_column sp) as [-> ->].
  { rewrite H12. done. }
  repeat split; try done.
  rewrite saved_lookup. apply fmap_is_Some. by apply Hkeep2, Hkeep1.
Qed.

Lemma same_config_fields (sp sp' : Splitter) :
  same_config sp sp' →
  input_sheet_names sp' = input_sheet_names sp
  ∧ output_folder sp' = output_folder sp
  ∧ filename_location sp' = filename_location sp
  ∧ ∀ m, seller_name_of sp' m = seller_name_of sp m.
Proof. intros ->. by destruct sp. Qed.

(** ** Stale cells across an iteration

    A cell of a tracked sheet that lies below row 50 and below the last row
    the data can fill is not written by an iteration of the loop, however
    the iteration ends. *)

Lemma ws_cell_other (r c : positive) (v : value) (ws : worksheet) (k : coord) :
  k ≠ (r, c) → ws_cell r c v ws !! k = ws !! k.
Proof.
  intros Hk. unfold ws_cell.
  destruct v; try (by apply lookup_insert_ne).
  destruct (ws !! (r, c)); [done | by apply lookup_insert_ne].
Qed.

Lemma write_header_other (cols : list value) :
  ∀ (c : positive) (ws : worksheet) (r' c' : positive),
    r' ≠ 1%positive → write_header c cols ws !! (r', c') = ws !! (r', c').
Proof.
  induction cols as [|col cols IH]; intros c ws r' c' Hr; [done|].
  cbn [write_header]. rewrite IH by done. apply ws_cell_other. congruence.
Qed.

Lemma write_row_other (labels row : list value) (row_index : positive)
    (cols : list value) :
  ∀ (c : positive) (ws : worksheet) (r' c' : positive),
    r' ≠ row_index →
    (write_row labels row_index c cols row ws).1 !! (r', c') = ws !! (r', c').
Proof.
  induction cols as [|col cols IH]; intros c ws r' c' Hr; [done|].
  cbn [write_row]. unfold bind, lift, modify.
  destruct (row_getitem labels row col) as [v|e]; [|done].
  specialize (IH (Pos.succ c) (ws_cell row_index c v ws) r' c' Hr).
  destruct (write_row _ _ _ _ _ _) as [ws' res]. cbn [fst] in *.
  rewrite IH. apply ws_cell_other. congruence.
Qed.

Lemma write_rows_other (labels : list value) (rs : list (list value)) :
  ∀ (row_index : positive) (ws : worksheet) (r' c' : positive),
    (Pos.to_nat row_index + length rs ≤ Pos.to_nat r')%nat →
    (write_rows labels row_index rs ws).1 !! (r', c') = ws !! (r', c').
Proof.
  induction rs as [|row rs IH]; intros row_index ws r' c' Hr; [done|].
  cbn [write_rows]. unfold bind. cbn [length] in Hr.
  pose proof (write_row_other labels row row_index labels 1%positive ws r' c') as H1.
  destruct (write_row _ _ _ _ _ _) as [ws1 [[]|e]]; cbn [fst] in *.
  - rewrite IH by lia. apply H1. lia.
  - apply H1. lia.
Qed.

Lemma fill_sheet_other (df : DataFrame) (ws : worksheet) (r' c' : positive) :
  (1 + length (rows df) < Pos.to_nat r')%nat →
  (fill_sheet df ws).1 !! (r', c') = ws !! (r', c').
Proof.
  intros Hr. unfold fill_sheet, bind, modify, lift.
  assert (write_header 1 (columns df) ws !! (r', c') = ws !! (r', c')) as Hh.
  { apply write_header_other. lia. }
  destruct (reset_index_name df); [|done].
  rewrite <- Hh. apply write_rows_other. lia.
Qed.

Lemma mask_rows_length (mask : list bool) (rs : list (list value)) :
  (length (mask_rows mask rs) ≤ length rs)%nat.
Proof.
  revert rs. induction mask as [|b mask IH]; intros [|r rs]; simpl; try lia.
  specialize (IH rs). destruct b; simpl; lia.
Qed.

Lemma filter_sheets_rows (sheets : gmap string DataFrame) (key : string) (m : Z)
    (names : list string) :
  ∀ acc mdfs,
    filter_sheets sheets key m names acc = Ok mdfs →
    ∀ n df', mdfs !! n = Some df' →
      acc !! n = Some df'
      ∨ ∃ df, sheets !! n = Some df ∧ (length (rows df') ≤ length (rows df))%nat.
Proof.
  induction names as [|name names IH]; intros acc mdfs Hrun n df' Hn.
  - injection Hrun as <-. by left.
  - cbn [filter_sheets] in Hrun. unfold dict_getitem, filter_eq in Hrun.
    destruct (sheets !! name) as [df|] eqn:Hdf; [|done].
    destruct (getitem df key) as [[vs|]|]; [|done..].
    destruct (IH _ _ Hrun n df' Hn) as [Hacc|Hsheet]; [|by right].
    rewrite lookup_insert in Hacc. case_decide as Hname; [|by left].
    right. injection Hacc as <-. subst n. exists df. split; [done|].
    apply mask_rows_length.
Qed.

Lemma on_sheets_cell (names : list string) (m : string → M worksheet unit)
    (name : string) (k : coord) :
  (∀ ws, (m name ws).1 !! k = ws !! k) →
  ∀ (sp : Splitter) (ws : worksheet),
    template_file sp !! name = Some ws →
    ∃ ws', template_file (for_each names (λ n, on_sheet n (m n)) sp).1 !! name = Some ws'
           ∧ ws' !! k = ws !! k.
Proof.
  intros Hm sp.
  apply (for_each_preserves
           (λ s1 s2 : Splitter,
              ∀ ws, template_file s1 !! name = Some ws →
                    ∃ ws', template_file s2 !! name = Some ws' ∧ ws' !! k = ws !! k)).
  - intros s ws Hws. eauto.
  - intros s1 s2 s3 H12 H23 ws Hws.
    destruct (H12 ws Hws) as (ws2 & Hws2 & Hk2).
    destruct (H23 ws2 Hws2) as (ws3 & Hws3 & Hk3).
    exists ws3. split; [done | congruence].
  - intros n s _ ws Hws. destruct (decide (n = name)) as [->|Hne].
    + unfold on_sheet. rewrite Hws. specialize (Hm ws).
      destruct (m name ws) as [ws1 res]. cbn [fst template_file set_template_file] in *.
      exists ws1. by rewrite lookup_insert_eq.
    + exists ws. by rewrite on_sheet_other.
Qed.

(** X21.  A cell of a template sheet that lies below row 50 and below the
    last row the sheet's data can fill survives a whole iteration of the
    loop -- cleaning, filling, saving and reopening -- however the iteration
    ends.  After an iteration that raised it reads what it read before; after
    one that completed it reads what the saved file holds for it, which is
    the same value for every cell that a file can hold (an integer, a
    non-empty string, an empty cell). *)
Lemma stale_cell_survives_iteration (merchant_id : Z) (sp : Splitter) (w : World)
    (name : string) (ws : worksheet) (r c : positive) :
  template_file sp !! name = Some ws →
  (50 < r)%positive →
  (∀ df, dfs sp !! name = Some df → (1 + length (rows df) < Pos.to_nat r)%nat) →
  ∃ ws', template_file (split_one merchant_id (sp, w)).1.1 !! name = Some ws'
         ∧ cell_value ws' r c
           = (if is_ok (split_one merchant_id (sp, w)).2
              then saved_value (cell_value ws r c) else cell_value ws r c)
         ∧ (saved_value (cell_value ws r c) = cell_value ws r c →
            cell_value ws' r c = cell_value ws r c).
Proof.
  intros Hws Hr Hrows. rewrite split_one_world.
  assert (∃ ws', template_file (split_self merchant_id sp).1 !! name = Some ws'
                 ∧ cell_value ws' r c
                   = if is_ok (split_self merchant_id sp).2
                     then saved_value (cell_value ws r c) else cell_value ws r c)
    as (ws' & Hws' & Hk).
  { assert (∀ w1 w2 : worksheet, w1 !! (r, c) = w2 !! (r, c) →
                                 cell_value w1 r c = cell_value w2 r c) as Hcell.
    { intros w1 w2 Heq. unfold cell_value. by rewrite Heq. }
    unfold split_self, bind, get, lift, modify, ret.
    destruct (filter_sheets _ _ _ _ _) as [mdfs|e] eqn:Hfilter;
      [|cbn [fst snd is_ok]; by eauto].
    destruct (on_sheets_cell (input_sheet_names sp)
                (λ _, modify (clean_window 50 50)) name (r, c)) with (sp := sp) (ws := ws)
      as (ws1 & Hws1 & Hk1); [|done|].
    { intros ws0. unfold modify, clean_window. cbn [fst].
      rewrite clean_rows_lookup, bool_decide_eq_false_2; [done|].
      rewrite elem_of_pos_range. lia. }
    pose proof (clean_spreadsheet_only_template sp) as H1.
    unfold clean_spreadsheet, bind in H1, Hws1 |- *.
    destruct (for_each _ _ sp) as [sp1 [[]|e]]; cbn [fst snd is_ok] in *;
      [|exists ws1; split; [done | apply Hcell; congruence]].
    destruct (on_sheets_cell (input_sheet_names sp1)
                (λ n, current_df <~ lift (dict_getitem mdfs n); fill_sheet current_df)
                name (r, c)) with (sp := sp1) (ws := ws1)
      as (ws2 & Hws2 & Hk2); [|done|].
    { intros ws0. unfold bind, lift, dict_getitem.
      destruct (mdfs !! name) as [df'|] eqn:Hdf'; [|done].
      apply fill_sheet_other.
      destruct (filter_sheets_rows _ _ _ _ _ _ Hfilter name df' Hdf') as [Hacc|(df & Hdf & Hlen)];
        [by rewrite lookup_empty in Hacc|].
      specialize (Hrows df Hdf). lia. }
    unfold fill_cols, bind in Hws2 |- *.
    destruct (for_each _ _ sp1) as [sp2 [[]|e]]; cbn [fst snd is_ok] in *;
      [|exists ws2; split; [done | apply Hcell; congruence]].
    pose proof (plan_path_state mdfs sp2) as H3.
    destruct (plan_path mdfs sp2) as [sp3 [path|e]]; cbn [fst snd is_ok] in *; subst sp3;
      [|exists ws2; split; [done | apply Hcell; congruence]].
    exists (saved_ws ws2). cbn [template_file set_files set_template_file].
    split; [by rewrite saved_lookup, Hws2|].
    rewrite cell_value_saved. f_equal. apply Hcell. congruence. }
  exists ws'.
  assert (cell_value ws' r c
          = if is_ok (match split_self merchant_id sp with
                      | (sp', Ok path) =>
                          ((sp', save_op (output_folder sp) path (template_file sp') w),
                           Ok tt)
                      | (sp', Raise e) => ((sp', w), Raise e)
                      end).2
            then saved_value (cell_value ws r c) else cell_value ws r c) as Hk'.
  { rewrite Hk. by destruct (split_self merchant_id sp) as [sp' [path|e]]. }
  split; [by destruct (split_self merchant_id sp) as [sp' [path|e]]|].
  split; [exact Hk'|].
  intros Hkeep. rewrite Hk'. by case_match.
Qed.

(** ** The rows of one merchant *)

Lemma mask_rows_filter (f : list value → bool) (rs : list (list value)) :
  mask_rows (map f rs) rs = List.filter f rs.
Proof.
  induction rs as [|r rs IH]; [done|]. cbn [map mask_rows List.filter].
  rewrite IH. by destruct (f r).
Qed.

Lemma filter_eq_rows (df df' : DataFrame) (key : string) (m : Z) :
  filter_eq df key m = Ok df' →
  ∃ i, positions (VStr key) (columns df) = [i]
       ∧ columns df' = columns df
       ∧ rows df' = List.filter (λ r, value_eq_int m (cell_at i r)) (rows df).
Proof.
  unfold filter_eq. destruct (getitem df key) as [[vs|]|] eqn:Hget; [|done..].
  apply getitem_Series_inv in Hget as (i & Hi & ->). intros [= <-].
  exists i. split; [done|]. split; [done|]. cbn [rows].
  rewrite <- (mask_rows_filter (λ r, value_eq_int m (cell_at i r))).
  by rewrite map_map.
Qed.

Lemma filter_sheets_acc (sheets : gmap string DataFrame) (key : string) (m : Z)
    (names : list string) :
  ∀ acc mdfs,
    filter_sheets sheets key m names acc = Ok mdfs →
    (∀ name, is_Some (mdfs !! name) ↔ name ∈ names ∨ is_Some (acc !! name))
    ∧ ∀ name df', mdfs !! name = Some df' →
        acc !! name = Some df'
        ∨ ∃ df, sheets !! name = Some df ∧ filter_eq df key m = Ok df'.
Proof.
  induction names as [|n names IH]; intros acc mdfs Hrun.
  - injection Hrun as <-. split; [|by left].
    intros name. split; [by right|]. intros [Hin|?]; [|done]. by apply elem_of_nil in Hin.
  - cbn [filter_sheets] in Hrun. unfold dict_getitem in Hrun.
    destruct (sheets !! n) as [df|] eqn:Hdf; [|done].
    destruct (filter_eq df key m) as [df1|] eqn:Hf; [|done].
    destruct (IH _ _ Hrun) as [Hdom Hval]. split.
    + intros name. rewrite Hdom, elem_of_cons, lookup_insert.
      case_decide as Hn; [subst; split; eauto|]. split.
      * intros [?|?]; eauto.
      * intros [[?|?]|?]; eauto. congruence.
    + intros name df' Hname. destruct (Hval name df' Hname) as [Hacc|?]; [|by right].
      rewrite lookup_insert in Hacc. case_decide as Hn; [|by left].
      right. injection Hacc as <-. subst n. eauto.
Qed.

Lemma filter_eq_rows_by_id (df df' : DataFrame) (key : string) (m : Z) :
  filter_eq df key m = Ok df' →
  ∃ i, positions (VStr key) (columns df) = [i]
       ∧ columns df' = columns df
       ∧ rows df' = List.filter (λ r, bool_decide (cell_at i r = VInt m)) (rows df).
Proof.
  intros Hf. destruct (filter_eq_rows df df' key m Hf) as (i & Hi & Hcols & Hrows).
  exists i. split; [done|]. split; [done|].
  rewrite Hrows. apply filter_ext. intros r. unfold value_eq_int.
  destruct (cell_at i r) as [| |z|s]; try by rewrite bool_decide_eq_false_2.
  destruct (Z.eqb_spec z m) as [->|Hne].
  - by rewrite bool_decide_eq_true_2.
  - rewrite bool_decide_eq_false_2; [done|]. congruence.
Qed.

(** X6.  The tables built for one merchant: there is one per tracked sheet
    and no other, and the table of a sheet has the sheet's labels and exactly
    the rows whose identifier cell is the integer [m], in their order.  A row
    whose identifier is a string or an empty cell is never taken. *)
Theorem filter_sheets_selects (sheets mdfs : gmap string DataFrame)
    (key : string) (m : Z) (names : list string) :
  filter_sheets sheets key m names ∅ = Ok mdfs →
  (∀ name, is_Some (mdfs !! name) ↔ name ∈ names)
  ∧ ∀ name df', mdfs !! name = Some df' →
      ∃ df i, sheets !! name = Some df
        ∧ positions (VStr key) (columns df) = [i]
        ∧ columns df' = columns df
        ∧ rows df' = List.filter (λ r, bool_decide (cell_at i r = VInt m)) (rows df).
Proof.
  intros Hrun. destruct (filter_sheets_acc _ _ _ _ _ _ Hrun) as [Hdom Hval]. split.
  - intros name. rewrite Hdom, lookup_empty. split; [|by left].
    intros [?|[? ?]]; done.
  - intros name df' Hname.
    destruct (Hval name df' Hname) as [Hacc|(df & Hdf & Hf)];
      [by rewrite lookup_empty in Hacc|].
    destruct (filter_eq_rows_by_id df df' key m Hf) as (i & Hi & Hcols & Hrows).
    by exists df, i.
Qed.

(** ** What fill_cols writes *)

Lemma cell_value_ws_cell (r c : positive) (v : value) (ws : worksheet) :
  cell_value (ws_cell r c v ws) r c = put_value v (cell_value ws r c).
Proof.
  unfold cell_value, ws_cell.
  destruct v; try (by rewrite lookup_insert_eq).
  destruct (ws !! (r, c)) as [old|] eqn:Hold; [by rewrite Hold|].
  by rewrite lookup_insert_eq.
Qed.

Lemma positions_at (labels : list value) (key : value) (j : nat) :
  NoDup labels → labels !! j = Some key → positions key labels = [j].
Proof.
  unfold positions. change j with (0 + j)%nat at 2. generalize 0%nat.
  revert j. induction labels as [|l labels IH]; intros j n Hnd Hj; [done|].
  apply NoDup_cons in Hnd as [Hl Hnd]. cbn [positions_from].
  destruct j as [|j]; cbn in Hj.
  - injection Hj as ->. rewrite decide_True by done.
    rewrite positions_from_absent by done. by rewrite Nat.add_0_r.
  - rewrite decide_False.
    + rewrite (IH j (S n) Hnd Hj). f_equal. lia.
    + intros ->. apply Hl. by eapply list_elem_of_lookup_2.
Qed.

Lemma write_header_frame (cols : list value) :
  ∀ (c0 : positive) (ws : worksheet) (r' c' : positive),
    (r' ≠ 1%positive ∨ (c' < c0)%positive
     ∨ (Pos.to_nat c0 + length cols ≤ Pos.to_nat c')%nat) →
    write_header c0 cols ws !! (r', c') = ws !! (r', c').
Proof.
  induction cols as [|col cols IH]; intros c0 ws r' c' Hout; [done|].
  cbn [write_header]. cbn [length] in Hout. rewrite IH by lia.
  apply ws_cell_other. intros [= -> ->]. lia.
Qed.

Lemma write_header_value (cols : list value) :
  ∀ (c0 : positive) (ws : worksheet) (j : nat) (label : value) (c' : positive),
    cols !! j = Some label →
    Pos.to_nat c' = (Pos.to_nat c0 + j)%nat →
    cell_value (write_header c0 cols ws) 1 c'
    = put_value label (cell_value ws 1 c').
Proof.
  induction cols as [|col cols IH]; intros c0 ws j label c' Hj Hc; [done|].
  cbn [write_header]. destruct j as [|j]; cbn in Hj.
  - injection Hj as ->. assert (c' = c0) as -> by lia.
    unfold cell_value at 1. rewrite write_header_frame by lia.
    apply cell_value_ws_cell.
  - rewrite (IH (Pos.succ c0) _ j label c' Hj) by lia.
    unfold cell_value. rewrite ws_cell_other; [done|]. intros [= ->]. lia.
Qed.

Lemma write_row_value (labels row : list value) (r : positive) :
  NoDup labels →
  ∀ (cols pre : list value) (c0 : positive) (ws : worksheet),
    labels = pre ++ cols →
    Pos.to_nat c0 = S (length pre) →
    ∃ ws', write_row labels r c0 cols row ws = (ws', Ok tt)
      ∧ (∀ k col c', cols !! k = Some col →
           Pos.to_nat c' = (Pos.to_nat c0 + k)%nat →
           cell_value ws' r c'
           = put_value (cell_at (length pre + k) row) (cell_value ws r c'))
      ∧ ∀ r' c', (r' ≠ r ∨ (c' < c0)%positive
                  ∨ (Pos.to_nat c0 + length cols ≤ Pos.to_nat c')%nat) →
                 ws' !! (r', c') = ws !! (r', c').
Proof.
  intros Hnd. induction cols as [|col cols IH]; intros pre c0 ws Hlabels Hc0.
  - exists ws. split; [done|]. split; [|done]. intros k col c' Hk. done.
  - assert (positions col labels = [length pre]) as Hpos.
    { apply positions_at; [done|]. subst labels.
      by rewrite lookup_app_r, Nat.sub_diag by lia. }
    cbn [write_row]. unfold bind at 1, lift at 1, row_getitem. rewrite Hpos.
    unfold bind at 1, modify at 1.
    destruct (IH (pre ++ [col]) (Pos.succ c0) (ws_cell r c0 (cell_at (length pre) row) ws))
      as (ws' & Hrun & Hval & Hframe).
    { by rewrite <- app_assoc. }
    { rewrite length_app. cbn [length]. lia. }
    exists ws'. split; [exact Hrun|]. split.
    + intros k col' c' Hk Hc'. destruct k as [|k]; cbn in Hk.
      * assert (c' = c0) as -> by lia. unfold cell_value at 1.
        rewrite Hframe by lia. rewrite Nat.add_0_r. apply cell_value_ws_cell.
      * rewrite (Hval k col' c' Hk) by lia. rewrite length_app. cbn [length].
        replace (length pre + 1 + k)%nat with (length pre + S k)%nat by lia.
        unfold cell_value. rewrite ws_cell_other; [done|]. intros [= ->]. lia.
    + intros r' c' Hout. cbn [length] in Hout. rewrite Hframe by lia.
      apply ws_cell_other. intros [= -> ->]. lia.
Qed.

Lemma write_rows_value (labels : list value) :
  NoDup labels →
  ∀ (rs : list (list value)) (r0 : positive) (ws : worksheet),
    ∃ ws', write_rows labels r0 rs ws = (ws', Ok tt)
      ∧ (∀ i row j label r' c', rs !! i = Some row → labels !! j = Some label →
           Pos.to_nat r' = (Pos.to_nat r0 + i)%nat → Pos.to_nat c' = S j →
           cell_value ws' r' c' = put_value (cell_at j row) (cell_value ws r' c'))
      ∧ ∀ r' c', ((r' < r0)%positive
                  ∨ (Pos.to_nat r0 + length rs ≤ Pos.to_nat r')%nat
                  ∨ (length labels < Pos.to_nat c')%nat) →
                 ws' !! (r', c') = ws !! (r', c').
Proof.
  intros Hnd. induction rs as [|row rs IH]; intros r0 ws.
  - exists ws. split; [done|]. split; [|done]. intros i row j label r' c' Hi. done.
  - destruct (write_row_value labels row r0 Hnd labels [] 1%positive ws)
      as (ws1 & Hrow & Hval1 & Hframe1); [done | done |].
    destruct (IH (Pos.succ r0) ws1) as (ws' & Hrows & Hval & Hframe).
    exists ws'. split; [|split].
    + cbn [write_rows]. unfold bind. by rewrite Hrow.
    + intros i row' j label r' c' Hi Hj Hr' Hc'. destruct i as [|i]; cbn in Hi.
      * injection Hi as ->. assert (r' = r0) as -> by lia.
        unfold cell_value at 1. rewrite Hframe by lia.
        apply (Hval1 j label c' Hj). lia.
      * rewrite (Hval i row' j label r' c' Hi Hj) by lia.
        unfold cell_value. rewrite Hframe1; [done|]. left. intros ->. lia.
    + intros r' c' Hout. cbn [length] in Hout. rewrite Hframe by lia.
      apply Hframe1. destruct (decide (r' = r0)) as [->|Hne]; [|by left].
      right. right. cbn [length]. lia.
Qed.

Lemma fill_sheet_cells (df : DataFrame) (ws : worksheet) :
  NoDup (columns df) →
  ¬ (VStr "index" ∈ columns df ∧ VStr "level_0" ∈ columns df) →
  ∃ ws', fill_sheet df ws = (ws', Ok tt)
    ∧ (∀ j label, columns df !! j = Some label →
         cell_value ws' 1 (Pos.of_succ_nat j)
         = put_value label (cell_value ws 1 (Pos.of_succ_nat j)))
    ∧ (∀ i j row label, rows df !! i = Some row → columns df !! j = Some label →
         cell_value ws' (Pos.of_succ_nat (S i)) (Pos.of_succ_nat j)
         = put_value (cell_at j row)
             (cell_value ws (Pos.of_succ_nat (S i)) (Pos.of_succ_nat j)))
    ∧ ∀ r c, ((1 + length (rows df) < Pos.to_nat r)%nat
              ∨ (length (columns df) < Pos.to_nat c)%nat) →
             ws' !! (r, c) = ws !! (r, c).
Proof.
  intros Hnd Hnames. unfold fill_sheet, bind, modify, lift.
  assert (∃ name, reset_index_name df = Ok name) as [name ->].
  { unfold reset_index_name. repeat case_bool_decide; eauto. tauto. }
  destruct (write_rows_value (columns df) Hnd (rows df) 2%positive
              (write_header 1 (columns df) ws)) as (ws' & Hrun & Hval & Hframe).
  exists ws'. split; [exact Hrun|]. split; [|split].
  - intros j label Hj. unfold cell_value at 1. rewrite Hframe by lia.
    apply (write_header_value (columns df) 1%positive ws j label); [done | lia].
  - intros i j row label Hi Hj.
    rewrite (Hval i row j label _ _ Hi Hj) by lia.
    unfold cell_value. rewrite write_header_frame; [done | lia].
  - intros r c Hout. rewrite Hframe by lia. apply write_header_frame. lia.
Qed.

(** ** The file of one merchant *)

Lemma on_sheets_result (m : string → M worksheet unit) (names : list string) :
  NoDup names →
  ∀ sp sp' : Splitter,
    for_each names (λ n, on_sheet n (m n)) sp = (sp', Ok tt) →
    ∀ name old, name ∈ names → template_file sp !! name = Some old →
                template_file sp' !! name = Some (m name old).1.
Proof.
  induction 1 as [|n names Hn Hnd IH]; intros sp sp' Hrun name old Hin Hold;
    [by apply elem_of_nil in Hin|].
  cbn [for_each] in Hrun. unfold bind, on_sheet at 1 in Hrun.
  destruct (template_file sp !! n) as [ws0|] eqn:Hws0; [|done].
  destruct (m n ws0) as [ws1 [[]|e]] eqn:Hm; [|done].
  set (sp1 := set_template_file _ sp) in Hrun.
  apply elem_of_cons in Hin as [->|Hin].
  - assert (ws0 = old) as -> by congruence.
    pose proof (for_each_on_sheet_other names n m sp1 Hn) as Hother.
    rewrite Hrun in Hother. cbn [fst] in Hother. rewrite Hother, Hm.
    subst sp1. cbn. by rewrite lookup_insert_eq.
  - apply (IH sp1 sp' Hrun name old Hin). subst sp1. cbn.
    rewrite lookup_insert_ne; [done|]. by intros ->.
Qed.

Lemma split_self_template (merchant_id : Z) (sp sp' : Splitter) (path : string) :
  NoDup (input_sheet_names sp) →
  split_self merchant_id sp = (sp', Ok path) →
  ∃ mdfs,
    filter_sheets (dfs sp) (id_column sp) merchant_id (input_sheet_names sp) ∅ = Ok mdfs
    ∧ ∀ name old, name ∈ input_sheet_names sp →
        template_file sp !! name = Some old →
        ∃ df', mdfs !! name = Some df'
          ∧ template_file sp' !! name
            = Some (saved_ws (fill_sheet df' (clean_window 50 50 old)).1).
Proof.
  intros Hnd. unfold split_self, bind, get, lift, modify, ret.
  destruct (filter_sheets _ _ _ _ _) as [mdfs|e] eqn:Hfilter; [|done].
  pose proof (clean_spreadsheet_only_template sp) as H1.
  unfold clean_spreadsheet, bind in H1 |- *.
  destruct (for_each _ _ sp) as [sp1 [[]|e]] eqn:Hclean; [|done]. cbn [fst] in H1.
  assert (input_sheet_names sp1 = input_sheet_names sp) as Hn1 by (by rewrite H1).
  unfold fill_cols, bind. rewrite Hn1.
  destruct (for_each _ _ sp1) as [sp2 [[]|e]] eqn:Hfill; [|done].
  pose proof (plan_path_state mdfs sp2) as H3.
  destruct (plan_path mdfs sp2) as [sp3 [p|e]]; [|done]. cbn [fst] in H3. subst sp3.
  intros [= <- <-]. exists mdfs. split; [done|].
  intros name old Hin Hold.
  pose proof (on_sheets_result (λ _, modify (clean_window 50 50)) _ Hnd sp sp1 Hclean
                name old Hin Hold) as Hc.
  pose proof (on_sheets_result
                (λ n, current_df <~ lift (dict_getitem mdfs n); fill_sheet current_df)
                _ Hnd sp1 sp2 Hfill name _ Hin Hc) as Hf.
  destruct (proj1 (filter_sheets_acc _ _ _ _ _ _ Hfilter) name) as [_ [df' Hdf']];
    [by left|].
  exists df'. split; [done|]. cbn [template_file set_files set_template_file].
  rewrite saved_lookup, Hf.
  unfold bind, lift, dict_getitem, modify. by rewrite Hdf'.
Qed.

(** X7.  What [fill_cols] writes, for tracked sheets that are pairwise
    distinct and present in the template, and tables with distinct labels:
    it returns, and in each tracked sheet row 1 has received the labels and
    row [i + 2] the [i]-th data row, column [j + 1] holding the [j]-th
    column; a [None] value is not written and leaves the cell as it was; no
    cell below the data or to the right of the last column is touched. *)
Theorem fill_cols_writes (sp : Splitter) (merchant_dfs : gmap string DataFrame) :
  NoDup (input_sheet_names sp) →
  (∀ name, name ∈ input_sheet_names sp →
     is_Some (template_file sp !! name)
     ∧ ∃ df, merchant_dfs !! name = Some df
             ∧ NoDup (columns df)
             ∧ ¬ (VStr "index" ∈ columns df ∧ VStr "level_0" ∈ columns df)) →
  ∃ sp', fill_cols merchant_dfs sp = (sp', Ok tt)
    ∧ ∀ name df old,
        name ∈ input_sheet_names sp →
        merchant_dfs !! name = Some df →
        template_file sp !! name = Some old →
        ∃ ws', template_file sp' !! name = Some ws'
          ∧ (∀ j label, columns df !! j = Some label →
               cell_value ws' 1 (Pos.of_succ_nat j)
               = put_value label (cell_value old 1 (Pos.of_succ_nat j)))
          ∧ (∀ i j row label, rows df !! i = Some row → columns df !! j = Some label →
               cell_value ws' (Pos.of_succ_nat (S i)) (Pos.of_succ_nat j)
               = put_value (cell_at j row)
                   (cell_value old (Pos.of_succ_nat (S i)) (Pos.of_succ_nat j)))
          ∧ ∀ r c, ((1 + length (rows df) < Pos.to_nat r)%nat
                    ∨ (length (columns df) < Pos.to_nat c)%nat) →
                   ws' !! (r, c) = old !! (r, c).
Proof.
  intros Hnd Hall.
  destruct (on_sheets_ok (input_sheet_names sp)
              (λ n, current_df <~ lift (dict_getitem merchant_dfs n); fill_sheet current_df))
    with (sp := sp) as (sp' & Hrun & _).
  { intros name ws Hn. destruct (Hall name Hn) as (_ & df & Hdf & Hcols & Hreset).
    unfold bind, lift, dict_getitem. rewrite Hdf.
    destruct (fill_sheet_cells df ws Hcols Hreset) as (ws' & -> & _). eauto. }
  { intros name Hn. by destruct (Hall name Hn). }
  exists sp'. split; [exact Hrun|].
  intros name df old Hn Hdf Hold.
  pose proof (on_sheets_result _ _ Hnd sp sp' Hrun name old Hn Hold) as Hws'.
  cbn beta in Hws'. unfold bind at 1, lift at 1, dict_getitem in Hws'. rewrite Hdf in Hws'.
  destruct (Hall name Hn) as (_ & df0 & Hdf0 & Hcols & Hreset).
  assert (df0 = df) as -> by congruence.
  destruct (fill_sheet_cells df old Hcols Hreset) as (ws' & Hfill & Hcells).
  rewrite Hfill in Hws'. by exists ws'.
Qed.

Lemma put_value_not_None (v old : value) : v ≠ VNone → put_value v old = v.
Proof. by destruct v. Qed.

Lemma split_self_exports (sp sp' : Splitter) (m : Z) (path : string) :
  NoDup (input_sheet_names sp) →
  (∀ name, name ∈ input_sheet_names sp → sheet_ready sp name) →
  split_self m sp = (sp', Ok path) →
  ∀ name df i old,
    name ∈ input_sheet_names sp →
    dfs sp !! name = Some df →
    positions (VStr (id_column sp)) (columns df) = [i] →
    template_file sp !! name = Some old →
    ∃ ws', template_file sp' !! name = Some ws'
      ∧ (∀ j label, columns df !! j = Some label → label ≠ VNone →
           cell_value ws' 1 (Pos.of_succ_nat j) = saved_value label)
      ∧ (∀ k j row label,
           rows_of df i m !! k = Some row →
           columns df !! j = Some label → cell_at j row ≠ VNone →
           cell_value ws' (Pos.of_succ_nat (S k)) (Pos.of_succ_nat j)
           = saved_value (cell_at j row))
      ∧ (∀ r c,
           (1 + length (rows_of df i m) < Pos.to_nat r
            ∨ length (columns df) < Pos.to_nat c)%nat →
           cell_value ws' r c
           = if bool_decide ((r ≤ 50)%positive ∧ (c ≤ 50)%positive)
             then VNone else saved_value (cell_value old r c)).
Proof.
  intros Hnd Hready Hself name df i old Hn Hdf Hi Hold.
  destruct (split_self_template m sp sp' _ Hnd Hself) as (mdfs & Hfilter & Htpl).
  destruct (Htpl name old Hn Hold) as (df' & Hdf' & Hws').
  destruct (proj2 (filter_sheets_acc _ _ _ _ _ _ Hfilter) name df' Hdf')
    as [Hacc|(df0 & Hdf0 & Hf)]; [by rewrite lookup_empty in Hacc|].
  destruct (filter_eq_rows_by_id df0 df' _ m Hf) as (i0 & Hi0 & Hcols & Hrows).
  assert (df0 = df) as -> by congruence. assert (i0 = i) as -> by congruence.
  destruct (Hready name Hn) as (df1 & Hdf1 & Hnodup & _ & Hreset & _).
  assert (df1 = df) as -> by congruence.
  destruct (fill_sheet_cells df' (clean_window 50 50 old))
    as (ws' & Hfill & Hhead & Hdata & Hrest).
  { by rewrite Hcols. }
  { by rewrite Hcols. }
  rewrite Hfill in Hws'. cbn [fst] in Hws'.
  exists (saved_ws ws'). split; [exact Hws'|].
  unfold rows_of. rewrite Hcols, Hrows in *. split; [|split].
  - intros j label Hj Hlabel. rewrite cell_value_saved, (Hhead j label Hj).
    by rewrite put_value_not_None.
  - intros k j row label Hk Hj Hv. rewrite cell_value_saved, (Hdata k j row label Hk Hj).
    by rewrite put_value_not_None.
  - intros r c Hout. rewrite cell_value_saved. unfold cell_value at 1.
    rewrite (Hrest r c Hout).
    change (default VNone (clean_window 50 50 old !! (r, c)))
      with (cell_value (clean_window 50 50 old) r c).
    rewrite clean_window_value. by case_bool_decide.
Qed.


(** ** The files of all the merchants *)

Lemma same_config_exported (sp sp' : Splitter) (m : Z) (wb : workbook) :
  same_config sp sp' → exported sp' m wb → exported sp m wb.
Proof. intros ->. by destruct sp. Qed.

Lemma split_self_exported (sp sp' : Splitter) (m : Z) (path : string) :
  NoDup (input_sheet_names sp) →
  (∀ name, name ∈ input_sheet_names sp → sheet_ready sp name) →
  split_self m sp = (sp', Ok path) →
  exported sp m (template_file sp').
Proof.
  intros Hnd Hready Hself name df i Hn Hdf Hi.
  destruct (Hready name Hn) as (_ & _ & _ & _ & _ & old & Hold).
  destruct (split_self_exports sp sp' m path Hnd Hready Hself name df i old Hn Hdf Hi Hold)
    as (ws & Hws & Hhead & Hdata & Hrest).
  exists ws. split; [done|]. split; [done|]. split; [done|].
  intros r c Hr Hc Hout. rewrite (Hrest r c Hout).
  by rewrite bool_decide_eq_true_2.
Qed.

Lemma split_loop_exports (ms : list Z) :
  ∀ (seller_names : list string) (sp : Splitter) (sheet : string),
    NoDup (input_sheet_names sp) →
    (∀ name, name ∈ input_sheet_names sp → sheet_ready sp name) →
    filename_location sp !! "sheet" = Some sheet →
    sheet ∈ input_sheet_names sp →
    output_folder sp ≠ "" →
    Forall2 (λ m s, seller_name_of sp m = Some s) ms seller_names →
    ∃ sp' saves,
      (∀ w, for_each ms split_one (sp, w)
            = ((sp', apply_saves (output_folder sp) saves w), Ok tt))
      ∧ saves.*1
        = map (λ s, save_path_of (output_folder sp) (spec_sanitize s)) seller_names
      ∧ files sp' = files sp ++ saves.*1
      ∧ Forall2 (λ m s, exported sp m s.2) ms saves.
Proof.
  induction ms as [|m ms IH];
    intros seller_names sp sheet Hnd Hready Hsheet Hin Hfolder Hnames.
  - apply Forall2_nil_inv_l in Hnames as ->. exists sp, []. cbn. rewrite app_nil_r.
    by repeat split.
  - apply Forall2_cons_inv_l in Hnames as (s & names & Hname & Hnames & ->).
    destruct (split_self_ok sp sheet m s Hready Hsheet Hin Hfolder Hname)
      as (sp1 & Hself & Hready1).
    pose proof (split_self_exported sp sp1 m _ Hnd Hready Hself) as Hexp.
    destruct (split_self_spec m sp) as [_ Hok].
    destruct (Hok sp1 _ Hself) as (Hcfg & Hfiles & _).
    destruct (same_config_fields sp sp1 Hcfg) as (Hn & Hfold & Hloc & Hsame).
    set (path1 := save_path_of (output_folder sp) (spec_sanitize s)) in *.
    destruct (IH names sp1 sheet) as (sp' & saves & Hrun & Hpaths & Hfiles' & Hexps).
    { by rewrite Hn. }
    { by rewrite Hn. }
    { by rewrite Hloc. }
    { by rewrite Hn. }
    { by rewrite Hfold. }
    { eapply Forall2_impl; [exact Hnames|]. intros m' s' Hm'. by rewrite Hsame. }
    exists sp', ((path1, template_file sp1) :: saves). split; [|split; [|split]].
    + intros w. cbn [for_each]. unfold bind. rewrite split_one_world, Hself.
      rewrite Hrun, Hfold. reflexivity.
    + cbn [fmap list_fmap fst map]. rewrite Hpaths, Hfold. reflexivity.
    + rewrite Hfiles', Hfiles. cbn [fmap list_fmap fst]. by rewrite <- app_assoc.
    + constructor; [exact Hexp|]. eapply Forall2_impl; [exact Hexps|].
      intros m' s' Hm'. by eapply same_config_exported.
Qed.

Lemma writes_lookup_NoDup (saves : list (string * workbook))
    (d : gmap string workbook) (p : string) (wb : workbook) :
  NoDup saves.*1 → (p, wb) ∈ saves → writes saves d !! p = Some wb.
Proof.
  unfold writes. revert d. induction saves as [|[q wb'] saves IH]; intros d Hnd Hin;
    [by apply elem_of_nil in Hin|].
  cbn [fmap list_fmap fst] in Hnd. apply NoDup_cons in Hnd as [Hq Hnd].
  cbn [foldl fst snd]. apply elem_of_cons in Hin as [[= -> ->]|Hin].
  - fold (writes saves (<[q:=wb']> d)). rewrite writes_lookup_other by done.
    apply lookup_insert_eq.
  - by apply IH.
Qed.

Lemma append_inj_r (s a b : string) : s +:+ a = s +:+ b → a = b.
Proof. induction s as [|c s IH]; [done|]. cbn. intros [= H]. by apply IH. Qed.

Lemma length_append (a b : string) :
  String.length (a +:+ b) = (String.length a + String.length b)%nat.
Proof.
  induction a as [|c a IH]; [done|].
  change (S (String.length (a +:+ b)) = S (String.length a + String.length b)).
  by rewrite IH.
Qed.

Lemma append_inj_l (a b t : string) : a +:+ t = b +:+ t → a = b.
Proof.
  intros Heq.
  assert (String.length a = String.length b) as Hlen.
  { apply (f_equal String.length) in Heq. rewrite !length_append in Heq. lia. }
  revert b Heq Hlen. induction a as [|c a IH]; intros [|c' b] Heq Hlen; try done.
  cbn in Heq, Hlen. injection Heq as -> Heq. f_equal. apply IH; [done|lia].
Qed.

Lemma save_path_of_inj (folder a b : string) :
  save_path_of folder a = save_path_of folder b → a = b.
Proof.
  unfold save_path_of. intros Heq.
  apply append_inj_r, append_inj_r in Heq. by apply append_inj_l in Heq.
Qed.

(** ** From a completed iteration back to the seller name *)

Lemma head_kept_row (m : Z) (i j : nat) (rws : list (list value)) (x : value) :
  head (map (cell_at j)
          (mask_rows (map (value_eq_int m) (map (cell_at i) rws)) rws)) = Some x →
  ∃ k v, list_find (λ v, value_eq_int m v = true) (map (cell_at i) rws) = Some (k, v)
         ∧ map (cell_at j) rws !! k = Some x.
Proof.
  induction rws as [|r rws IH]; [done|].
  cbn [map mask_rows list_find].
  destruct (value_eq_int m (cell_at i r)) eqn:Hr.
  - rewrite decide_True by done. cbn. intros [= <-]. by exists 0%nat, (cell_at i r).
  - rewrite decide_False by done. intros Hhead.
    destruct (IH Hhead) as (k & v & Hfind & Hk).
    exists (S k), v. by rewrite Hfind.
Qed.

Lemma split_self_path_inv (m : Z) (sp sp' : Splitter) (path : string) :
  split_self m sp = (sp', Ok path) →
  ∃ s, seller_name_of sp m = Some s
       ∧ path = save_path_of (output_folder sp) (spec_sanitize s).
Proof.
  unfold split_self, bind, get, lift, modify, ret.
  destruct (filter_sheets _ _ _ _ _) as [mdfs|e] eqn:Hfilter; [|done].
  pose proof (clean_spreadsheet_only_template sp) as H1.
  destruct (clean_spreadsheet sp) as [sp1 [[]|e]]; cbn [fst] in H1; [|done].
  pose proof (fill_cols_only_template mdfs sp1) as H2.
  pose proof (only_template_trans _ _ _ H1 H2) as H12.
  destruct (fill_cols mdfs sp1) as [sp2 [[]|e]]; cbn [fst] in H2, H12; [|done].
  assert (filename_location sp2 = filename_location sp
          ∧ output_folder sp2 = output_folder sp) as [Hloc Hfold].
  { rewrite H12. done. }
  unfold plan_path, bind, get, lift, ret, raise, dict_getitem. rewrite Hloc, Hfold.
  destruct (filename_location sp !! "sheet") as [sheet|] eqn:Hsheet; [|done].
  destruct (mdfs !! sheet) as [fdf|] eqn:Hfdf; [|done].
  destruct (filename_location sp !! "col") as [col|] eqn:Hcol; [|done].
  destruct (getitem fdf col) as [names|] eqn:Hnames; [|done].
  destruct (clean_first_name names) as [name|] eqn:Hname; [|done].
  case_bool_decide; [done|]. intros [= _ <-].
  destruct names as [[|[| | |seller] rest]|key n [|row cells]]; try done.
  injection Hname as <-. exists seller. split; [|by rewrite re_sub_after_replace].
  destruct (proj2 (filter_sheets_acc _ _ _ _ _ _ Hfilter) sheet fdf Hfdf)
    as [Hacc|(df & Hdf & Hf)]; [by rewrite lookup_empty in Hacc|].
  unfold filter_eq in Hf.
  destruct (getitem df (id_column sp)) as [[vs|]|] eqn:Hids; [|done..].
  injection Hf as <-.
  pose proof Hids as Hids'. apply getitem_Series_inv in Hids' as (i & Hi & ->).
  apply getitem_Series_inv in Hnames as (j & Hj & Hrows). cbn [columns rows] in Hj, Hrows.
  destruct (head_kept_row m i j (rows df) (VStr seller)) as (k & v & Hfind & Hk).
  { by rewrite <- Hrows. }
  unfold seller_name_of. rewrite Hsheet. cbn. rewrite Hcol. cbn. rewrite Hdf. cbn.
  rewrite Hids. unfold getitem at 1. rewrite Hj, Hfind. cbn. by rewrite Hk.
Qed.

Lemma split_loop_paths (ms : list Z) :
  ∀ (sp sp' : Splitter) (w w' : World),
    for_each ms split_one (sp, w) = ((sp', w'), Ok tt) →
    ∃ new, files sp' = files sp ++ new
      ∧ Forall2 (λ m path, ∃ s, seller_name_of sp m = Some s
                                ∧ path = save_path_of (output_folder sp) (spec_sanitize s))
          ms new.
Proof.
  induction ms as [|m ms IH]; intros sp sp' w w' Hrun.
  - injection Hrun as <- _. exists []. by rewrite app_nil_r.
  - cbn [for_each] in Hrun. unfold bind in Hrun. rewrite split_one_world in Hrun.
    destruct (split_self_spec m sp) as [_ Hok].
    destruct (split_self m sp) as [sp1 [path|e]] eqn:Hself; [|done].
    destruct (split_self_path_inv m sp sp1 path Hself) as (s & Hs & Hpath).
    destruct (Hok sp1 path eq_refl) as (Hcfg & Hfiles & _).
    destruct (same_config_fields sp sp1 Hcfg) as (_ & Hfold & _ & Hsame).
    destruct (IH _ _ _ _ Hrun) as (new & Hnew & Hall).
    exists (path :: new). split.
    + rewrite Hnew, Hfiles. by rewrite <- app_assoc.
    + constructor; [by exists s|]. eapply Forall2_impl; [exact Hall|].
      intros m' p' (s' & Hs' & Hp'). exists s'. by rewrite <- Hsame, <- Hfold.
Qed.

Section Properties.

Context `{Platform}.

Lemma split_sellers_trace (s : State) :
  trace (split_sellers s).1.2 = trace s.2.
Proof.
  unfold split_sellers, bind, on_self, zoom, get, lift. simpl.
  destruct (getitem _ _) as [ids|e]; [|done].
  destruct (map_result _ _) as [ms|e]; [|done]. destruct s as [sp w]. simpl.
  symmetry.
  refine (for_each_preserves (λ s1 s2 : State, trace s1.2 = trace s2.2)
            ms split_one _ _ _ (sp, w)); [done | congruence | ].
  intros m s _. symmetry. apply split_one_trace.
Qed.

Lemma main_export_trace (w : World) :
  trace (main_export w).1 = trace w.
Proof.
  unfold main_export, SpreadsheetSplitter, import_data, bind, load_workbook,
    lift, ret, call.
  destruct (disk w !! FILE_TEMPLATE); [|done].
  destruct (disk w !! FILE_DATA); [|done].
  destruct (get_contacts _) as [c|e]; [|done].
  match goal with |- context [split_sellers ?s] =>
    pose proof (split_sellers_trace s) as Ht; destruct (split_sellers s) as [[sp' w'] [[]|e]]
  end; exact Ht.
Qed.

(** ** One file per contact *)

Lemma output_paths_NoDup (folder : string) (seller_names : list string) :
  NoDup (map spec_sanitize seller_names) →
  NoDup (map (λ s, save_path_of folder (spec_sanitize s)) seller_names).
Proof.
  induction seller_names as [|s names IH]; cbn [map]; [constructor|].
  rewrite !NoDup_cons. intros [Hs Hnd]. split; [|by apply IH].
  intros Hin. apply Hs. apply list_elem_of_fmap in Hin as (s' & Heq & Hs').
  apply save_path_of_inj in Heq. rewrite Heq. apply list_elem_of_fmap. eauto.
Qed.


(** ** Running the export twice *)

Lemma split_sellers_world (sp : Splitter) :
  ∃ sp' r saves,
    (∀ w, split_sellers (sp, w)
          = ((sp', apply_saves (output_folder sp) saves w), r))
    ∧ same_config sp sp'
    ∧ files sp' = files sp ++ saves.*1
    ∧ Forall (λ s, ∃ name, s.1 = save_path_of (output_folder sp) name) saves.
Proof.
  unfold split_sellers, bind, on_self, zoom, get, lift. cbn [fst snd].
  destruct (getitem (contacts sp) (id_column sp)) as [ids|e].
  - destruct (map_result py_int (sel_iter ids)) as [ms|e].
    + destruct (split_loop_world ms sp) as (sp' & r & saves & Hrun & Hcfg & Hfiles & Hforms & _).
      exists sp', r, saves. split; [|done]. intros w. by rewrite <- Hrun.
    + exists sp, (Raise e), []. simpl. rewrite app_nil_r.
      split; [done|]. split; [apply same_config_refl|]. split; [done|constructor].
  - exists sp, (Raise e), []. simpl. rewrite app_nil_r.
    split; [done|]. split; [apply same_config_refl|]. split; [done|constructor].
Qed.

Lemma output_path_fresh (name : string) :
  save_path_of OUTPUT_FOLDER name ≠ FILE_TEMPLATE
  ∧ save_path_of OUTPUT_FOLDER name ≠ FILE_DATA.
Proof. split; discriminate. Qed.

(** The files of a completed export: one per merchant of the contacts
    table, in order, at the path made from the merchant's seller name. *)
Lemma main_export_files (w w1 : World) (sp1 : Splitter) :
  main_export w = (w1, Ok sp1) →
  ∃ ids ms,
    getitem (contacts sp1) COLUMN_ID = Ok ids
    ∧ map_result py_int (sel_iter ids) = Ok ms
    ∧ Forall2 (λ m path, ∃ s, seller_name_of sp1 m = Some s
                              ∧ path = save_path_of OUTPUT_FOLDER (spec_sanitize s)
                              ∧ is_Some (disk w1 !! path))
        ms (files sp1).
Proof.
  unfold main_export, SpreadsheetSplitter, import_data, bind, load_workbook,
    lift, ret, call.
  destruct (disk w !! FILE_TEMPLATE) as [wb|]; [|done].
  destruct (disk w !! FILE_DATA) as [data|]; [|done].
  destruct (get_contacts (read_excel data)) as [c|e]; [|done].
  match goal with |- context [split_sellers (?s, w)] => set (sp0 := s) end.
  destruct (split_sellers (sp0, w)) as [[sp' w'] [[]|e]] eqn:Hrun; [|done].
  cbn [fst snd]. intros [= <- <-].
  destruct (split_sellers_world sp0) as (sp2 & r & saves & Hw & Hcfg & Hfiles & _).
  assert (sp2 = sp' ∧ apply_saves (output_folder sp0) saves w = w') as [-> <-].
  { specialize (Hw w). rewrite Hrun in Hw. by injection Hw as -> -> _. }
  revert Hrun. unfold split_sellers, bind, on_self, zoom, get, lift. cbn [fst snd].
  destruct (getitem (contacts sp0) (id_column sp0)) as [ids|] eqn:Hids; [|done].
  destruct (map_result py_int (sel_iter ids)) as [ms|] eqn:Hms; [|done].
  intros Hloop. destruct (split_loop_paths ms _ _ _ _ Hloop) as (new & Hnew & Hall).
  destruct (same_config_fields sp0 sp' Hcfg) as (_ & _ & _ & Hsame).
  exists ids, ms. split; [by rewrite Hcfg|]. split; [done|].
  assert (files sp' = new ∧ new = saves.*1) as [Hf1 Hf2].
  { rewrite Hnew in Hfiles |- *. cbn in Hfiles |- *. done. }
  rewrite Hf1. apply Forall2_same_length_lookup. split; [by eapply Forall2_length|].
  intros i m path Hm Hp.
  destruct (Forall2_lookup_lr _ _ _ _ _ _ Hall Hm Hp) as (s & Hs & ->).
  exists s. rewrite Hsame. split; [done|]. split; [done|].
  rewrite apply_saves_disk. apply writes_lookup_written. rewrite <- Hf2.
  by eapply list_elem_of_lookup_2.
Qed.

(** C7.  When the export of [main] has completed, there is for every
    merchant of the contacts table, in order, one entry of [files]: the path
    made from the merchant's seller name, which names a file on disk.
    Running the export again on the disk it left -- the template file and
    the data file are as they were -- completes too, returns the same object
    with the same [files], and leaves the same disk: every merchant's file
    is written again at its path with the content it already had. *)
Theorem main_export_twice (w w1 : World) (sp1 : Splitter) :
  main_export w = (w1, Ok sp1) →
  (∃ ids ms,
     getitem (contacts sp1) COLUMN_ID = Ok ids
     ∧ map_result py_int (sel_iter ids) = Ok ms
     ∧ Forall2 (λ m path, ∃ s, seller_name_of sp1 m = Some s
                               ∧ path = save_path_of OUTPUT_FOLDER (spec_sanitize s)
                               ∧ is_Some (disk w1 !! path))
         ms (files sp1))
  ∧ main_export w1 = (w1, Ok sp1)
  ∧ disk w1 !! FILE_TEMPLATE = disk w !! FILE_TEMPLATE
  ∧ disk w1 !! FILE_DATA = disk w !! FILE_DATA.
Proof.
  intros Hexp. split; [exact (main_export_files w w1 sp1 Hexp)|]. revert Hexp.
  unfold main_export, SpreadsheetSplitter, import_data, bind, load_workbook,
    lift, ret, call.
  destruct (disk w !! FILE_TEMPLATE) as [wb|] eqn:Htpl; [|done].
  destruct (disk w !! FILE_DATA) as [data|] eqn:Hdata; [|done].
  destruct (get_contacts (read_excel data)) as [c|e] eqn:Hc; [|done].
  match goal with |- context [split_sellers (?s, w)] => set (sp0 := s) end.
  destruct (split_sellers_world sp0) as (sp' & r & saves & Hrun & _ & Hfiles & Hforms).
  rewrite !Hrun. destruct r as [[]|e]; [|done]. cbn [fst snd].
  intros [= <- <-].
  assert (∀ p, p = FILE_TEMPLATE ∨ p = FILE_DATA →
               disk (apply_saves (output_folder sp0) saves w) !! p = disk w !! p) as Hkeep.
  { intros p Hp. rewrite apply_saves_disk. apply writes_lookup_other.
    intros Hin. apply list_elem_of_fmap in Hin as (s & -> & Hs).
    rewrite Forall_forall in Hforms. destruct (Hforms s Hs) as [name Hname].
    destruct (output_path_fresh name) as [H1 H2].
    rewrite Hname in Hp. destruct Hp as [Hp|Hp]; [exact (H1 Hp) | exact (H2 Hp)]. }
  change (output_folder sp0) with OUTPUT_FOLDER in *.
  rewrite (Hkeep FILE_TEMPLATE (or_introl eq_refl)), Htpl.
  rewrite (Hkeep FILE_DATA (or_intror eq_refl)), Hdata.
  cbn beta iota. rewrite Hc.
  cbn beta iota. fold sp0. rewrite Hrun.
  cbn [fst snd]. rewrite apply_saves_idempotent by done.
  split; [done|]. split; done.
Qed.

(** ** The mail loop *)

(** C4.  When [files] and [emails] differ in length, [send_multiple_emails]
    raises AssertionError and leaves the world as it was: the mail client is
    not called and nothing is printed. *)
Theorem send_multiple_emails_length_mismatch (file_list : list string)
    (emails : selection) (subj text : value) (w : World) :
  length file_list ≠ sel_len emails →
  send_multiple_emails file_list emails subj text w = (w, Raise AssertionError).
Proof.
  intros Hlen. unfold send_multiple_emails.
  by rewrite bool_decide_eq_false_2.
Qed.

Lemma send_email_outcome (mail : Mailman) (w : World) :
  send_email mail w = (add_event (outcome_of (trace w) mail) w, Ok tt).
Proof. unfold send_email, outcome_of. by destruct (outlook _ _). Qed.

Lemma send_loop (tos : list value) (subj text : value) (fl : list string) :
  ∀ (n : nat) (w : World),
    (∀ i file, fl !! i = Some file → is_Some (tos !! (n + i)%nat)) →
    ∃ outcomes,
      for_each (enumerate_from n fl) (λ '(idx, file),
        to <~ lift (sel_item (Series tos) idx);
        send_email {| email_list := to; subject := subj; body := text;
                      attachment := abspath file |}) w
      = ({| disk := disk w; dirs := dirs w; trace := trace w ++ outcomes |}, Ok tt)
      ∧ length outcomes = length fl
      ∧ ∀ i file to, fl !! i = Some file → tos !! (n + i)%nat = Some to →
          outcomes !! i
          = Some (outcome_of (trace w ++ take i outcomes)
                    {| email_list := to; subject := subj; body := text;
                       attachment := abspath file |}).
Proof.
  induction fl as [|file fl IH]; intros n w Htos.
  - exists []. simpl. rewrite app_nil_r. split; [by destruct w|]. split; [done|].
    intros i ? ? Hi. by rewrite lookup_nil in Hi.
  - destruct (Htos 0%nat file eq_refl) as [to Hto]. rewrite Nat.add_0_r in Hto.
    cbn [enumerate_from for_each]. unfold bind at 1. unfold bind at 1.
    unfold lift at 1. cbn [sel_item]. rewrite Hto, send_email_outcome.
    set (o := outcome_of (trace w) _).
    destruct (IH (S n) (add_event o w)) as (outcomes & Hrun & Hlen & Hout).
    { intros i f Hi. rewrite Nat.add_succ_l, <- Nat.add_succ_r. exact (Htos (S i) f Hi). }
    exists (o :: outcomes). split; [|split].
    + etrans; [exact Hrun|]. simpl. by rewrite <- app_assoc.
    + simpl. by rewrite Hlen.
    + intros [|i] f t Hf Ht.
      * simpl in Hf. rewrite Nat.add_0_r in Ht. simplify_eq. simpl.
        by rewrite app_nil_r.
      * simpl in Hf. rewrite Nat.add_succ_r, <- Nat.add_succ_l in Ht.
        change ((o :: outcomes) !! S i) with (outcomes !! i).
        rewrite (Hout i f t Hf Ht). cbn [add_event trace take].
        by rewrite <- app_assoc.
Qed.

(** C6.  Whatever the mail client raises while one message is composed or
    sent, [send_email] returns normally, leaving one event behind (the mail
    sent, or the printed exception), and [send_multiple_emails] goes on with
    the next file: with as many recipients as files it returns normally and
    leaves exactly one outcome per file, in order -- the message sent, or
    the error line of the one attempt made for it. *)
Theorem send_multiple_emails_continues (file_list : list string)
    (tos : list value) (subj text : value) (w : World) :
  length file_list = length tos →
  (∀ mail w', ∃ o, send_email mail w' = (add_event o w', Ok tt))
  ∧ ∃ outcomes,
    send_multiple_emails file_list (Series tos) subj text w
    = ({| disk := disk w; dirs := dirs w; trace := trace w ++ outcomes |}, Ok tt)
    ∧ length outcomes = length file_list
    ∧ ∀ i file to, file_list !! i = Some file → tos !! i = Some to →
        outcomes !! i
        = Some (match outlook (trace w ++ take i outcomes)
                        {| email_list := to; subject := subj; body := text;
                           attachment := abspath file |} with
                | None => MailSent {| email_list := to; subject := subj;
                                      body := text; attachment := abspath file |}
                | Some e => Printed ("Error ocurred while sending email: " +:+ e)
                end).
Proof.
  intros Hlen. split; [intros mail w'; rewrite send_email_outcome; eauto|].
  unfold send_multiple_emails. cbn [sel_len].
  rewrite bool_decide_eq_true_2 by done.
  destruct (send_loop tos subj text file_list 0 w) as (outcomes & Hrun & Hl & Hout).
  { intros i f Hi. apply lookup_lt_is_Some. rewrite <- Hlen.
    by apply lookup_lt_Some in Hi. }
  exists outcomes. split; [exact Hrun|]. split; [exact Hl|].
  intros i f t Hf Ht. exact (Hout i f t Hf Ht).
Qed.

(** ** The confirmation gate *)

Lemma confirm_send_email_result (typed : string) (w : World) :
  (confirm_send_email typed w).2 = Ok (String.eqb typed CONFIRMATION_KEYWORD).
Proof. reflexivity. Qed.

(** C5.  [confirm_send_email] returns true exactly when the line typed is
    "send"; on any other line, "Send", "" and "yes" among them, [main]
    sends no mail. *)
Theorem confirm_send_email_exact (typed : string) (w : World) :
  ((confirm_send_email typed w).2 = Ok true ↔ typed = "send")
  ∧ (∃ b, (confirm_send_email typed w).2 = Ok b)
  ∧ (typed ≠ "send" → mails_sent (trace (main typed w).1) = mails_sent (trace w))
  ∧ (typed ∈ ["Send"; ""; "yes"] → (confirm_send_email typed w).2 = Ok false).
Proof.
  rewrite confirm_send_email_result. unfold CONFIRMATION_KEYWORD.
  split; [|split; [|split]].
  - destruct (String.eqb_spec typed "send"); split; congruence.
  - eauto.
  - intros Hne. unfold main, bind.
    pose proof (main_export_trace w) as Ht.
    destruct (main_export w) as [w1 [sp|e]]; cbn [fst] in *; [|by rewrite Ht].
    unfold confirm_send_email, bind, modify, ret. cbn [fst snd].
    unfold CONFIRMATION_KEYWORD.
    destruct (String.eqb_spec typed "send") as [|_]; [done|].
    cbn [fst add_event trace]. rewrite Ht.
    unfold mails_sent. rewrite <- app_assoc, omap_app. simpl. by rewrite app_nil_r.
  - intros Hin. repeat (apply elem_of_cons in Hin as [->|Hin]; [done|]).
    by apply elem_of_nil in Hin.
Qed.

(** ** The integer cast *)

Lemma py_int_raises (v : value) :
  is_ok (py_int v) = false → py_int v = Raise ValueError ∨ py_int v = Raise TypeError.
Proof.
  destruct v as [| |z|s]; simpl; [auto | auto | done | ].
  destruct (int_of_str s); simpl; [done|auto].
Qed.

Lemma map_py_int_raises (vs : list value) :
  Exists (λ v, is_ok (py_int v) = false) vs →
  map_result py_int vs = Raise ValueError ∨ map_result py_int vs = Raise TypeError.
Proof.
  induction vs as [|v vs IH]; intros Hex; [by apply Exists_nil in Hex|].
  simpl. destruct (py_int v) as [z|e] eqn:Hv.
  - apply Exists_cons in Hex as [Hex|Hex]; [by rewrite Hv in Hex|].
    destruct (IH Hex) as [-> | ->]; auto.
  - destruct (py_int_raises v) as [Hr|Hr]; [by rewrite Hv | |]; rewrite Hv in Hr;
      injection Hr as ->; auto.
Qed.

(** C9.  When a value of the contacts identifier column cannot be cast to
    an integer, [split_sellers] raises (ValueError or TypeError) while it
    builds the merchant list, before the loop: the object and the world are
    as they were, so no sheet was cleaned or filled, no file was saved and
    [files] is unchanged. *)
Theorem split_sellers_cast_first (sp : Splitter) (w : World) (ids : selection) :
  getitem (contacts sp) (id_column sp) = Ok ids →
  Exists (λ v, is_ok (py_int v) = false) (sel_iter ids) →
  ∃ e, split_sellers (sp, w) = ((sp, w), Raise e)
       ∧ (e = ValueError ∨ e = TypeError).
Proof.
  intros Hids Hbad. unfold split_sellers, bind, on_self, zoom, get, lift. simpl.
  rewrite Hids.
  destruct (map_py_int_raises _ Hbad) as [-> | ->]; eauto.
Qed.

End Properties.

(** * The statements on the small run *)

Section OnTheSmallRun.

#[local] Existing Instance Demo.platform.


(** The restriction to distinct file names is needed: the seller names
    "Acme Co.!" and "AcmeCo" give one path, [files] holds it twice, and the
    one file holds the rows of the merchant exported last. *)
Lemma demo_same_name_one_file :
  (split_sellers (Demo.splitter_same_name, Demo.world)).2 = Ok tt
  ∧ files (split_sellers (Demo.splitter_same_name, Demo.world)).1.1
    = ["output/relatorio-AcmeCo.xlsx"; "output/relatorio-AcmeCo.xlsx"]
  ∧ (λ wb, cell_value (wb !!! "GMS_AGG") 2 1)
      <$> disk (split_sellers (Demo.splitter_same_name, Demo.world)).1.2
          !! "output/relatorio-AcmeCo.xlsx"
    = Some (VInt 9).
Proof.
  split; [|split]; apply (bool_decide_unpack _); vm_compute; reflexivity.
Qed.

Lemma demo_sheets_ready (name : string) :
  name ∈ input_sheet_names Demo.splitter → sheet_ready Demo.splitter name.
Proof.
  intros Hin. unfold sheet_ready.
  apply elem_of_cons in Hin as [->|Hin];
    [|apply elem_of_cons in Hin as [->|Hin]; [|by apply elem_of_nil in Hin]].
  - exists Demo.gms_agg. split; [reflexivity|].
    split; [by apply (bool_decide_unpack _); vm_compute|].
    split; [by apply (bool_decide_unpack _); vm_compute|].
    split; [by apply (bool_decide_unpack _); vm_compute|].
    vm_compute. eauto.
  - exists Demo.gms_sku. split; [reflexivity|].
    split; [by apply (bool_decide_unpack _); vm_compute|].
    split; [by apply (bool_decide_unpack _); vm_compute|].
    split; [by apply (bool_decide_unpack _); vm_compute|].
    vm_compute. eauto.
Defined.

Lemma demo_tracked_sheets_distinct : NoDup (input_sheet_names Demo.splitter).
Proof. apply (bool_decide_unpack _); vm_compute; reflexivity. Defined.


Lemma get_save_path_sanitized_witness :
  (filename_location Demo.splitter !! "sheet" = Some "GMS_AGG"
   ∧ (<["GMS_AGG" := Demo.gms_agg]> ∅ : gmap string DataFrame) !! "GMS_AGG"
     = Some Demo.gms_agg
   ∧ filename_location Demo.splitter !! "col" = Some "seller_name"
   ∧ getitem Demo.gms_agg "seller_name"
     = Ok (Series [VStr "Acme Co.!"; VStr "Bolt"; VStr "Acme Co.!"]))
  ∧ get_save_path (<["GMS_AGG" := Demo.gms_agg]> ∅) (Demo.splitter, Demo.world)
    = ((Demo.splitter, (ensure_dir (output_folder Demo.splitter) Demo.world).1),
       Ok (output_folder Demo.splitter +:+ "/relatorio-"
           +:+ spec_sanitize "Acme Co.!" +:+ ".xlsx"))
    ∧ (output_folder Demo.splitter = "output" → "Acme Co.!" = "Acme Co.!" →
       (get_save_path (<["GMS_AGG" := Demo.gms_agg]> ∅) (Demo.splitter, Demo.world)).2
       = Ok "output/relatorio-AcmeCo.xlsx").
Proof.
  split; [by repeat split|].
  exact (get_save_path_sanitized Demo.splitter Demo.world
           (<["GMS_AGG" := Demo.gms_agg]> ∅) "GMS_AGG" "seller_name" Demo.gms_agg
           "Acme Co.!" [VStr "Bolt"; VStr "Acme Co.!"] eq_refl eq_refl eq_refl eq_refl).
Defined.

Lemma demo_template_has_tracked_sheets (name : string) :
  name ∈ input_sheet_names Demo.splitter →
  is_Some (template_file Demo.splitter !! name).
Proof.
  intros Hin.
  apply elem_of_cons in Hin as [->|Hin];
    [|apply elem_of_cons in Hin as [->|Hin]; [|by apply elem_of_nil in Hin]];
    vm_compute; eauto.
Defined.

Lemma clean_spreadsheet_window_witness :
  (∀ name, name ∈ input_sheet_names Demo.splitter →
           is_Some (template_file Demo.splitter !! name))
  ∧ ∃ sp', clean_spreadsheet Demo.splitter = (sp', Ok tt)
      ∧ ∀ name, name ∈ input_sheet_names Demo.splitter →
          ∃ ws ws', template_file Demo.splitter !! name = Some ws
            ∧ template_file sp' !! name = Some ws'
            ∧ ∀ r c, cell_value ws' r c
                     = if bool_decide ((r ≤ 50)%positive ∧ (c ≤ 50)%positive)
                       then VNone else cell_value ws r c.
Proof.
  split; [exact demo_template_has_tracked_sheets|].
  exact (clean_spreadsheet_window Demo.splitter demo_template_has_tracked_sheets).
Defined.

(** The cell (60, 1) of the template lies beyond the window: both output
    files of the small run still hold it, after two rounds of cleaning. *)
Lemma demo_stale_cell_in_every_output :
  Forall (λ path, (λ wb, cell_value (wb !!! "GMS_AGG") 60 1) <$> disk Demo.world_after !! path
                  = Some (VStr "stale"))
         (files Demo.splitter_after)
  ∧ files Demo.splitter_after
    = ["output/relatorio-AcmeCo.xlsx"; "output/relatorio-Bolt.xlsx"].
Proof. split; apply (bool_decide_unpack _); vm_compute; reflexivity. Qed.

Lemma send_multiple_emails_length_mismatch_witness :
  length ["output/relatorio-AcmeCo.xlsx"] ≠ sel_len (Series [])
  ∧ send_multiple_emails ["output/relatorio-AcmeCo.xlsx"] (Series [])
      (VStr "Report") (VStr "Hello") Demo.world
    = (Demo.world, Raise AssertionError).
Proof.
  split; [discriminate|].
  apply send_multiple_emails_length_mismatch. discriminate.
Defined.

Lemma confirm_send_email_exact_witness :
  "Send" ≠ "send"
  ∧ "Send" ∈ ["Send"; ""; "yes"]
  ∧ mails_sent (trace (main "Send" Demo.world).1) = mails_sent (trace Demo.world)
  ∧ (confirm_send_email "Send" Demo.world).2 = Ok false.
Proof.
  destruct (confirm_send_email_exact "Send" Demo.world) as (_ & _ & Hmain & Hfalse).
  assert ("Send" ≠ "send") as Hne by discriminate.
  assert ("Send" ∈ ["Send"; ""; "yes"]) as Hin by (by left).
  exact (conj Hne (conj Hin (conj (Hmain Hne) (Hfalse Hin)))).
Defined.

Lemma send_multiple_emails_continues_witness :
  length ["output/relatorio-AcmeCo.xlsx"; "output/relatorio-Bolt.xlsx"]
  = length [VStr "acme@example.com"; VStr "bolt@example.com"]
  ∧ ∃ outcomes,
      send_multiple_emails ["output/relatorio-AcmeCo.xlsx"; "output/relatorio-Bolt.xlsx"]
        (Series [VStr "acme@example.com"; VStr "bolt@example.com"]) VNaN VNaN Demo.world
      = ({| disk := disk Demo.world; dirs := dirs Demo.world;
            trace := trace Demo.world ++ outcomes |}, Ok tt)
      ∧ length outcomes = 2%nat.
Proof.
  split; [reflexivity|].
  destruct (send_multiple_emails_continues
              ["output/relatorio-AcmeCo.xlsx"; "output/relatorio-Bolt.xlsx"]
              [VStr "acme@example.com"; VStr "bolt@example.com"] VNaN VNaN Demo.world
              eq_refl) as (_ & outcomes & Hrun & Hlen & _).
  exists outcomes. by split.
Defined.

Lemma main_export_twice_witness :
  main_export Demo.world = (Demo.world_after, Ok Demo.splitter_after)
  ∧ (∃ ids ms,
       getitem (contacts Demo.splitter_after) COLUMN_ID = Ok ids
       ∧ map_result py_int (sel_iter ids) = Ok ms
       ∧ Forall2 (λ m path, ∃ s, seller_name_of Demo.splitter_after m = Some s
                                 ∧ path = save_path_of OUTPUT_FOLDER (spec_sanitize s)
                                 ∧ is_Some (disk Demo.world_after !! path))
           ms (files Demo.splitter_after))
  ∧ main_export Demo.world_after = (Demo.world_after, Ok Demo.splitter_after)
  ∧ disk Demo.world_after !! FILE_TEMPLATE = disk Demo.world !! FILE_TEMPLATE
  ∧ disk Demo.world_after !! FILE_DATA = disk Demo.world !! FILE_DATA.
Proof.
  assert (is_ok (main_export Demo.world).2 = true) as Hok
    by (vm_compute; reflexivity).
  assert (main_export Demo.world = (Demo.world_after, Ok Demo.splitter_after)) as Hfirst.
  { unfold Demo.world_after, Demo.splitter_after.
    destruct (main_export Demo.world) as [w [sp|e]]; [reflexivity | discriminate Hok]. }
  split; [exact Hfirst|].
  exact (main_export_twice Demo.world Demo.world_after Demo.splitter_after Hfirst).
Defined.

Lemma split_sellers_cast_first_witness :
  (getitem (contacts Demo.splitter_bad_id) (id_column Demo.splitter_bad_id)
   = Ok (Series [VInt 5; VNaN])
   ∧ Exists (λ v, is_ok (py_int v) = false) (sel_iter (Series [VInt 5; VNaN])))
  ∧ ∃ e, split_sellers (Demo.splitter_bad_id, Demo.world)
         = ((Demo.splitter_bad_id, Demo.world), Raise e)
         ∧ (e = ValueError ∨ e = TypeError).
Proof.
  assert (Exists (λ v, is_ok (py_int v) = false) (sel_iter (Series [VInt 5; VNaN])))
    as Hbad by (right; left; reflexivity).
  split; [by split|].
  exact (split_sellers_cast_first Demo.splitter_bad_id Demo.world
           (Series [VInt 5; VNaN]) eq_refl Hbad).
Defined.

Lemma template_ops_frame_witness :
  ("Pivot" ∉ input_sheet_names Demo.splitter)
  ∧ template_file (clean_spreadsheet Demo.splitter).1 !! "Pivot"
    = template_file Demo.splitter !! "Pivot"
  ∧ template_file (fill_cols Demo.sheets Demo.splitter).1 !! "Pivot"
    = template_file Demo.splitter !! "Pivot".
Proof.
  assert ("Pivot" ∉ input_sheet_names Demo.splitter) as Hout
    by (by apply (bool_decide_unpack _); vm_compute).
  split; [exact Hout|].
  exact (template_ops_frame Demo.splitter Demo.sheets "Pivot" Hout).
Defined.

End OnTheSmallRun.

(** * Further properties of the program *)

(** ** get_save_path *)

Lemma re_sub_non_alnum_chars (s : string) :
  Forall (λ c, is_alnum c = true) (chars (re_sub_non_alnum s)).
Proof.
  unfold chars. induction s as [|c s IH]; [constructor|].
  cbn [re_sub_non_alnum]. destruct (is_alnum c) eqn:Hc; [|exact IH].
  cbn [String.list_ascii_of_string]. by constructor.
Qed.

Lemma get_save_path_cases (merchant_dfs : gmap string DataFrame) (self : Splitter)
    (w : World) :
  (∃ e, get_save_path merchant_dfs (self, w) = ((self, w), Raise e))
  ∨ ∃ sheet df col names name,
      filename_location self !! "sheet" = Some sheet
      ∧ merchant_dfs !! sheet = Some df
      ∧ filename_location self !! "col" = Some col
      ∧ getitem df col = Ok names
      ∧ clean_first_name names = Ok name
      ∧ output_folder self ≠ ""
      ∧ get_save_path merchant_dfs (self, w)
        = ((self, (ensure_dir (output_folder self) w).1),
           Ok (save_path_of (output_folder self) name)).
Proof.
  unfold get_save_path, bind, on_self, on_world, zoom, lift, get, modify, ret,
    dict_getitem. cbn [fst snd].
  destruct (filename_location self !! "sheet") as [sheet|]; [|by eauto].
  destruct (merchant_dfs !! sheet) as [df|] eqn:Hdf; [|by eauto].
  destruct (filename_location self !! "col") as [col|]; [|by eauto].
  destruct (getitem df col) as [names|] eqn:Hnames; [|by eauto].
  destruct (clean_first_name names) as [name|] eqn:Hname; [|by eauto].
  destruct (decide (output_folder self = "")) as [Hempty|Hfolder].
  - left. rewrite Hempty, ensure_dir_empty. by eauto.
  - right. exists sheet, df, col, names, name.
    rewrite (ensure_dir_ok _ w Hfolder). by repeat split.
Qed.


(** X2.  The filename column decides how [get_save_path] fails: without a
    row it raises IndexError, and with a first cell that is not a string
    (a number, an empty cell) it raises AttributeError. *)
Theorem get_save_path_without_name (merchant_dfs : gmap string DataFrame)
    (self : Splitter) (w : World) (sheet col : string) (df : DataFrame)
    (vs : list value) :
  filename_location self !! "sheet" = Some sheet →
  merchant_dfs !! sheet = Some df →
  filename_location self !! "col" = Some col →
  getitem df col = Ok (Series vs) →
  (∀ s rest, vs ≠ VStr s :: rest) →
  get_save_path merchant_dfs (self, w)
  = ((self, w), Raise (if decide (vs = []) then IndexError else AttributeError)).
Proof.
  intros Hsheet Hdf Hcol Hsel Hname.
  unfold get_save_path, bind, on_self, on_world, zoom, lift, get, modify, ret,
    dict_getitem. cbn [fst snd].
  rewrite Hsheet, Hdf, Hcol, Hsel.
  destruct vs as [|[| | |s] rest]; try done.
  by destruct (Hname s rest).
Qed.

(** X3.  A path returned by [get_save_path] is
    [<output_folder>/relatorio-<name>.xlsx] with a <name> made of letters
    and digits only, so the file lies directly in the output folder. *)
Theorem get_save_path_shape (merchant_dfs : gmap string DataFrame) (s s' : State)
    (path : string) :
  get_save_path merchant_dfs s = (s', Ok path) →
  ∃ name, path = output_folder s.1 +:+ "/relatorio-" +:+ name +:+ ".xlsx"
          ∧ Forall (λ c, is_alnum c = true) (chars name)
          ∧ "/"%char ∉ chars name.
Proof.
  destruct s as [self w].
  destruct (get_save_path_cases merchant_dfs self w)
    as [[e' Hraise]|(? & ? & ? & names & name & _ & _ & _ & _ & Hname & _ & Hok)].
  { by rewrite Hraise. }
  rewrite Hok. intros [= _ <-]. exists name. split; [done|].
  assert (Forall (λ c, is_alnum c = true) (chars name)) as Halnum.
  { destruct names as [[|[| | |seller] rest]|k n [|row cells]]; try done.
    injection Hname as <-. apply re_sub_non_alnum_chars. }
  split; [done|]. intros Hin. rewrite Forall_forall in Halnum.
  by specialize (Halnum _ Hin).
Qed.

(** X4.  A call of [get_save_path] that returns leaves the output folder in
    existence and changes nothing else: the object, the files on disk and
    the console are as before, every directory that existed still does, and
    when the folder existed already the world is unchanged. *)
Theorem get_save_path_makes_folder (merchant_dfs : gmap string DataFrame)
    (self self' : Splitter) (w w' : World) (path : string) :
  get_save_path merchant_dfs (self, w) = ((self', w'), Ok path) →
  self' = self
  ∧ path_exists (output_folder self) w' = true
  ∧ disk w' = disk w ∧ trace w' = trace w ∧ dirs w ⊆ dirs w'
  ∧ (path_exists (output_folder self) w = true → w' = w).
Proof.
  destruct (get_save_path_cases merchant_dfs self w)
    as [[e' Hraise]|(? & ? & ? & ? & ? & _ & _ & _ & _ & _ & Hfolder & Hok)].
  { by rewrite Hraise. }
  rewrite Hok. intros [= <- <- _]. split; [done|].
  split; [by apply path_exists_ensure_dir|]. split; [apply ensure_dir_disk|].
  split; [apply ensure_dir_trace|]. split; [apply ensure_dir_dirs|].
  intros Hex. by rewrite (ensure_dir_exists _ _ Hex).
Qed.

(** ** save_spreadsheet *)


(** ** clean_spreadsheet and a missing sheet *)

Lemma clean_loop_result (names : list string) :
  ∀ sp : Splitter,
    (for_each names (λ ws, on_sheet ws (modify (clean_window 50 50))) sp).2
    = if bool_decide (Forall (λ n, is_Some (template_file sp !! n)) names)
      then Ok tt else Raise KeyError.
Proof.
  induction names as [|n names IH]; intros sp; [done|].
  cbn [for_each]. unfold bind, on_sheet at 1, modify at 1.
  destruct (template_file sp !! n) as [ws|] eqn:Hn.
  - rewrite IH. apply (f_equal (λ b : bool, if b then Ok tt else Raise KeyError)).
    apply bool_decide_ext. rewrite Forall_cons, Hn.
    assert (∀ k, is_Some (template_file
                   (set_template_file (<[n:=clean_window 50 50 ws]> (template_file sp)) sp)
                   !! k) ↔ is_Some (template_file sp !! k)) as Hk.
    { intros k. cbn [template_file set_template_file]. rewrite lookup_insert.
      case_decide as Hk; [|done]. rewrite <- Hk, Hn. split; eauto. }
    split.
    + intros Hall. split; [done|]. eapply Forall_impl; [exact Hall|].
      intros k. by rewrite Hk.
    + intros [_ Hall]. eapply Forall_impl; [exact Hall|]. intros k. by rewrite Hk.
  - cbn [snd]. rewrite bool_decide_eq_false_2; [done|].
    intros Hall. apply Forall_cons in Hall as [[? Habs] _]. by rewrite Hn in Habs.
Qed.

(** X9.  [clean_spreadsheet] returns when the template has every tracked
    sheet, and raises KeyError as soon as one is missing. *)
Theorem clean_spreadsheet_result (sp : Splitter) :
  (clean_spreadsheet sp).2
  = if bool_decide (Forall (λ n, is_Some (template_file sp !! n)) (input_sheet_names sp))
    then Ok tt else Raise KeyError.
Proof.
  unfold clean_spreadsheet, bind. exact (clean_loop_result (input_sheet_names sp) sp).
Qed.

(** ** split_sellers, however it ends *)

Lemma writes_lookup_keeps (saves : list (string * workbook))
    (d : gmap string workbook) (p : string) :
  is_Some (d !! p) → is_Some (writes saves d !! p).
Proof.
  unfold writes. revert d. induction saves as [|[q wb] saves IH]; intros d Hp; [done|].
  cbn [foldl fst snd]. apply IH. rewrite lookup_insert. by case_decide.
Qed.

Lemma writes_lookup_from (saves : list (string * workbook))
    (d : gmap string workbook) (p : string) (wb : workbook) :
  writes saves d !! p = Some wb → d !! p = Some wb ∨ (p, wb) ∈ saves.
Proof.
  induction saves as [|[q wb'] saves IH] using rev_ind; [by left|].
  rewrite writes_snoc, lookup_insert. case_decide as Hq.
  - intros [= <-]. subst. right. apply elem_of_app. right. by left.
  - intros Hp. destruct (IH Hp) as [?|?]; [by left|].
    right. apply elem_of_app. by left.
Qed.

Lemma apply_saves_dirs (folder : string) (saves : list (string * workbook)) :
  ∀ w, dirs w ⊆ dirs (apply_saves folder saves w)
       ∧ dirs (apply_saves folder saves w)
         ⊆ {[folder]} ∪ list_to_set (parents folder) ∪ dirs w.
Proof.
  unfold apply_saves. induction saves as [|[q wb] saves IH]; intros w.
  - split; [done|]. apply union_subseteq_r.
  - cbn [foldl fst snd]. destruct (IH (save_op folder q wb w)) as [H1 H2].
    assert (dirs w ⊆ dirs (save_op folder q wb w)
            ∧ dirs (save_op folder q wb w)
              ⊆ {[folder]} ∪ list_to_set (parents folder) ∪ dirs w) as [H3 H4].
    { unfold save_op. cbn [dirs set_disk]. apply ensure_dir_dirs. }
    split; [by etrans|]. etrans; [exact H2|].
    apply union_least; [apply union_subseteq_l | exact H4].
Qed.

Lemma apply_saves_trace (folder : string) (saves : list (string * workbook)) :
  ∀ w, trace (apply_saves folder saves w) = trace w.
Proof.
  unfold apply_saves. induction saves as [|[q wb] saves IH]; intros w; [done|].
  cbn [foldl fst snd]. by rewrite IH, save_op_trace.
Qed.

Lemma saved_ws_idemp (ws : worksheet) : saved_ws (saved_ws ws) = saved_ws ws.
Proof.
  unfold saved_ws. rewrite <- map_fmap_compose. apply map_fmap_ext.
  intros k v _. apply saved_value_idemp.
Qed.

Lemma split_self_untracked (merchant_id : Z) (sp : Splitter) (other : string) :
  other ∉ input_sheet_names sp →
  template_file (split_self merchant_id sp).1 !! other
  = if is_ok (split_self merchant_id sp).2
    then saved_ws <$> template_file sp !! other
    else template_file sp !! other.
Proof.
  intros Hout. unfold split_self, bind, get, lift, modify, ret.
  destruct (filter_sheets _ _ _ _ _) as [mdfs|e]; [|done].
  pose proof (clean_spreadsheet_only_template sp) as H1.
  pose proof (for_each_on_sheet_other (input_sheet_names sp) other
                (λ _, modify (clean_window 50 50)) sp Hout) as Hc.
  unfold clean_spreadsheet, bind in H1 |- *.
  destruct (for_each _ _ sp) as [sp1 [[]|e]]; cbn [fst snd is_ok] in *; [|done].
  assert (input_sheet_names sp1 = input_sheet_names sp) as Hn1 by (by rewrite H1).
  pose proof (for_each_on_sheet_other (input_sheet_names sp1) other
                (λ ws, current_df <~ lift (dict_getitem mdfs ws); fill_sheet current_df)
                sp1) as Hf.
  rewrite Hn1 in Hf. specialize (Hf Hout).
  unfold fill_cols, bind. rewrite Hn1.
  destruct (for_each _ _ sp1) as [sp2 [[]|e]]; cbn [fst snd is_ok] in *; [|congruence].
  pose proof (plan_path_state mdfs sp2) as H3.
  destruct (plan_path mdfs sp2) as [sp3 [p|e]]; cbn [fst snd is_ok] in *; subst sp3;
    cbn [template_file set_files set_template_file]; [|congruence].
  rewrite saved_lookup. congruence.
Qed.

Lemma split_loop_untracked (ms : list Z) (other : string) :
  ∀ sp : Splitter,
    other ∉ input_sheet_names sp →
    ∃ sp' r saves,
      (∀ w, for_each ms split_one (sp, w)
            = ((sp', apply_saves (output_folder sp) saves w), r))
      ∧ (template_file sp' !! other = template_file sp !! other
         ∨ template_file sp' !! other = saved_ws <$> template_file sp !! other)
      ∧ Forall (λ s, s.2 !! other = saved_ws <$> template_file sp !! other) saves.
Proof.
  induction ms as [|m ms IH]; intros sp Hout.
  - exists sp, (Ok tt), []. split; [done|]. split; [by left|constructor].
  - pose proof (split_self_untracked m sp other Hout) as Hkeep.
    destruct (split_self_spec m sp) as [_ Hok].
    destruct (split_self m sp) as [sp1 [path|e]] eqn:Hself; cbn [fst snd is_ok] in Hkeep.
    + destruct (Hok sp1 path eq_refl) as (Hcfg & _ & _).
      destruct (same_config_fields sp sp1 Hcfg) as (Hn & Hfolder & _ & _).
      destruct (IH sp1) as (sp' & r & saves & Hrun & Hfinal & Hsaves);
        [by rewrite Hn|].
      assert (saved_ws <$> template_file sp1 !! other
              = saved_ws <$> template_file sp !! other) as Hidem.
      { rewrite Hkeep. destruct (template_file sp !! other) as [ws|]; [|done].
        cbn. by rewrite saved_ws_idemp. }
      exists sp', r, ((path, template_file sp1) :: saves). split; [|split].
      * intros w. cbn [for_each]. unfold bind. rewrite split_one_world, Hself.
        rewrite Hrun, Hfolder. reflexivity.
      * right. destruct Hfinal as [Hfinal|Hfinal]; congruence.
      * constructor; [exact Hkeep|]. eapply Forall_impl; [exact Hsaves|].
        intros s Hs. cbn beta in *. congruence.
    + exists sp1, (Raise e), []. split; [|split; [by left|constructor]].
      intros w. cbn [for_each]. unfold bind. by rewrite split_one_world, Hself.
Qed.

Section FurtherProperties.

Context `{Platform}.

(** X10.  However [split_sellers] ends, it has only added to [files], every
    path it added names a file on disk, and every file that was on disk
    before is still there: what the merchants before a failure produced is
    kept. *)
Theorem split_sellers_keeps_saved_files (sp : Splitter) (w : World) :
  ∃ new,
    files (split_sellers (sp, w)).1.1 = files sp ++ new
    ∧ (∀ path, path ∈ new → is_Some (disk (split_sellers (sp, w)).1.2 !! path))
    ∧ ∀ path, is_Some (disk w !! path) →
              is_Some (disk (split_sellers (sp, w)).1.2 !! path).
Proof.
  destruct (split_sellers_world sp) as (sp' & r & saves & Hrun & _ & Hfiles & _).
  rewrite Hrun. cbn [fst snd]. exists (saves.*1). split; [exact Hfiles|].
  rewrite apply_saves_disk. split.
  - intros path. apply writes_lookup_written.
  - intros path. apply writes_lookup_keeps.
Qed.

(** X11.  However [split_sellers] ends, it prints nothing and sends no mail,
    it removes no directory and creates none other than the output folder
    and the intermediate directories of its path, and a workbook path that
    is not of the form [<output_folder>/relatorio-<name>.xlsx] holds on disk
    what it held before: the template file and the data file are never
    written.  (The log file of the [logging] module is not a workbook and is
    not part of the disk of the model.) *)
Theorem split_sellers_footprint (sp : Splitter) (w : World) :
  trace (split_sellers (sp, w)).1.2 = trace w
  ∧ dirs w ⊆ dirs (split_sellers (sp, w)).1.2
  ∧ dirs (split_sellers (sp, w)).1.2
    ⊆ {[output_folder sp]} ∪ list_to_set (parents (output_folder sp)) ∪ dirs w
  ∧ ∀ path, (∀ name, path ≠ save_path_of (output_folder sp) name) →
            disk (split_sellers (sp, w)).1.2 !! path = disk w !! path.
Proof.
  destruct (split_sellers_world sp) as (sp' & r & saves & Hrun & _ & _ & Hforms).
  rewrite Hrun. cbn [fst snd].
  destruct (apply_saves_dirs (output_folder sp) saves w) as [Hd1 Hd2].
  split; [apply apply_saves_trace|]. split; [exact Hd1|]. split; [exact Hd2|].
  intros path Hpath. rewrite apply_saves_disk. apply writes_lookup_other.
  intros Hin. apply list_elem_of_fmap in Hin as (s & -> & Hs).
  rewrite Forall_forall in Hforms. destruct (Hforms s Hs) as [name Hname].
  by apply (Hpath name).
Qed.

(** X12.  However [split_sellers] ends, the object keeps its configuration,
    its input tables and its contacts, and a sheet that is not tracked (a
    pivot sheet of the template, say) is never written: in the template in
    memory it is the sheet of the original template, as it was or as a saved
    file holds it, and in every file the run wrote it is that sheet as a
    saved file holds it.  For a sheet that is as a file holds it -- every
    sheet of a template that was loaded -- this is the same sheet
    throughout. *)
Theorem split_sellers_keeps_inputs (sp : Splitter) (w : World) (other : string) :
  other ∉ input_sheet_names sp →
  same_config sp (split_sellers (sp, w)).1.1
  ∧ dfs (split_sellers (sp, w)).1.1 = dfs sp
  ∧ contacts (split_sellers (sp, w)).1.1 = contacts sp
  ∧ (template_file (split_sellers (sp, w)).1.1 !! other = template_file sp !! other
     ∨ template_file (split_sellers (sp, w)).1.1 !! other
       = saved_ws <$> template_file sp !! other)
  ∧ (∀ path wb, disk (split_sellers (sp, w)).1.2 !! path = Some wb →
                disk w !! path = Some wb
                ∨ wb !! other = saved_ws <$> template_file sp !! other)
  ∧ (saved_ws <$> template_file sp !! other = template_file sp !! other →
     template_file (split_sellers (sp, w)).1.1 !! other = template_file sp !! other
     ∧ ∀ path wb, disk (split_sellers (sp, w)).1.2 !! path = Some wb →
                  disk w !! path = Some wb
                  ∨ wb !! other = template_file sp !! other).
Proof.
  intros Hout.
  assert (∃ sp' r saves,
            (∀ w, split_sellers (sp, w)
                  = ((sp', apply_saves (output_folder sp) saves w), r))
            ∧ (template_file sp' !! other = template_file sp !! other
               ∨ template_file sp' !! other = saved_ws <$> template_file sp !! other)
            ∧ Forall (λ s, s.2 !! other = saved_ws <$> template_file sp !! other) saves)
    as (sp' & r & saves & Hrun & Hfinal & Hsaves).
  { unfold split_sellers, bind, on_self, zoom, get, lift. cbn [fst snd].
    destruct (getitem (contacts sp) (id_column sp)) as [ids|e];
      [|exists sp, (Raise e), []; split; [done|]; split; [by left|constructor]].
    destruct (map_result py_int (sel_iter ids)) as [ms|e];
      [|exists sp, (Raise e), []; split; [done|]; split; [by left|constructor]].
    destruct (split_loop_untracked ms other sp Hout) as (sp' & r & saves & ? & ? & ?).
    by exists sp', r, saves. }
  destruct (split_sellers_world sp) as (sp2 & r2 & saves2 & Hrun2 & Hcfg & _ & _).
  assert (sp2 = sp') as -> by (specialize (Hrun w); rewrite Hrun2 in Hrun; congruence).
  rewrite Hrun. cbn [fst snd].
  assert (∀ path wb, disk (apply_saves (output_folder sp) saves w) !! path = Some wb →
                     disk w !! path = Some wb
                     ∨ wb !! other = saved_ws <$> template_file sp !! other) as Hfiles.
  { intros path wb Hwb. rewrite apply_saves_disk in Hwb.
    destruct (writes_lookup_from _ _ _ _ Hwb) as [?|Hin]; [by left|].
    right. rewrite Forall_forall in Hsaves. exact (Hsaves _ Hin). }
  split; [exact Hcfg|]. split; [by rewrite Hcfg|]. split; [by rewrite Hcfg|].
  split; [exact Hfinal|]. split; [exact Hfiles|].
  intros Hloaded. split.
  - destruct Hfinal as [Hfinal|Hfinal]; congruence.
  - intros path wb Hwb. destruct (Hfiles path wb Hwb) as [?|Hsheet]; [by left|].
    right. congruence.
Qed.

(** X13.  When [split_sellers] returns, [files] has grown by exactly one
    path per entry of the contacts identifier column, repeated identifiers
    included. *)
Theorem split_sellers_counts (sp sp' : Splitter) (w w' : World) (ids : selection) :
  split_sellers (sp, w) = ((sp', w'), Ok tt) →
  getitem (contacts sp) (id_column sp) = Ok ids →
  length (files sp') = (length (files sp) + length (sel_iter ids))%nat.
Proof.
  unfold split_sellers, bind, on_self, zoom, get, lift. cbn [fst snd].
  intros Hrun Hids. rewrite Hids in Hrun.
  destruct (map_result py_int (sel_iter ids)) as [ms|e] eqn:Hms; [|done].
  apply map_result_ok, Forall2_length in Hms.
  destruct (split_loop_world ms sp) as (sp2 & r & saves & Hloop & _ & Hfiles & _ & Hlen).
  rewrite Hloop in Hrun. injection Hrun as Hsp _ Hr. subst sp2 r.
  rewrite Hfiles, length_app, length_fmap, Hlen by done. lia.
Qed.

End FurtherProperties.

(** ** The constructor, the mail loop and main *)

Section MailAndMain.

Context `{Platform}.


Lemma send_loop_accepted (tos : list value) (subj text : value) (fl : list string)
    (n : nat) (w : World) :
  (∀ i file, fl !! i = Some file → is_Some (tos !! (n + i)%nat)) →
  (∀ history file to,
     outlook history {| email_list := to; subject := subj; body := text;
                        attachment := abspath file |} = None) →
  for_each (enumerate_from n fl) (λ '(idx, file),
    to <~ lift (sel_item (Series tos) idx);
    send_email {| email_list := to; subject := subj; body := text;
                  attachment := abspath file |}) w
  = ({| disk := disk w; dirs := dirs w;
        trace := trace w
                 ++ zip_with (λ file to, MailSent {| email_list := to; subject := subj;
                                                     body := text;
                                                     attachment := abspath file |})
                      fl (drop n tos) |}, Ok tt).
Proof.
  intros Htos Hacc.
  destruct (send_loop tos subj text fl n w Htos) as (outcomes & -> & Hlen & Hout).
  f_equal. f_equal. f_equal. apply list_eq. intros i.
  rewrite lookup_zip_with, lookup_drop.
  destruct (fl !! i) as [file|] eqn:Hfile; cbn.
  - destruct (Htos i file Hfile) as [to Hto]. rewrite Hto. cbn.
    rewrite (Hout i file to Hfile Hto). unfold outcome_of. by rewrite Hacc.
  - apply lookup_ge_None. rewrite Hlen. by apply lookup_ge_None.
Qed.

(** X15.  When the mail client accepts every message, [send_multiple_emails]
    with as many recipients as files sends exactly one mail per file, in the
    order of the files: the [i]-th mail goes to the [i]-th recipient, carries
    the one subject and the one body given, and attaches the absolute path of
    the [i]-th file. *)
Theorem send_multiple_emails_all_accepted (file_list : list string)
    (tos : list value) (subj text : value) (w : World) :
  length file_list = length tos →
  (∀ history file to,
     outlook history {| email_list := to; subject := subj; body := text;
                        attachment := abspath file |} = None) →
  send_multiple_emails file_list (Series tos) subj text w
  = ({| disk := disk w; dirs := dirs w;
        trace := trace w
                 ++ zip_with (λ file to, MailSent {| email_list := to; subject := subj;
                                                     body := text;
                                                     attachment := abspath file |})
                      file_list tos |}, Ok tt).
Proof.
  intros Hlen Hacc. unfold send_multiple_emails. cbn [sel_len].
  rewrite bool_decide_eq_true_2 by done.
  rewrite (send_loop_accepted tos subj text file_list 0 w); [done| |done].
  intros i f Hi. apply lookup_lt_is_Some. rewrite <- Hlen.
  by apply lookup_lt_Some in Hi.
Qed.

Lemma send_email_footprint (mail : Mailman) (w : World) :
  disk (send_email mail w).1 = disk w
  ∧ dirs (send_email mail w).1 = dirs w
  ∧ trace w `prefix_of` trace (send_email mail w).1.
Proof.
  rewrite send_email_outcome. cbn. repeat split. by apply prefix_app_r.
Qed.

Lemma send_multiple_emails_world (file_list : list string) (emails : selection)
    (subj text : value) (w : World) :
  disk (send_multiple_emails file_list emails subj text w).1 = disk w
  ∧ dirs (send_multiple_emails file_list emails subj text w).1 = dirs w
  ∧ trace w `prefix_of` trace (send_multiple_emails file_list emails subj text w).1.
Proof.
  unfold send_multiple_emails. case_bool_decide; [|by unfold raise].
  refine (for_each_preserves
            (λ w1 w2 : World, disk w2 = disk w1 ∧ dirs w2 = dirs w1
                              ∧ trace w1 `prefix_of` trace w2) _ _ _ _ _ w).
  - done.
  - intros w1 w2 w3 (? & ? & ?) (? & ? & ?). repeat split; try congruence.
    by etrans.
  - intros [idx file] w0 _. unfold bind, lift.
    destruct (sel_item emails idx) as [to|e]; [|done].
    apply send_email_footprint.
Qed.

(** X16.  [send_multiple_emails] never touches the files or the directories,
    whatever it is given and however it ends, and it only adds to what is on
    the console and in the mail client. *)
Theorem send_multiple_emails_footprint (file_list : list string) (emails : selection)
    (subj text : value) (w : World) :
  disk (send_multiple_emails file_list emails subj text w).1 = disk w
  ∧ dirs (send_multiple_emails file_list emails subj text w).1 = dirs w
  ∧ ∃ added, trace (send_multiple_emails file_list emails subj text w).1
             = trace w ++ added.
Proof.
  destruct (send_multiple_emails_world file_list emails subj text w) as (Hd & Hs & Ht).
  split; [exact Hd|]. split; [exact Hs|]. exact Ht.
Qed.

Lemma main_export_inv (w w1 : World) (sp : Splitter) :
  main_export w = (w1, Ok sp) →
  id_column sp = COLUMN_ID
  ∧ trace w1 = trace w
  ∧ ∀ ids, getitem (contacts sp) COLUMN_ID = Ok ids →
           length (files sp) = length (sel_iter ids).
Proof.
  intros Hexp. pose proof (main_export_trace w) as Ht. rewrite Hexp in Ht.
  revert Hexp.
  unfold main_export, SpreadsheetSplitter, import_data, bind, load_workbook,
    lift, ret, call.
  destruct (disk w !! FILE_TEMPLATE) as [wb|]; [|done].
  destruct (disk w !! FILE_DATA) as [data|]; [|done].
  destruct (get_contacts (read_excel data)) as [c|e]; [|done].
  match goal with |- context [split_sellers (?s, w)] => set (sp0 := s) end.
  destruct (split_sellers (sp0, w)) as [[sp' w'] [[]|e]] eqn:Hrun; [|done].
  cbn [fst snd]. intros [= <- <-].
  destruct (split_sellers_world sp0) as (sp2 & r & saves & Hw & Hcfg & _ & _).
  assert (sp2 = sp') as -> by (specialize (Hw w); congruence).
  split; [by rewrite Hcfg|]. split; [exact Ht|].
  intros ids Hids.
  assert (contacts sp' = c) as Hc by (by rewrite Hcfg).
  revert Hrun. unfold split_sellers, bind, on_self, zoom, get, lift. cbn [fst snd].
  change (id_column sp0) with COLUMN_ID. change (contacts sp0) with c.
  rewrite <- Hc, Hids.
  destruct (map_result py_int (sel_iter ids)) as [ms|e] eqn:Hms; [|done].
  apply map_result_ok, Forall2_length in Hms.
  destruct (split_loop_world ms sp0) as (sp3 & r3 & saves3 & Hloop & _ & Hfiles & _ & Hlen).
  rewrite Hloop. intros [= -> _ ->].
  rewrite Hfiles, length_app, length_fmap, Hlen by done. cbn. lia.
Qed.

End MailAndMain.

Section Main.

Context `{Platform}.

(** X17.  When the export fails, [main] stops with the same exception: the
    contacts are not printed, the user is not asked, no mail is sent. *)
Theorem main_stops_when_export_fails (typed : string) (w w1 : World) (e : exn) :
  main_export w = (w1, Raise e) →
  main typed w = (w1, Raise e) ∧ trace w1 = trace w.
Proof.
  intros Hexp. pose proof (main_export_trace w) as Ht. rewrite Hexp in Ht.
  split; [|exact Ht]. unfold main, bind. by rewrite Hexp.
Qed.

(** X18.  After the export, [main] writes no file and creates no directory,
    whatever is typed and however the mail step ends: the disk [main] leaves
    is the disk the export left. *)
Theorem main_mail_step_keeps_disk (typed : string) (w : World) :
  disk (main typed w).1 = disk (main_export w).1
  ∧ dirs (main typed w).1 = dirs (main_export w).1.
Proof.
  unfold main, bind.
  destruct (main_export w) as [w1 [sp|e]]; [|done]. cbn [fst].
  unfold confirm_send_email, bind, modify, ret, lift. cbn [fst snd].
  destruct (String.eqb typed CONFIRMATION_KEYWORD); [|done].
  destruct (getitem (contacts sp) COLUMN_EMAIL) as [emails|]; [|done].
  destruct (getitem (contacts sp) COLUMN_SUBJECT) as [subjects|]; [|done].
  destruct (sel_item subjects 0) as [subj|]; [|done].
  destruct (getitem (contacts sp) COLUMN_BODY) as [bodies|]; [|done].
  destruct (sel_item bodies 0) as [text|]; [|done].
  match goal with |- context [send_multiple_emails ?f ?e ?s ?t ?w0] =>
    destruct (send_multiple_emails_world f e s t w0) as (Hd & Hs & _)
  end.
  by rewrite Hd, Hs.
Qed.

(** X19.  The whole of [main] when "send" is typed, the export has completed,
    the contacts table has one column for each of the identifier, the email,
    the subject and the body, and the mail client accepts every message: the
    contacts are printed, the user is asked, and one mail per generated file
    is sent, in order, to the email of the contact in the same position, all
    with the subject and the body of the first contact and with the absolute
    path of the file attached. *)
Theorem main_sends_one_mail_per_contact (w w1 : World) (sp : Splitter)
    (ids tos : list value) (subj text : value) (subjects bodies : list value) :
  main_export w = (w1, Ok sp) →
  getitem (contacts sp) COLUMN_ID = Ok (Series ids) →
  getitem (contacts sp) COLUMN_EMAIL = Ok (Series tos) →
  getitem (contacts sp) COLUMN_SUBJECT = Ok (Series (subj :: subjects)) →
  getitem (contacts sp) COLUMN_BODY = Ok (Series (text :: bodies)) →
  (∀ history file to,
     outlook history {| email_list := to; subject := subj; body := text;
                        attachment := abspath file |} = None) →
  length (files sp) = length tos
  ∧ main "send" w
    = ({| disk := disk w1; dirs := dirs w1;
          trace := trace w
                   ++ [PrintedFrame (contacts sp);
                       Prompted "Please check files and type 'send' to send emails: "]
                   ++ zip_with (λ file to,
                                  MailSent {| email_list := to; subject := subj;
                                              body := text;
                                              attachment := abspath file |})
                        (files sp) tos |}, Ok tt).
Proof.
  intros Hexp Hids Htos Hsubj Hbody Hacc.
  destruct (main_export_inv w w1 sp Hexp) as (_ & Ht & Hcount).
  assert (length (files sp) = length tos) as Hlen.
  { rewrite (Hcount _ Hids). cbn [sel_iter].
    apply getitem_Series_inv in Hids as (i & _ & ->).
    apply getitem_Series_inv in Htos as (j & _ & ->).
    by rewrite !length_map. }
  split; [exact Hlen|].
  unfold main, bind. rewrite Hexp.
  unfold confirm_send_email, bind, modify, ret, lift. cbn [fst snd].
  change (String.eqb "send" CONFIRMATION_KEYWORD) with true. cbn beta iota.
  rewrite Htos, Hsubj. cbn [sel_item lookup list_lookup]. rewrite Hbody.
  cbn [sel_item lookup list_lookup].
  unfold send_multiple_emails. cbn [sel_len].
  rewrite bool_decide_eq_true_2 by done.
  rewrite (send_loop_accepted tos subj text (files sp) 0); [| |done].
  - cbn [disk dirs trace add_event]. rewrite Ht, <- !app_assoc. reflexivity.
  - intros i f Hi. apply lookup_lt_is_Some. rewrite <- Hlen.
    by apply lookup_lt_Some in Hi.
Qed.

(** X20.  With a contacts table that has no row, the export completes
    without a file, and typing "send" then makes [main] raise KeyError
    (the subject of the first contact is looked up before any mail is
    built); no mail is sent. *)
Theorem main_send_without_contacts (w w1 : World) (sp : Splitter) :
  main_export w = (w1, Ok sp) →
  rows (contacts sp) = [] →
  (main "send" w).2 = Raise KeyError
  ∧ mails_sent (trace (main "send" w).1) = mails_sent (trace w).
Proof.
  intros Hexp Hrows.
  destruct (main_export_inv w w1 sp Hexp) as (_ & Ht & _).
  unfold main, bind. rewrite Hexp.
  unfold confirm_send_email, bind, modify, ret, lift. cbn [fst snd].
  change (String.eqb "send" CONFIRMATION_KEYWORD) with true. cbn beta iota.
  assert (mails_sent (trace w1 ++ [PrintedFrame (contacts sp)]
                      ++ [Prompted ("Please check files and type '"
                                    +:+ CONFIRMATION_KEYWORD +:+ "' to send emails: ")])
          = mails_sent (trace w)) as Hmails.
  { unfold mails_sent. rewrite omap_app, Ht. cbn. by rewrite app_nil_r. }
  assert (∀ key x, getitem (contacts sp) key = Ok x → sel_item x 0 = Raise KeyError)
    as Hfirst.
  { intros key x. unfold getitem. rewrite Hrows.
    destruct (positions _ _) as [|i [|i' ps]]; [done|..]; by intros [= <-]. }
  destruct (getitem (contacts sp) COLUMN_EMAIL) as [emails|e] eqn:Hemails.
  - destruct (getitem (contacts sp) COLUMN_SUBJECT) as [subjects|e] eqn:Hsubjects.
    + rewrite (Hfirst _ _ Hsubjects). cbn [fst snd add_event trace].
      split; [done|]. by rewrite <- app_assoc.
    + unfold getitem in Hsubjects.
      destruct (positions _ _) as [|i [|i' ps]]; try done.
      injection Hsubjects as <-. cbn [fst snd add_event trace].
      split; [done|]. by rewrite <- app_assoc.
  - unfold getitem in Hemails.
    destruct (positions _ _) as [|i [|i' ps]]; try done.
    injection Hemails as <-. cbn [fst snd add_event trace].
    split; [done|]. by rewrite <- app_assoc.
Qed.

End Main.

(** * The further properties on the small run *)

Section FurtherOnTheSmallRun.

#[local] Existing Instance Demo.platform.

Ltac by_evaluation := apply (bool_decide_unpack _); vm_compute; reflexivity.


Lemma get_save_path_without_name_witness :
  (filename_location Demo.splitter !! "sheet" = Some "GMS_AGG"
   ∧ Demo.merchant7 !! "GMS_AGG"
     = Some {| columns := columns Demo.gms_agg; rows := [] |}
   ∧ filename_location Demo.splitter !! "col" = Some "seller_name"
   ∧ getitem {| columns := columns Demo.gms_agg; rows := [] |} "seller_name"
     = Ok (Series [])
   ∧ ∀ s rest, ([] : list value) ≠ VStr s :: rest)
  ∧ get_save_path Demo.merchant7 (Demo.splitter, Demo.world)
    = ((Demo.splitter, Demo.world),
       Raise (if decide (([] : list value) = []) then IndexError else AttributeError)).
Proof.
  assert (filename_location Demo.splitter !! "sheet" = Some "GMS_AGG") as H1
    by by_evaluation.
  assert (Demo.merchant7 !! "GMS_AGG"
          = Some {| columns := columns Demo.gms_agg; rows := [] |}) as H2
    by by_evaluation.
  assert (filename_location Demo.splitter !! "col" = Some "seller_name") as H3
    by by_evaluation.
  assert (getitem {| columns := columns Demo.gms_agg; rows := [] |} "seller_name"
          = Ok (Series [])) as H4 by by_evaluation.
  assert (∀ s rest, ([] : list value) ≠ VStr s :: rest) as H5 by discriminate.
  split; [done|].
  exact (get_save_path_without_name Demo.merchant7 Demo.splitter Demo.world
           "GMS_AGG" "seller_name" _ [] H1 H2 H3 H4 H5).
Defined.

Lemma get_save_path_shape_witness :
  get_save_path Demo.merchant5 (Demo.splitter, Demo.world)
  = ((Demo.splitter, (ensure_dir "output" Demo.world).1), Ok "output/relatorio-AcmeCo.xlsx")
  ∧ ∃ name, "output/relatorio-AcmeCo.xlsx"
            = output_folder (Demo.splitter, Demo.world).1 +:+ "/relatorio-" +:+ name
              +:+ ".xlsx"
            ∧ Forall (λ c, is_alnum c = true) (chars name)
            ∧ "/"%char ∉ chars name.
Proof.
  assert (get_save_path Demo.merchant5 (Demo.splitter, Demo.world)
          = ((Demo.splitter, (ensure_dir "output" Demo.world).1),
             Ok "output/relatorio-AcmeCo.xlsx")) as Hrun by by_evaluation.
  split; [exact Hrun|].
  exact (get_save_path_shape Demo.merchant5 _ _ _ Hrun).
Defined.

(** An output folder below a missing directory: both are created. *)
Lemma demo_nested_folder :
  parents "out/2024" = ["out"]
  ∧ (get_save_path Demo.merchant5 (Demo.splitter_nested, Demo.world)).2
    = Ok "out/2024/relatorio-AcmeCo.xlsx"
  ∧ dirs (get_save_path Demo.merchant5 (Demo.splitter_nested, Demo.world)).1.2
    = {["out/2024"; "out"]}.
Proof. split; [|split]; by_evaluation. Qed.

Lemma get_save_path_makes_folder_witness :
  get_save_path Demo.merchant5 (Demo.splitter, Demo.world)
  = ((Demo.splitter, (ensure_dir "output" Demo.world).1), Ok "output/relatorio-AcmeCo.xlsx")
  ∧ Demo.splitter = Demo.splitter
  ∧ path_exists (output_folder Demo.splitter) ((ensure_dir "output" Demo.world).1) = true
  ∧ disk ((ensure_dir "output" Demo.world).1) = disk Demo.world
  ∧ trace ((ensure_dir "output" Demo.world).1) = trace Demo.world
  ∧ dirs Demo.world ⊆ dirs ((ensure_dir "output" Demo.world).1)
  ∧ (path_exists (output_folder Demo.splitter) Demo.world = true →
     (ensure_dir "output" Demo.world).1 = Demo.world).
Proof.
  assert (get_save_path Demo.merchant5 (Demo.splitter, Demo.world)
          = ((Demo.splitter, (ensure_dir "output" Demo.world).1),
             Ok "output/relatorio-AcmeCo.xlsx")) as Hrun by by_evaluation.
  split; [exact Hrun|].
  exact (get_save_path_makes_folder Demo.merchant5 _ _ _ _ _ Hrun).
Defined.

Lemma filter_sheets_selects_witness :
  filter_sheets Demo.sheets "merchant_customer_id" 5 ["GMS_AGG"; "GMS_SKU"] ∅
  = Ok Demo.merchant5
  ∧ (∀ name, is_Some (Demo.merchant5 !! name) ↔ name ∈ ["GMS_AGG"; "GMS_SKU"])
  ∧ ∀ name df', Demo.merchant5 !! name = Some df' →
      ∃ df i, Demo.sheets !! name = Some df
        ∧ positions (VStr "merchant_customer_id") (columns df) = [i]
        ∧ columns df' = columns df
        ∧ rows df' = List.filter (λ r, bool_decide (cell_at i r = VInt 5)) (rows df).
Proof.
  assert (filter_sheets Demo.sheets "merchant_customer_id" 5 ["GMS_AGG"; "GMS_SKU"] ∅
          = Ok Demo.merchant5) as Hrun by by_evaluation.
  split; [exact Hrun|].
  exact (filter_sheets_selects Demo.sheets Demo.merchant5 "merchant_customer_id" 5
           ["GMS_AGG"; "GMS_SKU"] Hrun).
Defined.

Lemma demo_merchant5_fillable (name : string) :
  name ∈ input_sheet_names Demo.splitter →
  is_Some (template_file Demo.splitter !! name)
  ∧ ∃ df, Demo.merchant5 !! name = Some df
          ∧ NoDup (columns df)
          ∧ ¬ (VStr "index" ∈ columns df ∧ VStr "level_0" ∈ columns df).
Proof.
  intros Hin. split; [by apply demo_template_has_tracked_sheets|].
  apply elem_of_cons in Hin as [->|Hin];
    [|apply elem_of_cons in Hin as [->|Hin]; [|by apply elem_of_nil in Hin]].
  - exists {| columns := columns Demo.gms_agg;
              rows := [ [VInt 5; VStr "Acme Co.!"; VInt 100];
                        [VInt 5; VStr "Acme Co.!"; VNaN] ] |}.
    split; [by_evaluation|]. split; by_evaluation.
  - exists {| columns := columns Demo.gms_sku; rows := [ [VInt 5; VStr "A-1"] ] |}.
    split; [by_evaluation|]. split; by_evaluation.
Defined.

Lemma fill_cols_writes_witness :
  (NoDup (input_sheet_names Demo.splitter)
   ∧ ∀ name, name ∈ input_sheet_names Demo.splitter →
       is_Some (template_file Demo.splitter !! name)
       ∧ ∃ df, Demo.merchant5 !! name = Some df
               ∧ NoDup (columns df)
               ∧ ¬ (VStr "index" ∈ columns df ∧ VStr "level_0" ∈ columns df))
  ∧ ∃ sp', fill_cols Demo.merchant5 Demo.splitter = (sp', Ok tt)
      ∧ ∀ name df old,
          name ∈ input_sheet_names Demo.splitter →
          Demo.merchant5 !! name = Some df →
          template_file Demo.splitter !! name = Some old →
          ∃ ws', template_file sp' !! name = Some ws'
            ∧ (∀ j label, columns df !! j = Some label →
                 cell_value ws' 1 (Pos.of_succ_nat j)
                 = put_value label (cell_value old 1 (Pos.of_succ_nat j)))
            ∧ (∀ i j row label, rows df !! i = Some row → columns df !! j = Some label →
                 cell_value ws' (Pos.of_succ_nat (S i)) (Pos.of_succ_nat j)
                 = put_value (cell_at j row)
                     (cell_value old (Pos.of_succ_nat (S i)) (Pos.of_succ_nat j)))
            ∧ ∀ r c, ((1 + length (rows df) < Pos.to_nat r)%nat
                      ∨ (length (columns df) < Pos.to_nat c)%nat) →
                     ws' !! (r, c) = old !! (r, c).
Proof.
  split; [split; [exact demo_tracked_sheets_distinct | exact demo_merchant5_fillable]|].
  exact (fill_cols_writes Demo.splitter Demo.merchant5
           demo_tracked_sheets_distinct demo_merchant5_fillable).
Defined.


Lemma split_sellers_keeps_inputs_witness :
(("Pivot" ∉ input_sheet_names Demo.splitter)
   ∧ saved_ws <$> template_file Demo.splitter !! "Pivot"
     = template_file Demo.splitter !! "Pivot")
  ∧ same_config Demo.splitter (split_sellers (Demo.splitter, Demo.world)).1.1
  ∧ dfs (split_sellers (Demo.splitter, Demo.world)).1.1 = dfs Demo.splitter
  ∧ contacts (split_sellers (Demo.splitter, Demo.world)).1.1 = contacts Demo.splitter
  ∧ template_file (split_sellers (Demo.splitter, Demo.world)).1.1 !! "Pivot"
    = template_file Demo.splitter !! "Pivot"
  ∧ ∀ path wb, disk (split_sellers (Demo.splitter, Demo.world)).1.2 !! path = Some wb →
               disk Demo.world !! path = Some wb
               ∨ wb !! "Pivot" = template_file Demo.splitter !! "Pivot".
Proof.
  assert ("Pivot" ∉ input_sheet_names Demo.splitter) as Hout by by_evaluation.
  assert (saved_ws <$> template_file Demo.splitter !! "Pivot"
          = template_file Demo.splitter !! "Pivot") as Hloaded by by_evaluation.
  split; [exact (conj Hout Hloaded)|].
  destruct (split_sellers_keeps_inputs Demo.splitter Demo.world "Pivot" Hout)
    as (Hcfg & Hdfs & Hcontacts & _ & _ & Hsame).
  destruct (Hsame Hloaded) as [Hmem Hfiles].
  exact (conj Hcfg (conj Hdfs (conj Hcontacts (conj Hmem Hfiles)))).
Defined.

Lemma split_sellers_counts_witness :
  (split_sellers (Demo.splitter, Demo.world)
   = ((Demo.split_state.1, Demo.split_state.2), Ok tt)
   ∧ getitem (contacts Demo.splitter) (id_column Demo.splitter)
     = Ok (Series [VInt 5; VInt 8]))
  ∧ length (files Demo.split_state.1)
    = (length (files Demo.splitter) + length (sel_iter (Series [VInt 5; VInt 8])))%nat.
Proof.
  assert (is_ok (split_sellers (Demo.splitter, Demo.world)).2 = true) as Hok
    by (vm_compute; reflexivity).
  assert (split_sellers (Demo.splitter, Demo.world)
          = ((Demo.split_state.1, Demo.split_state.2), Ok tt)) as Hrun.
  { unfold Demo.split_state.
    destruct (split_sellers (Demo.splitter, Demo.world)) as [[sp' w'] [[]|e]];
      [reflexivity | discriminate Hok]. }
  assert (getitem (contacts Demo.splitter) (id_column Demo.splitter)
          = Ok (Series [VInt 5; VInt 8])) as Hids by by_evaluation.
  split; [exact (conj Hrun Hids)|].
  exact (split_sellers_counts Demo.splitter Demo.split_state.1 Demo.world
           Demo.split_state.2 (Series [VInt 5; VInt 8]) Hrun Hids).
Defined.

Lemma stale_cell_survives_iteration_witness :
  (template_file Demo.splitter !! "GMS_AGG"
   = Some (<[(60, 1)%positive := VStr "stale"]> (<[(1, 1)%positive := VStr "old"]> ∅))
   ∧ (50 < 60)%positive
   ∧ ∀ df, dfs Demo.splitter !! "GMS_AGG" = Some df →
           (1 + length (rows df) < Pos.to_nat 60)%nat)
  ∧ ∃ ws', template_file (split_one 5 (Demo.splitter, Demo.world)).1.1 !! "GMS_AGG"
           = Some ws'
           ∧ cell_value ws' 60 1 = VStr "stale".
Proof.
  assert (template_file Demo.splitter !! "GMS_AGG"
          = Some (<[(60, 1)%positive := VStr "stale"]>
                    (<[(1, 1)%positive := VStr "old"]> ∅))) as H1 by by_evaluation.
  assert ((50 < 60)%positive) as H2 by reflexivity.
  assert (∀ df, dfs Demo.splitter !! "GMS_AGG" = Some df →
                (1 + length (rows df) < Pos.to_nat 60)%nat) as H3.
  { intros df Hdf.
    assert (dfs Demo.splitter !! "GMS_AGG" = Some Demo.gms_agg) as Hagg by by_evaluation.
    assert (df = Demo.gms_agg) as -> by congruence. cbn. lia. }
  split; [done|].
  destruct (stale_cell_survives_iteration 5 Demo.splitter Demo.world "GMS_AGG" _ 60 1
              H1 H2 H3) as (ws' & Hws' & _ & Hsame).
  exists ws'. split; [exact Hws'|]. exact (Hsame eq_refl).
Defined.

Lemma send_multiple_emails_all_accepted_witness :
  (length ["output/relatorio-AcmeCo.xlsx"; "output/relatorio-Bolt.xlsx"]
   = length [VStr "acme@example.com"; VStr "bolt@example.com"]
   ∧ ∀ history file to,
       outlook history {| email_list := to; subject := VStr "Report";
                          body := VStr "Hello"; attachment := abspath file |} = None)
  ∧ send_multiple_emails ["output/relatorio-AcmeCo.xlsx"; "output/relatorio-Bolt.xlsx"]
      (Series [VStr "acme@example.com"; VStr "bolt@example.com"])
      (VStr "Report") (VStr "Hello") Demo.world
    = ({| disk := disk Demo.world; dirs := dirs Demo.world;
          trace := trace Demo.world
                   ++ zip_with (λ file to,
                                  MailSent {| email_list := to; subject := VStr "Report";
                                              body := VStr "Hello";
                                              attachment := abspath file |})
                        ["output/relatorio-AcmeCo.xlsx"; "output/relatorio-Bolt.xlsx"]
                        [VStr "acme@example.com"; VStr "bolt@example.com"] |}, Ok tt).
Proof.
  assert (∀ history file to,
            outlook history {| email_list := to; subject := VStr "Report";
                               body := VStr "Hello"; attachment := abspath file |} = None)
    as Hacc by reflexivity.
  split; [by split|].
  exact (send_multiple_emails_all_accepted
           ["output/relatorio-AcmeCo.xlsx"; "output/relatorio-Bolt.xlsx"]
           [VStr "acme@example.com"; VStr "bolt@example.com"]
           (VStr "Report") (VStr "Hello") Demo.world eq_refl Hacc).
Defined.

Lemma main_stops_when_export_fails_witness :
  main_export Demo.empty_world = (Demo.empty_world, Raise FileNotFoundError)
  ∧ main "send" Demo.empty_world = (Demo.empty_world, Raise FileNotFoundError)
  ∧ trace Demo.empty_world = trace Demo.empty_world.
Proof.
  assert (main_export Demo.empty_world = (Demo.empty_world, Raise FileNotFoundError))
    as Hexp by by_evaluation.
  split; [exact Hexp|].
  exact (main_stops_when_export_fails "send" Demo.empty_world Demo.empty_world
           FileNotFoundError Hexp).
Defined.

Lemma demo_export_completes :
  main_export Demo.world = (Demo.world_after, Ok Demo.splitter_after).
Proof.
  assert (is_ok (main_export Demo.world).2 = true) as Hok by (vm_compute; reflexivity).
  unfold Demo.world_after, Demo.splitter_after.
  destruct (main_export Demo.world) as [w [sp|e]]; [reflexivity | discriminate Hok].
Defined.

Lemma main_sends_one_mail_per_contact_witness :
  (main_export Demo.world = (Demo.world_after, Ok Demo.splitter_after)
   ∧ getitem (contacts Demo.splitter_after) COLUMN_ID = Ok (Series [VInt 5; VInt 8])
   ∧ getitem (contacts Demo.splitter_after) COLUMN_EMAIL
     = Ok (Series [VStr "acme@example.com"; VStr "bolt@example.com"])
   ∧ getitem (contacts Demo.splitter_after) COLUMN_SUBJECT
     = Ok (Series [VStr "Report"; VNaN])
   ∧ getitem (contacts Demo.splitter_after) COLUMN_BODY
     = Ok (Series [VStr "Hello"; VNaN])
   ∧ ∀ history file to,
       outlook history {| email_list := to; subject := VStr "Report";
                          body := VStr "Hello"; attachment := abspath file |} = None)
  ∧ length (files Demo.splitter_after)
    = length [VStr "acme@example.com"; VStr "bolt@example.com"]
  ∧ main "send" Demo.world
    = ({| disk := disk Demo.world_after; dirs := dirs Demo.world_after;
          trace := trace Demo.world
                   ++ [PrintedFrame (contacts Demo.splitter_after);
                       Prompted "Please check files and type 'send' to send emails: "]
                   ++ zip_with (λ file to,
                                  MailSent {| email_list := to; subject := VStr "Report";
                                              body := VStr "Hello";
                                              attachment := abspath file |})
                        (files Demo.splitter_after)
                        [VStr "acme@example.com"; VStr "bolt@example.com"] |}, Ok tt).
Proof.
  assert (getitem (contacts Demo.splitter_after) COLUMN_ID
          = Ok (Series [VInt 5; VInt 8])) as H2 by by_evaluation.
  assert (getitem (contacts Demo.splitter_after) COLUMN_EMAIL
          = Ok (Series [VStr "acme@example.com"; VStr "bolt@example.com"])) as H3
    by by_evaluation.
  assert (getitem (contacts Demo.splitter_after) COLUMN_SUBJECT
          = Ok (Series [VStr "Report"; VNaN])) as H4 by by_evaluation.
  assert (getitem (contacts Demo.splitter_after) COLUMN_BODY
          = Ok (Series [VStr "Hello"; VNaN])) as H5 by by_evaluation.
  assert (∀ history file to,
            outlook history {| email_list := to; subject := VStr "Report";
                               body := VStr "Hello"; attachment := abspath file |} = None)
    as H6 by reflexivity.
  split; [exact (conj demo_export_completes (conj H2 (conj H3 (conj H4 (conj H5 H6)))))|].
  exact (main_sends_one_mail_per_contact Demo.world Demo.world_after Demo.splitter_after
           _ _ _ _ _ _ demo_export_completes H2 H3 H4 H5 H6).
Defined.

Lemma main_send_without_contacts_witness :
  (@main_export Demo.platform_no_contacts Demo.world
   = (Demo.world, Ok Demo.splitter_no_contacts)
   ∧ rows (contacts Demo.splitter_no_contacts) = [])
  ∧ (@main Demo.platform_no_contacts "send" Demo.world).2 = Raise KeyError
  ∧ mails_sent (trace (@main Demo.platform_no_contacts "send" Demo.world).1)
    = mails_sent (trace Demo.world).
Proof.
  assert (@main_export Demo.platform_no_contacts Demo.world
          = (Demo.world, Ok Demo.splitter_no_contacts)) as Hexp by by_evaluation.
  split; [by split|].
  exact (@main_send_without_contacts Demo.platform_no_contacts Demo.world Demo.world
           Demo.splitter_no_contacts Hexp eq_refl).
Defined.

End FurtherOnTheSmallRun.
